(** * csvfire: a shallow embedding of the row-processing pipeline

    The development follows the Go packages of the repository:

    - [GoString]: Go strings as byte sequences, with the few operations of
      the [strings] / [regexp] / [unicode/utf8] packages that the code uses
      and that can be written out;
    - [Phone]: the Korean-mobile E.164 rewrite, which exists twice in the
      sources ([validator.formatKoreanPhoneE164] and [request.toE164KR]);
    - [Validator]: [internal/validator] ([ValidateRow] and its helpers);
    - [Client]: [internal/request/client.go] ([Execute], [shouldRetry],
      [calculateBackoff]);
    - [Fingerprint]: the two [generateRequestHash] functions;
    - [Runner]: [internal/runner/runner.go] ([processTask], [Run]);
    - [ConfigCheck], [Reader], [Logger]: the checks of [internal/config],
      the CSV reader and the logger.

    Go maps are [gmap]s; wherever the code ranges over a map the order of
    iteration is an explicit input of the model. *)

From Stdlib Require Import ZArith QArith Ascii String List Bool Lia.
From Stdlib Require OrderedTypeEx.
From stdpp Require Import base option list gmap strings pretty sorting.

Set Default Proof Using "Type".
Set Warnings "-clear-no-such-hyp".
Local Open Scope Z_scope.

(* ===================================================================== *)
(** ** Go strings *)
(* ===================================================================== *)

Module GoString.

(** A Go [string] is an immutable sequence of bytes; Rocq's [string] is a
    list of 8-bit [ascii], so the two coincide.  [len(s)] is the number of
    bytes. *)
Definition len (s : string) : Z := Z.of_nat (String.length s).

(** [s[n:]] for [n <= len(s)]. *)
Fixpoint slice_from (n : nat) (s : string) : string :=
  match n, s with
  | O, _ => s
  | S n', String _ s' => slice_from n' s'
  | S _, EmptyString => EmptyString
  end.

(** [strings.HasPrefix(s, p)]. *)
Definition HasPrefix (s p : string) : bool := String.prefix p s.

(** The bytes ['0'] .. ['9']. *)
Definition is_digit (c : ascii) : bool :=
  let n := nat_of_ascii c in (48 <=? n)%nat && (n <=? 57)%nat.

(** [regexp.MustCompile(`\D`).ReplaceAllString(s, "")].

    [\D] is the negated Perl class: it matches every code point other than
    the ASCII digits.  The regexp engine walks the string rune by rune; all
    bytes of a multi-byte UTF-8 sequence are [>= 0x80], and a byte that is
    not valid UTF-8 is read as U+FFFD of width one, so every byte that is
    not an ASCII digit belongs to a matched rune and is deleted, and every
    ASCII digit is kept. *)
Fixpoint strip_non_digits (s : string) : string :=
  match s with
  | EmptyString => EmptyString
  | String c s' =>
      if is_digit c then String c (strip_non_digits s') else strip_non_digits s'
  end.

(** A UTF-8 continuation byte, [10xxxxxx]. *)
Definition is_continuation (c : ascii) : bool :=
  let n := nat_of_ascii c in (128 <=? n)%nat && (n <=? 191)%nat.

(** [utf8.RuneCountInString(s)] on well-formed UTF-8: every code point has
    exactly one byte that is not a continuation byte. *)
Fixpoint rune_count (s : string) : Z :=
  match s with
  | EmptyString => 0
  | String c s' => (if is_continuation c then 0 else 1) + rune_count s'
  end.

(** [strings.Join(l, sep)]. *)
Definition Join (l : list string) (sep : string) : string := String.concat sep l.

(** [%d] of [fmt] and [strconv.Itoa]. *)
Definition Itoa (n : Z) : string := pretty n.

(** [strings.Contains(s, sub)]. *)
Definition Contains (s sub : string) : bool :=
  match String.index 0 sub s with Some _ => true | None => false end.

End GoString.

(* ===================================================================== *)
(** ** The Korean-mobile E.164 rewrite *)
(* ===================================================================== *)

Module Phone.
Import GoString.

(** [validator.formatKoreanPhoneE164] (validator, transform step). *)
Definition formatKoreanPhoneE164 (phone : string) : string :=
  let cleaned := strip_non_digits phone in
  if (len cleaned =? 10) && HasPrefix cleaned "0" then
    "+82" +:+ slice_from 1 cleaned
  else if (len cleaned =? 11) && HasPrefix cleaned "01" then
    "+82" +:+ slice_from 1 cleaned
  else cleaned.

(** [request.toE164KR] (template function table). *)
Definition toE164KR (phone : string) : string :=
  let cleaned := strip_non_digits phone in
  if (len cleaned =? 10) && HasPrefix cleaned "0" then
    "+82" +:+ slice_from 1 cleaned
  else if (len cleaned =? 11) && HasPrefix cleaned "01" then
    "+82" +:+ slice_from 1 cleaned
  else cleaned.

(** The rewrite as the specification words it, over the list of digits:
    keep the digits; when there are 10 of them and the first is [0], or 11
    of them and the first two are [0], [1], answer [+82] followed by the
    digits without the leading [0]; otherwise answer the digits. *)
Definition digits_of (phone : string) : list ascii :=
  List.filter is_digit (list_ascii_of_string phone).

Definition is_korean_mobile (ds : list ascii) : bool :=
  match ds with
  | d0 :: rest =>
      match rest with
      | d1 :: _ =>
          (Ascii.eqb d0 "0" && (List.length ds =? 10)%nat)
          || (Ascii.eqb d0 "0" && Ascii.eqb d1 "1" && (List.length ds =? 11)%nat)
      | [] => false
      end
  | [] => false
  end.

Definition e164kr_spec (phone : string) : string :=
  let ds := digits_of phone in
  if is_korean_mobile ds
  then string_of_list_ascii ("+"%char :: "8"%char :: "2"%char :: List.tl ds)
  else string_of_list_ascii ds.

End Phone.

(* ===================================================================== *)
(** ** Library functions the sources call *)
(* ===================================================================== *)

(** The packages [strings], [strconv], [regexp], [time], [text/template],
    [crypto/sha256] and [shopspring/decimal] are not part of the repository.
    The functions of them that the code calls and that are not written out
    in [GoString] are collected in one interface; every result below holds
    for all its implementations.  A failing call answers [inr msg], [msg]
    being the text of [err.Error()].  [json_Unmarshal body] is the decoding
    of [body] into a [map[string]interface{}], each value already printed
    with [%v]; it is [None] when the body is not a JSON object.
    [sha256_hex s] is [fmt.Sprintf("%x", sha256.Sum256(s))].
    [fmt_Errorf format] is the text of [fmt.Errorf(format)], a call without
    operands: [format] is read as a format string, so a verb in it is
    printed as a missing operand.

    The runtime is part of the interface too.  [range_Replace row col i m]
    is the order in which [for from, to := range rule.Replace] visits the
    map [m] when [preprocess] runs for row [row], column [col] and the
    [i]-th rule; the runtime picks an order for every such loop, and the
    only thing known about it is that it visits every pair once. *)
Class GoLib := {
  Time : Type;
  strings_TrimSpace : string -> string;
  strings_ReplaceAll : string -> string -> string -> string;
  strings_Split : string -> string -> list string;
  strconv_Atoi : string -> Z + string;
  strconv_ParseFloat : string -> option string;
  decimal_NewFromString : string -> option string;
  regexp_MatchString : string -> string -> bool + string;
  time_Parse : string -> string -> Time + string;
  time_Now : Time;
  time_Year : Time -> Z;
  time_After : Time -> Time -> bool;
  time_AddDate : Time -> Z -> Z -> Z -> Time;
  template_Execute : string -> gmap string string -> string + string;
  json_Unmarshal : string -> option (gmap string string);
  sha256_hex : string -> string;
  fmt_Errorf : string -> string;
  range_Replace : Z -> string -> nat -> gmap string string -> list (string * string);
  range_Replace_visits_each_once :
    forall row col i m, range_Replace row col i m ≡ₚ map_to_list m
}.

(* ===================================================================== *)
(** ** internal/config: the schema *)
(* ===================================================================== *)

Module Config.

(** [PreprocessRule].  [Replace] is a Go map that the validator ranges
    over; the order of that iteration is the runtime's ([range_Replace]). *)
Record PreprocessRule := {
  Remove : list string;
  Replace : gmap string string;
  Trim : bool
}.

Record ValidationRule := { vRegex : string; vMessage : string }.

Record TransformRule := { FormatKoreanPhoneE164 : bool }.

(** [ColumnSchema]; [MinLen] and [MaxLen] are [*int], [Normalize] is a
    pointer to a struct holding one map.  ([Range] and [Secret] are not
    read by the validator.) *)
Record ColumnSchema := {
  Name : string;
  Type_ : string;
  Required : bool;
  Secret : bool;
  MinLen : option Z;
  MaxLen : option Z;
  Regex : string;
  Enum : list string;
  Format : string;
  Preprocess : list PreprocessRule;
  Validators : list ValidationRule;
  Transform : list TransformRule;
  Normalize : option (gmap string string)
}.

Record RowRule := { rName : string; rExpr : string }.

Record UniquenessRule := { Columns : list string }.

Record Schema := {
  SchemaColumns : list ColumnSchema;
  RowRules : list RowRule;
  Uniqueness : list UniquenessRule;
  TreatEmptyAsNull : bool
}.

(** [Schema.GetColumnNames]. *)
Definition GetColumnNames (s : Schema) : list string :=
  List.map Name (SchemaColumns s).

(** [RequestConfig]; [Headers] is a map from header name to template. *)
Record RequestConfig := {
  Method : string;
  URL : string;
  Headers : gmap string string;
  Body : string;
  Proxy : string;
  StatusIn : list Z;
  ResponseKeys : gmap string string
}.

(** [RequestConfig.IsSuccessStatus]. *)
Definition IsSuccessStatus (rc : RequestConfig) (statusCode : Z) : bool :=
  existsb (Z.eqb statusCode) (StatusIn rc).

End Config.

(* ===================================================================== *)
(** ** internal/validator *)
(* ===================================================================== *)

Module Validator.
Import GoString Config.

Record ValidationError := {
  Row : Z;
  Column : string;
  Value : string;
  Message : string
}.

Record ValidationResult := {
  Valid : bool;
  Errors : list ValidationError;
  Data : gmap string string
}.

(** The mutable part of a [Validator]: [seen], column -> value -> seen. *)
Abbreviation Seen := (gmap string (gset string)).

(** [NewValidator]: one empty inner map per column of a uniqueness rule. *)
Definition NewValidator (schema : Schema) : Seen :=
  foldl (fun seen rule =>
           foldl (fun seen col =>
                    match seen !! col with
                    | None => <[col := ∅]> seen
                    | Some _ => seen
                    end) seen (Columns rule))
        ∅ (Uniqueness schema).

(** Early return on the first error: [check! e; k] is
    [if err := e; err != nil { return err }; k]. *)
Notation "'check!' e ; k" :=
  (match e with Some err => Some err | None => k end)
  (at level 10, e at level 100, k at level 200, only parsing).

Section WithLib.
Context `{L : GoLib}.

(** One rule of [Validator.preprocess]; [order] is the order in which the
    loop over [rule.Replace] visits the map. *)
Definition preprocessRule (result : string) (rule : PreprocessRule)
    (order : list (string * string)) : string :=
  (* Apply trim *)
  let result := if Trim rule then strings_TrimSpace result else result in
  (* Apply removals *)
  let result :=
    foldl (fun r toRemove => strings_ReplaceAll r toRemove "")
          result (Remove rule) in
  (* Apply replacements *)
  foldl (fun r ft => strings_ReplaceAll r (fst ft) (snd ft)) result order.

(** [Validator.preprocess], called by [ValidateRow] for row [rowNum] and
    column [col]; the two say which call it is, for the runtime's choice of
    the order of [range rule.Replace]. *)
Definition preprocess (rowNum : Z) (col : string) (value : string)
    (rules : list PreprocessRule) : string :=
  foldl (fun result ir =>
           preprocessRule result ir.2
             (range_Replace rowNum col ir.1 (Replace ir.2)))
        value (imap pair rules).

(** The age in whole years used by [validateDate] and [evaluateRowRule]. *)
Definition age_of (date : Time) : Z :=
  let now := time_Now in
  let age := time_Year now - time_Year date in
  if time_After date (time_AddDate now (- age) 0 0) then age - 1 else age.

(** [Validator.validateDate]. *)
Definition validateDate (value format : string) : option string :=
  let format := if String.eqb format "" then "20060102" else format in
  match time_Parse format value with
  | inr e => Some ("invalid date format: " +:+ e)
  | inl date =>
      if String.eqb format "20060102" then
        let age := age_of date in
        if (age <? 0) || (age >? 120)
        then Some ("invalid age: " +:+ Itoa age +:+ " (must be 0-120)")
        else None
      else None
  end.

(** [Validator.validateType]. *)
Definition validateType (value colType format : string) : option string :=
  if String.eqb colType "string" then None
  else if String.eqb colType "int" then
    match strconv_Atoi value with
    | inr e => Some ("invalid integer: " +:+ e)
    | inl _ => None
    end
  else if String.eqb colType "float" then
    match strconv_ParseFloat value with
    | Some e => Some ("invalid float: " +:+ e)
    | None => None
    end
  else if HasPrefix colType "decimal(" then
    match decimal_NewFromString value with
    | Some e => Some ("invalid decimal: " +:+ e)
    | None => None
    end
  else if HasPrefix colType "date" then validateDate value format
  else Some ("unsupported column type: " +:+ colType).

(** The loop over [colSchema.Validators] in [validateValue]. *)
Fixpoint customValidators (value : string) (rules : list ValidationRule)
  : option string :=
  match rules with
  | [] => None
  | rule :: rest =>
      if String.eqb (vRegex rule) "" then customValidators value rest
      else
        match regexp_MatchString (vRegex rule) value with
        | inr e => Some ("custom validation error: " +:+ e)
        | inl false =>
            let message :=
              if String.eqb (vMessage rule) ""
              then "value does not match validation rule"
              else vMessage rule in
            Some (fmt_Errorf message)
        | inl true => customValidators value rest
        end
  end.

(** [Validator.validateValue]: checks run in the order of the source and
    the first failing one returns its error. *)
Definition validateValue (value : string) (colSchema : ColumnSchema)
  : option string :=
  (* Type validation *)
  check! validateType value (Type_ colSchema) (Format colSchema);
  (* Length constraints *)
  check! match MinLen colSchema with
         | Some n =>
             if len value <? n
             then Some ("value too short (min " +:+ Itoa n +:+ " characters)")
             else None
         | None => None
         end;
  check! match MaxLen colSchema with
         | Some n =>
             if len value >? n
             then Some ("value too long (max " +:+ Itoa n +:+ " characters)")
             else None
         | None => None
         end;
  (* Regex validation *)
  check! if String.eqb (Regex colSchema) "" then None
         else match regexp_MatchString (Regex colSchema) value with
              | inr e => Some ("regex validation error: " +:+ e)
              | inl false => Some "value does not match required pattern"
              | inl true => None
              end;
  (* Enum validation *)
  check! if (0 <? Z.of_nat (List.length (Enum colSchema)))
         then if existsb (String.eqb value) (Enum colSchema) then None
              else Some ("value must be one of: " +:+ Join (Enum colSchema) ", ")
         else None;
  (* Custom validation rules *)
  customValidators value (Validators colSchema).

(** [Validator.transform]. *)
Definition transform (value : string) (rules : list TransformRule) : string :=
  foldl (fun result rule =>
           if FormatKoreanPhoneE164 rule
           then Phone.formatKoreanPhoneE164 result else result)
        value rules.

(** [Validator.evaluateRowRule]. *)
Definition evaluateRowRule (expr : string) (data : gmap string string) : bool :=
  if Contains expr "age(birth)" then
    let birthStr := default "" (data !! "birth") in
    if String.eqb birthStr "" then false
    else match time_Parse "20060102" birthStr with
    | inr _ => false
    | inl birth =>
      let age := age_of birth in
      let ageExpr := strings_ReplaceAll expr "age(birth)" (Itoa age) in
      if Contains ageExpr ">=" && Contains ageExpr "&&" && Contains ageExpr "<="
      then
        match strings_Split ageExpr "&&" with
        | [part0; part1] =>
            let left := strings_TrimSpace part0 in
            let leftOk :=
              if Contains left ">=" then
                match strings_Split left ">=" with
                | [_; bound] =>
                    match strconv_Atoi (strings_TrimSpace bound) with
                    | inr _ => false
                    | inl minAge => negb (age <? minAge)
                    end
                | _ => true
                end
              else true in
            if negb leftOk then false
            else
              let right := strings_TrimSpace part1 in
              if Contains right "<=" then
                match strings_Split right "<=" with
                | [_; bound] =>
                    match strconv_Atoi (strings_TrimSpace bound) with
                    | inr _ => false
                    | inl maxAge => negb (age >? maxAge)
                    end
                | _ => true
                end
              else true
        | _ => true
        end
      else true
    end
  else true.

(** One iteration of the column loop of [ValidateRow]. *)
Definition validateColumn (treatEmptyAsNull : bool) (rowNum : Z)
    (data : gmap string string) (result : ValidationResult)
    (colSchema : ColumnSchema) : ValidationResult :=
  let value := default "" (data !! Name colSchema) in
  let exists_ := bool_decide (is_Some (data !! Name colSchema)) in
  (* Handle null policy *)
  let exists_ :=
    if treatEmptyAsNull && String.eqb value "" then false else exists_ in
  (* Check required fields *)
  if Required colSchema && (negb exists_ || String.eqb value "") then
    {| Valid := false;
       Errors := Errors result ++
                 [{| Row := rowNum; Column := Name colSchema; Value := value;
                     Message := "required field is missing or empty" |}];
       Data := Data result |}
  (* Skip validation for empty non-required fields *)
  else if negb exists_ || String.eqb value "" then
    {| Valid := Valid result; Errors := Errors result;
       Data := <[Name colSchema := ""]> (Data result) |}
  else
    (* Apply preprocessing *)
    let processedValue :=
      preprocess rowNum (Name colSchema) value (Preprocess colSchema) in
    (* Apply normalization *)
    let processedValue :=
      match Normalize colSchema with
      | Some m => match m !! processedValue with
                  | Some mapped => mapped
                  | None => processedValue
                  end
      | None => processedValue
      end in
    (* Validate the processed value *)
    match validateValue processedValue colSchema with
    | Some err =>
        {| Valid := false;
           Errors := Errors result ++
                     [{| Row := rowNum; Column := Name colSchema; Value := value;
                         Message := err |}];
           Data := Data result |}
    | None =>
        (* Apply transformations *)
        let transformedValue := transform processedValue (Transform colSchema) in
        {| Valid := Valid result; Errors := Errors result;
           Data := <[Name colSchema := transformedValue]> (Data result) |}
    end.

End WithLib.

(** The body of the inner loop of [checkUniqueness], for one column; the
    state is the validator's [seen] and the result under construction.
    [v.seen[col][value]] reads [false] from a missing entry.  The write
    [v.seen[col][value] = true] needs the inner map [v.seen[col]]: Go
    panics when it is [nil].  [NewValidator] allocates it for every column
    of the uniqueness rules and nothing removes it, so the panic cannot
    happen on a validator's state; for a [seen] without the inner map the
    definition writes into an empty one. *)
Definition checkUniqueColumn (rowNum : Z) (st : Seen * ValidationResult)
    (col : string) : Seen * ValidationResult :=
  let '(seen, result) := st in
  let value := default "" (Data result !! col) in
  if String.eqb value "" then st (* Skip empty values for uniqueness *)
  else
    let inner := default ∅ (seen !! col) in
    if bool_decide (value ∈ inner) then
      (seen,
       {| Valid := false;
          Errors := Errors result ++
                    [{| Row := rowNum; Column := col; Value := value;
                        Message := "duplicate value violates uniqueness constraint" |}];
          Data := Data result |})
    else (<[col := {[value]} ∪ inner]> seen, result).

(** [Validator.checkUniqueness]. *)
Definition checkUniqueness (schema : Schema) (rowNum : Z)
    (st : Seen * ValidationResult) : Seen * ValidationResult :=
  foldl (fun st rule => foldl (checkUniqueColumn rowNum) st (Columns rule))
        st (Uniqueness schema).

Section WithLib.
Context `{L : GoLib}.

(** [Validator.validateRowRules]. *)
Definition validateRowRules (schema : Schema) (rowNum : Z)
    (result : ValidationResult) : ValidationResult :=
  foldl (fun result rule =>
           if negb (evaluateRowRule (rExpr rule) (Data result)) then
             {| Valid := false;
                Errors := Errors result ++
                          [{| Row := rowNum; Column := ""; Value := "";
                              Message := "row rule '" +:+ rName rule +:+
                                         "' failed: " +:+ rExpr rule |}];
                Data := Data result |}
           else result)
        result (RowRules schema).

(** The column loop of [ValidateRow], from the empty result. *)
Definition validateColumns (schema : Schema) (rowNum : Z)
    (data : gmap string string) : ValidationResult :=
  foldl (validateColumn (TreatEmptyAsNull schema) rowNum data)
        {| Valid := true; Errors := []; Data := ∅ |}
        (SchemaColumns schema).

(** [Validator.ValidateRow]: the validator's [seen] goes in and comes
    out. *)
Definition ValidateRow (schema : Schema) (seen : Seen) (rowNum : Z)
    (data : gmap string string) : Seen * ValidationResult :=
  let result := validateColumns schema rowNum data in
  (* Check uniqueness constraints *)
  let '(seen, result) :=
    if Valid result then checkUniqueness schema rowNum (seen, result)
    else (seen, result) in
  (* Validate row-level rules *)
  let result :=
    if Valid result then validateRowRules schema rowNum result else result in
  (seen, result).


End WithLib.

(** *** Vocabulary for the results about the validator *)

(** The error of the required check. *)
Definition requiredError (rowNum : Z) (col : string) : ValidationError :=
  {| Row := rowNum; Column := col; Value := "";
     Message := "required field is missing or empty" |}.

(** The text of the error of [checkUniqueness]. *)
Definition duplicateMessage : string :=
  "duplicate value violates uniqueness constraint".

Definition duplicateError (rowNum : Z) (col value : string) : ValidationError :=
  {| Row := rowNum; Column := col; Value := value; Message := duplicateMessage |}.

(** The columns of all uniqueness rules, in the order of the two loops. *)
Definition uniquenessColumns (schema : Schema) : list string :=
  List.concat (List.map Columns (Uniqueness schema)).


(** [v.seen[col]] read as a set; a missing inner map reads as empty. *)
Definition seenAt (seen : Seen) (col : string) : gset string :=
  default ∅ (seen !! col).

(** The row's value of [col] is not empty and was seen before. *)
Definition isDuplicate (seen : Seen) (r : ValidationResult) (col : string) : bool :=
  let value := default "" (Data r !! col) in
  negb (String.eqb value "") && bool_decide (value ∈ seenAt seen col).

Section WithLib.
Context `{L : GoLib}.

(** The value that [ValidateRow] validates for a column whose raw value is
    [value]: the value after [preprocess] and after the [normalize] map. *)
Definition processedValue (rowNum : Z) (c : ColumnSchema) (value : string) : string :=
  let p := preprocess rowNum (Name c) value (Preprocess c) in
  match Normalize c with
  | Some m => default p (m !! p)
  | None => p
  end.

(** The row has no error after the column loop, so [checkUniqueness] runs. *)
Definition reachesUniqueness (schema : Schema) (rowNum : Z)
    (data : gmap string string) : bool :=
  Valid (validateColumns schema rowNum data).

(** The value that [checkUniqueness] reads for [col]: [result.Data[col]]. *)
Definition uniqueValue (schema : Schema) (rowNum : Z)
    (data : gmap string string) (col : string) : string :=
  default "" (Data (validateColumns schema rowNum data) !! col).



End WithLib.
End Validator.

(* ===================================================================== *)
(** ** internal/request/client.go *)
(* ===================================================================== *)

Module Client.
Import GoString Config.

Record RequestData := {
  rdURL : string;
  rdMethod : string;
  rdHeaders : gmap string string;
  rdBody : string;
  rdProxy : string;
  rdHash : string
}.

Record RequestResult := {
  StatusCode : Z;
  Success : bool;
  LatencyMs : Z;
  Retries : Z;
  ErrorCategory : string;
  ErrorDetail : string;
  ResponsePreview : string;
  Headers : gmap string string;
  RequestID : string
}.

(** What one call of [executeRequest] meets on the network.  [http.Header]
    maps a name to the list of its values. *)
Inductive Transport :=
| BuildFailed (e : string)   (* http.NewRequestWithContext failed *)
| DoFailed (e : string)      (* client.Do failed: no response *)
| ReadFailed (status : Z) (hdr : gmap string (list string)) (e : string)
                             (* io.ReadAll on the response body failed *)
| Responded (status : Z) (hdr : gmap string (list string)) (body : string).

(** [Client.executeRequest]: status code, body, headers ([None] is the
    [nil] header map) and error. *)
Definition executeRequest (t : Transport)
  : Z * string * option (gmap string (list string)) * option string :=
  match t with
  | BuildFailed e => (0, "", None, Some ("failed to create request: " +:+ e))
  | DoFailed e => (0, "", None, Some e)
  | ReadFailed status hdr e =>
      (status, "", Some hdr, Some ("failed to read response body: " +:+ e))
  | Responded status hdr body => (status, body, Some hdr, None)
  end.

(** [shouldRetry]; the error argument is not read. *)
Definition shouldRetry (err : option string) (statusCode : Z) : bool :=
  if statusCode =? 0 then true
  else if (statusCode >=? 500) && (statusCode <? 600) then true
  else if statusCode =? 429 then true
  else false.

(** [categorizeError] on a non-nil error with text [errStr]. *)
Definition categorizeError (errStr : string) : string :=
  if Contains errStr "timeout" then "timeout"
  else if Contains errStr "connection refused" then "connection_refused"
  else if Contains errStr "no such host" then "dns_error"
  else if Contains errStr "context canceled" then "canceled"
  else if Contains errStr "context deadline exceeded" then "timeout"
  else "unknown".

(** [truncateResponse]. *)
Definition truncateResponse (body : string) : string :=
  if len body <=? 200 then body else String.substring 0 200 body +:+ "...".

(** ** Durations

    [time.Duration] is an [int64] count of nanoseconds. *)
Definition wrap64 (z : Z) : Z := (z + 2 ^ 63) mod 2 ^ 64 - 2 ^ 63.
Definition Second : Z := 1000000000.

(** Conversion of a [float64] to [int64]: truncation toward zero.  Out of
    range the result depends on the platform; this is amd64's. *)
Definition int64_of_float (q : Q) : Z :=
  let z := Z.quot (Qnum q) (Zpos (Qden q)) in
  if (- 2 ^ 63 <=? z) && (z <? 2 ^ 63) then z else - 2 ^ 63.

(** [Client.calculateBackoff].  [r1] and [r2] are the two values drawn from
    [rand.Float64()], in [0, 1).  The two [float64] products are taken as
    exact rationals, where the hardware rounds each to 53 bits: for some
    draws the truncated jitter, and with it the delay, is one nanosecond
    away from the code's.  The comparison with 30 seconds is the code's. *)
Definition calculateBackoff (attempt : nat) (r1 r2 : Q) : Z :=
  let baseDelay := Second in
  let delay := wrap64 (int64_of_float (inject_Z (2 ^ Z.of_nat attempt)) * baseDelay) in
  let jitter := int64_of_float (r1 * (1 # 2) * inject_Z delay) in
  let delay :=
    if Qlt_le_dec r2 (1 # 2) then wrap64 (delay - jitter) else wrap64 (delay + jitter) in
  if delay >? 30 * Second then 30 * Second else delay.

(** Everything outside the program that one call of [Execute] meets, by
    attempt number: the network, the clock ([time.Since(startTime)] in
    milliseconds), the random draws of the backoff, and whether [ctx.Done()]
    wins the [select] against the backoff timer. *)
Record Net := {
  transport : nat -> Transport;
  clock : nat -> Z;
  draws : nat -> Q * Q;
  ctxDone : nat -> bool
}.

(** The local state of [Execute]: the result under construction, [lastErr],
    and the backoff delays slept so far. *)
Record ExecState := {
  result : RequestResult;
  lastErr : option string;
  slept : list Z
}.

Definition firstValues (hdr : gmap string (list string)) (into : gmap string string)
  : gmap string string :=
  map_fold (fun k v acc => match v with v0 :: _ => <[k := v0]> acc | [] => acc end)
           into hdr.

Section WithLib.
Context `{L : GoLib}.

(** [Client.checkResponseConditions]. *)
Definition checkResponseConditions (rc : RequestConfig) (responseBody : string)
  : bool :=
  if Z.of_nat (size (ResponseKeys rc)) =? 0 then true
  else match json_Unmarshal responseBody with
       | None => false
       | Some jsonData =>
           bool_decide (map_Forall (fun key expectedValue =>
                                      jsonData !! key = Some expectedValue)
                                   (ResponseKeys rc))
       end.

(** How one turn of the attempt loop of [Execute] ends. *)
Inductive Flow := Continue | Break | Return.

(** The body of the attempt loop of [Execute]. *)
Definition attemptBody (rc : RequestConfig) (maxRetries : Z) (net : Net)
    (attempt : nat) (st : ExecState) : ExecState * Flow :=
  let r := result st in
  let '(statusCode, responseBody, headers, err) :=
    executeRequest (transport net attempt) in
  let hdrs := match headers with
              | Some h => firstValues h (Headers r)
              | None => Headers r
              end in
  match err with
  | Some e =>
      let r := {| StatusCode := statusCode; Success := Success r;
                  LatencyMs := clock net attempt; Retries := Z.of_nat attempt;
                  ErrorCategory := categorizeError e; ErrorDetail := e;
                  ResponsePreview := ResponsePreview r; Headers := hdrs;
                  RequestID := RequestID r |} in
      (* Only retry on network errors or 5xx status codes *)
      if negb (shouldRetry err statusCode) then
        ({| result := r; lastErr := Some e; slept := slept st |}, Break)
      (* Don't sleep on the last attempt *)
      else if Z.of_nat attempt <? maxRetries then
        let backoffDelay :=
          calculateBackoff attempt (fst (draws net attempt)) (snd (draws net attempt)) in
        if ctxDone net attempt
        then ({| result := r; lastErr := Some e; slept := slept st |}, Return)
        else ({| result := r; lastErr := Some e;
                 slept := slept st ++ [backoffDelay] |}, Continue)
      else ({| result := r; lastErr := Some e; slept := slept st |}, Continue)
  | None =>
      (* Success case *)
      let success := IsSuccessStatus rc statusCode in
      let success :=
        if success && (0 <? Z.of_nat (size (ResponseKeys rc)))
        then checkResponseConditions rc responseBody else success in
      ({| result := {| StatusCode := statusCode; Success := success;
                       LatencyMs := clock net attempt; Retries := Z.of_nat attempt;
                       ErrorCategory := ErrorCategory r;
                       ErrorDetail := ErrorDetail r;
                       ResponsePreview := truncateResponse responseBody;
                       Headers := hdrs; RequestID := RequestID r |};
          lastErr := lastErr st; slept := slept st |}, Break)
  end.

(** [for attempt := 0; attempt <= c.maxRetries; attempt++]: [fuel] is the
    number of turns left, [maxRetries + 1 - attempt].  The boolean tells
    whether the function returned from inside the loop. *)
Fixpoint attemptLoop (rc : RequestConfig) (maxRetries : Z) (net : Net)
    (fuel attempt : nat) (st : ExecState) : ExecState * bool :=
  match fuel with
  | O => (st, false)
  | S fuel' =>
      match attemptBody rc maxRetries net attempt st with
      | (st', Continue) => attemptLoop rc maxRetries net fuel' (S attempt) st'
      | (st', Break) => (st', false)
      | (st', Return) => (st', true)
      end
  end.

(** [Client.Execute], with the delays it slept. *)
Definition ExecuteTrace (rc : RequestConfig) (maxRetries : Z) (net : Net)
    (requestID : string) : RequestResult * list Z :=
  let init :=
    {| result := {| StatusCode := 0; Success := false; LatencyMs := 0;
                    Retries := 0; ErrorCategory := ""; ErrorDetail := "";
                    ResponsePreview := ""; Headers := ∅;
                    RequestID := requestID |};
       lastErr := None; slept := [] |} in
  let '(st, returned) :=
    attemptLoop rc maxRetries net (Z.to_nat (maxRetries + 1)) 0 init in
  let r := result st in
  if returned then (r, slept st)
  else
    (* If we've exhausted retries and still have an error *)
    match lastErr st with
    | Some e =>
        if String.eqb (ErrorCategory r) "" then
          ({| StatusCode := StatusCode r; Success := Success r;
              LatencyMs := LatencyMs r; Retries := Retries r;
              ErrorCategory := categorizeError e; ErrorDetail := e;
              ResponsePreview := ResponsePreview r; Headers := Headers r;
              RequestID := RequestID r |}, slept st)
        else (r, slept st)
    | None => (r, slept st)
    end.

Definition Execute (rc : RequestConfig) (maxRetries : Z) (net : Net)
    (requestID : string) : RequestResult :=
  fst (ExecuteTrace rc maxRetries net requestID).

End WithLib.

(** [NewClient] sets [maxRetries: 3]. *)
Definition defaultMaxRetries : Z := 3.

End Client.

(* ===================================================================== *)
(** ** The request fingerprint *)
(* ===================================================================== *)

Module Fingerprint.
Import GoString Config.

Definition nl : string := String (ascii_of_nat 10) EmptyString.

(** [if keys[i] > keys[j] { keys[i], keys[j] = keys[j], keys[i] }];
    Go compares strings byte-wise, as [String.ltb] does. *)
Definition swapIfGreater (i j : nat) (keys : list string) : list string :=
  match keys !! i, keys !! j with
  | Some ki, Some kj =>
      if String.ltb kj ki then <[j := ki]> (<[i := kj]> keys) else keys
  | _, _ => keys
  end.

(** [for j := i + 1; j < len(keys); j++ { ... }]. *)
Definition innerLoop (i : nat) (keys : list string) : list string :=
  foldl (fun ks j => swapIfGreater i j ks) keys
        (seq (S i) (length keys - S i)).

(** The "simple sort" of both [generateRequestHash] functions:
    [for i := 0; i < len(keys); i++ { for j := i + 1; ... }]. *)
Definition simpleSort (keys : list string) : list string :=
  foldl (fun ks i => innerLoop i ks) keys (seq 0 (length keys)).

(** The lines [data:<key>=<value>\n] written for the sorted keys. *)
Definition dataLines (data : gmap string string) (keys : list string) : string :=
  foldl (fun h key =>
           h +:+ "data:" +:+ key +:+ "=" +:+ default "" (data !! key) +:+ nl)
        "" keys.

(** The bytes written to the hash by [Runner.generateRequestHash];
    [order] is the order in which [range data] visits the keys. *)
Definition runnerPreimage (rc : RequestConfig) (data : gmap string string)
    (order : list string) : string :=
  ("method:" +:+ Method rc +:+ nl) +:+
  ("url:" +:+ URL rc +:+ nl) +:+
  ("body:" +:+ Body rc +:+ nl) +:+
  dataLines data (simpleSort order).

(** The lines [header:<name>=<template>\n], in the order of [range]. *)
Definition headerLines (headers : gmap string string) (horder : list string)
  : string :=
  foldl (fun h key =>
           h +:+ "header:" +:+ key +:+ "=" +:+ default "" (headers !! key) +:+ nl)
        "" horder.

(** The bytes written by [TemplateRenderer.generateRequestHash]; [horder]
    is the order in which [range tr.requestConfig.Headers] visits the
    header names. *)
Definition rendererPreimage (rc : RequestConfig) (data : gmap string string)
    (horder order : list string) : string :=
  ("method:" +:+ Method rc +:+ nl) +:+
  ("url:" +:+ URL rc +:+ nl) +:+
  ("body:" +:+ Body rc +:+ nl) +:+
  headerLines (Headers rc) horder +:+
  dataLines data (simpleSort order).


Section WithLib.
Context `{L : GoLib}.

(** [Runner.generateRequestHash] (runner.go). *)
Definition runnerRequestHash (rc : RequestConfig) (data : gmap string string)
    (order : list string) : string :=
  sha256_hex (runnerPreimage rc data order).

(** [TemplateRenderer.generateRequestHash] (template.go). *)
Definition rendererRequestHash (rc : RequestConfig) (data : gmap string string)
    (horder order : list string) : string :=
  sha256_hex (rendererPreimage rc data horder order).


End WithLib.

(** *** Vocabulary for the results about the hashed text *)





(** *** Vocabulary for the results about the simple sort *)

(** [a <= b] for Go strings: not [b < a]. *)
Definition leStr (a b : string) : Prop := String.ltb b a = false.


End Fingerprint.

(* ===================================================================== *)
(** ** internal/request/template.go: Render *)
(* ===================================================================== *)

Module Template.
Import GoString Config Client.

(** The orders of the three map iterations of one [Render] call. *)
Record RangeOrders := {
  renderHeaderOrder : list string;  (* range tr.headerTemplates, in Render *)
  hashHeaderOrder : list string;    (* range Headers, in generateRequestHash *)
  hashKeyOrder : list string        (* range data, in generateRequestHash *)
}.

Section WithLib.
Context `{L : GoLib}.

(** The header loop of [Render]: the first template that fails ends the
    call with its error. *)
Fixpoint renderHeaders (rc : RequestConfig) (data : gmap string string)
    (keys : list string) (acc : gmap string string)
  : gmap string string + string :=
  match keys with
  | [] => inl acc
  | key :: rest =>
      match template_Execute (default "" (Config.Headers rc !! key)) data with
      | inr e => inr ("failed to render header " +:+ key +:+ ": " +:+ e)
      | inl headerValue =>
          (* Only include non-empty headers *)
          renderHeaders rc data rest
            (if String.eqb headerValue "" then acc
             else <[key := headerValue]> acc)
      end
  end.

(** [TemplateRenderer.Render].  The body and proxy templates exist only
    when the configured strings are not empty. *)
Definition Render (rc : RequestConfig) (o : RangeOrders)
    (data : gmap string string) : RequestData + string :=
  match template_Execute (URL rc) data with
  | inr e => inr ("failed to render URL: " +:+ e)
  | inl url =>
  match renderHeaders rc data (renderHeaderOrder o) ∅ with
  | inr e => inr e
  | inl headers =>
  match (if String.eqb (Body rc) "" then inl ""
         else template_Execute (Body rc) data) with
  | inr e => inr ("failed to render body: " +:+ e)
  | inl body =>
  match (if String.eqb (Proxy rc) "" then inl ""
         else template_Execute (Proxy rc) data) with
  | inr e => inr ("failed to render proxy: " +:+ e)
  | inl proxy =>
      inl {| rdURL := url; rdMethod := Method rc; rdHeaders := headers;
             rdBody := body; rdProxy := proxy;
             rdHash := Fingerprint.rendererRequestHash rc data
                         (hashHeaderOrder o) (hashKeyOrder o) |}
  end end end end.

End WithLib.
End Template.

(* ===================================================================== *)
(** ** internal/runner *)
(* ===================================================================== *)

Module Runner.
Import GoString Config Client.

Record RowTask := {
  RowNumber : Z;
  TaskData : gmap string string;
  TaskRequestID : string
}.

Record RunResult := {
  TotalRows : Z;
  SuccessRows : Z;
  FailedRows : Z;
  SkippedRows : Z
}.

(** One invocation of the [ResultCallback]; the last argument is a pointer
    and may be [nil]. *)
Definition CallbackArgs : Type :=
  Z * Validator.ValidationResult * option RequestResult.

(** The fixed part of a [Runner]. *)
Record Settings := {
  schema : Schema;
  requestConfig : RequestConfig;
  maxRetries : Z
}.

(** What changes while tasks are processed: the validator's [seen] sets,
    the checkpoints ([map[string]bool], every stored value [true]), the
    counters of the [RunResult], and the callback invocations so far. *)
Record State := {
  seen : Validator.Seen;
  checkpoints : gset string;
  counters : RunResult;
  calls : list CallbackArgs
}.

(** What the processing of one task meets outside the program. *)
Record TaskEnv := {
  limiterFailed : bool;           (* limiter != nil and Wait(ctx) failed *)
  runnerKeyOrder : list string;   (* range data, Runner.generateRequestHash *)
  orders : Template.RangeOrders;
  net : Net
}.

(** [Runner.isAlreadyProcessed]. *)
Definition isAlreadyProcessed (st : State) (hash : string) : bool :=
  bool_decide (hash ∈ checkpoints st).

(** [Runner.LoadCheckpoints]: every key of the argument is stored. *)
Definition LoadCheckpoints (st : State) (loaded : gmap string bool) : State :=
  {| seen := seen st; checkpoints := dom loaded ∪ checkpoints st;
     counters := counters st; calls := calls st |}.

Definition addSkipped (r : RunResult) : RunResult :=
  {| TotalRows := TotalRows r; SuccessRows := SuccessRows r;
     FailedRows := FailedRows r; SkippedRows := SkippedRows r + 1 |}.
Definition addSuccess (r : RunResult) : RunResult :=
  {| TotalRows := TotalRows r; SuccessRows := SuccessRows r + 1;
     FailedRows := FailedRows r; SkippedRows := SkippedRows r |}.
Definition addFailed (r : RunResult) : RunResult :=
  {| TotalRows := TotalRows r; SuccessRows := SuccessRows r;
     FailedRows := FailedRows r + 1; SkippedRows := SkippedRows r |}.
Definition addTotal (n : Z) (r : RunResult) : RunResult :=
  {| TotalRows := TotalRows r + n; SuccessRows := SuccessRows r;
     FailedRows := FailedRows r; SkippedRows := SkippedRows r |}.

Section WithLib.
Context `{L : GoLib}.

(** [Runner.processTask], with a non-nil callback. *)
Definition processTask (cfg : Settings) (st : State) (task : RowTask)
    (env : TaskEnv) : State :=
  (* Rate limiting *)
  if limiterFailed env then st (* Context cancelled *)
  else
    (* Validate the row *)
    let '(seen', validationResult) :=
      Validator.ValidateRow (schema cfg) (seen st) (RowNumber task) (TaskData task) in
    if Validator.Valid validationResult then
      (* Generate request hash for idempotency *)
      let requestHash :=
        Fingerprint.runnerRequestHash (requestConfig cfg)
          (Validator.Data validationResult) (runnerKeyOrder env) in
      (* Check if this request was already processed *)
      if isAlreadyProcessed st requestHash then
        {| seen := seen'; checkpoints := checkpoints st;
           counters := addSkipped (counters st); calls := calls st |}
      else
        (* Render request template *)
        match Template.Render (requestConfig cfg) (orders env)
                              (Validator.Data validationResult) with
        | inr err =>
            (* Create a dummy request result for template errors *)
            let requestResult :=
              {| StatusCode := 0; Success := false; LatencyMs := 0; Retries := 0;
                 ErrorCategory := "template_error"; ErrorDetail := err;
                 ResponsePreview := ""; Headers := ∅;
                 RequestID := TaskRequestID task |} in
            {| seen := seen'; checkpoints := checkpoints st;
               counters := counters st;
               calls := calls st ++
                        [(RowNumber task, validationResult, Some requestResult)] |}
        | inl requestData =>
            (* Execute HTTP request; requestData.Hash = requestHash *)
            let requestResult :=
              Execute (requestConfig cfg) (maxRetries cfg) (net env)
                      (TaskRequestID task) in
            (* Mark as processed if successful *)
            if Success requestResult then
              {| seen := seen'; checkpoints := {[requestHash]} ∪ checkpoints st;
                 counters := addSuccess (counters st);
                 calls := calls st ++
                          [(RowNumber task, validationResult, Some requestResult)] |}
            else
              {| seen := seen'; checkpoints := checkpoints st;
                 counters := addFailed (counters st);
                 calls := calls st ++
                          [(RowNumber task, validationResult, Some requestResult)] |}
        end
    else
      (* Validation failed *)
      let requestResult :=
        {| StatusCode := 0; Success := false; LatencyMs := 0; Retries := 0;
           ErrorCategory := "validation_error";
           ErrorDetail := "Row validation failed";
           ResponsePreview := ""; Headers := ∅;
           RequestID := TaskRequestID task |} in
      {| seen := seen'; checkpoints := checkpoints st;
         counters := addFailed (counters st);
         calls := calls st ++
                  [(RowNumber task, validationResult, Some requestResult)] |}.

(** The feeder sends a task ([result.TotalRows++]) and a worker takes it
    and runs [processTask]. *)
Definition feedAndProcess (cfg : Settings) (st : State)
    (te : RowTask * TaskEnv) : State :=
  processTask cfg
    {| seen := seen st; checkpoints := checkpoints st;
       counters := addTotal 1 (counters st); calls := calls st |}
    (fst te) (snd te).

(** [Runner.Run] with one worker ([concurrency = 1]), where the calls of
    [processTask] follow each other: [tasks] are the rows that the worker
    took from the queue before the context was cancelled, in that order,
    and [abandoned] counts the rows that the feeder had sent when the
    worker stopped.  [Run] starts from fresh counters; the validator and
    the checkpoints belong to the [Runner] and are carried in.  With more
    workers the calls overlap, and the counters ([result.SuccessRows++]
    and the like, on plain [int]s) and the validator's [seen] are updated
    without a lock: such runs are not described by this definition. *)
Definition Run (cfg : Settings) (seen0 : Validator.Seen) (checkpoints0 : gset string)
    (tasks : list (RowTask * TaskEnv)) (abandoned : nat) : State :=
  let st0 := {| seen := seen0; checkpoints := checkpoints0;
                counters := {| TotalRows := 0; SuccessRows := 0;
                               FailedRows := 0; SkippedRows := 0 |};
                calls := [] |} in
  let st := foldl (feedAndProcess cfg) st0 tasks in
  {| seen := seen st; checkpoints := checkpoints st;
     counters := addTotal (Z.of_nat abandoned) (counters st);
     calls := calls st |}.

End WithLib.

(** The rows counted as success, failed or skipped. *)
Definition accounted (r : RunResult) : Z :=
  SuccessRows r + FailedRows r + SkippedRows r.

End Runner.

(* ===================================================================== *)
(** ** Concrete inputs *)
(* ===================================================================== *)

Module Examples.
Import GoString Config.

(** A template that parses and fails when it is executed on a row:
    [.name] is a string and has no field [first]. *)
Definition badTemplate : string := "https://api/x/{{.name.first}}".

(** A stand-in for the libraries: templates without actions render as
    their own text, [badTemplate] fails at execution, nothing parses as a
    number or a date, every pattern matches, and the digest is the
    identity. *)
Definition stubLib : GoLib := {|
  Time := Z;
  strings_TrimSpace := fun s => s;
  strings_ReplaceAll := fun s _ _ => s;
  strings_Split := fun s _ => [s];
  strconv_Atoi := fun _ => inr "invalid syntax";
  strconv_ParseFloat := fun _ => Some "invalid syntax";
  decimal_NewFromString := fun _ => Some "can't convert to decimal";
  regexp_MatchString := fun _ _ => inl true;
  time_Parse := fun _ _ => inr "cannot parse";
  time_Now := 2026;
  time_Year := fun t => t;
  time_After := fun a b => b <? a;
  time_AddDate := fun t y _ _ => t + y;
  template_Execute := fun tmpl _ =>
    if String.eqb tmpl badTemplate
    then inr "can't evaluate field first in type string"
    else inl tmpl;
  json_Unmarshal := fun _ => None;
  sha256_hex := fun s => s;
  fmt_Errorf := fun format => format;
  range_Replace := fun _ _ _ m => map_to_list m;
  range_Replace_visits_each_once := fun _ _ _ m => Permutation_refl (map_to_list m)
|}.

Definition stringColumn (name : string) (required : bool)
    (minLen maxLen : option Z) : ColumnSchema :=
  {| Name := name; Type_ := "string"; Required := required; Secret := false;
     MinLen := minLen; MaxLen := maxLen; Regex := ""; Enum := [];
     Format := ""; Preprocess := []; Validators := []; Transform := [];
     Normalize := None |}.

Definition phoneColumn : ColumnSchema :=
  {| Name := "phone"; Type_ := "string"; Required := true; Secret := false;
     MinLen := None; MaxLen := None; Regex := ""; Enum := [];
     Format := ""; Preprocess := []; Validators := [];
     Transform := [{| FormatKoreanPhoneE164 := true |}];
     Normalize := None |}.

(** Two columns, [name] required with at least three bytes and [phone]
    required and unique. *)
Definition contactSchema : Schema :=
  {| SchemaColumns := [stringColumn "name" true (Some 3) None; phoneColumn];
     RowRules := [];
     Uniqueness := [{| Columns := ["phone"] |}];
     TreatEmptyAsNull := true |}.

Definition contactRow (name phone : string) : gmap string string :=
  <["name" := name]> (<["phone" := phone]> ∅).

(** One optional column and no constraint. *)
Definition noteSchema : Schema :=
  {| SchemaColumns := [stringColumn "name" false None None];
     RowRules := []; Uniqueness := []; TreatEmptyAsNull := true |}.

(** The two Hangul syllables U+D55C U+AE00, six bytes of UTF-8. *)
Definition hangul : string :=
  string_of_list_ascii
    (List.map ascii_of_nat [237; 149; 156; 234; 184; 128]%nat).

Definition postConfig (url : string) (headers : gmap string string)
  : RequestConfig :=
  {| Method := "POST"; URL := url; Headers := headers; Body := "{{.name}}";
     Proxy := ""; StatusIn := [200]; ResponseKeys := ∅ |}.

(** A server that answers 500, 500 and then 200. *)
Definition server_500_500_200 : Client.Net :=
  {| Client.transport := fun n =>
       match n with
       | O | S O => Client.Responded 500 ∅ "busy"
       | _ => Client.Responded 200 ∅ "ok"
       end;
     Client.clock := fun n => 10 * Z.of_nat n;
     Client.draws := fun _ => (1 # 4, 3 # 4);
     Client.ctxDone := fun _ => false |}.

(** A server whose 500 answers break off while the body is read, and that
    answers 200 at the third attempt. *)
Definition server_broken_broken_200 : Client.Net :=
  {| Client.transport := fun n =>
       match n with
       | O | S O => Client.ReadFailed 500 ∅ "unexpected EOF"
       | _ => Client.Responded 200 ∅ "ok"
       end;
     Client.clock := fun n => 10 * Z.of_nat n;
     Client.draws := fun _ => (0 # 1, 3 # 4);
     Client.ctxDone := fun _ => false |}.

Definition server_200 : Client.Net :=
  {| Client.transport := fun _ => Client.Responded 200 ∅ "ok";
     Client.clock := fun _ => 5;
     Client.draws := fun _ => (0 # 1, 3 # 4);
     Client.ctxDone := fun _ => false |}.

Definition noteTask (n : Z) (name : string) : Runner.RowTask :=
  {| Runner.RowNumber := n; Runner.TaskData := <["name" := name]> ∅;
     Runner.TaskRequestID := "req_" +:+ Itoa n |}.

Definition noteEnv : Runner.TaskEnv :=
  {| Runner.limiterFailed := false;
     Runner.runnerKeyOrder := ["name"];
     Runner.orders := {| Template.renderHeaderOrder := [];
                         Template.hashHeaderOrder := [];
                         Template.hashKeyOrder := ["name"] |};
     Runner.net := server_200 |}.

Definition noteSettings (url : string) : Runner.Settings :=
  {| Runner.schema := noteSchema;
     Runner.requestConfig := postConfig url ∅;
     Runner.maxRetries := Client.defaultMaxRetries |}.

End Examples.


(* ===================================================================== *)
(** ** Vocabulary for the further properties *)
(* ===================================================================== *)

Module ValidatorWords.
Import Validator.

(** [Valid] tells whether an error was recorded. *)
Definition consistent (r : ValidationResult) : Prop :=
  Valid r = true <-> Errors r = [].

End ValidatorWords.

(* ===================================================================== *)
(** ** More of Go's [strings] package *)
(* ===================================================================== *)

Module GoStringMore.
Import GoString.

(** [strings.HasSuffix(s, suffix)]. *)
Definition HasSuffix (s suffix : string) : bool :=
  (String.length suffix <=? String.length s)%nat
  && String.eqb (slice_from (String.length s - String.length suffix) s) suffix.

(** [strings.TrimPrefix(s, prefix)]. *)
Definition TrimPrefix (s prefix : string) : string :=
  if HasPrefix s prefix then slice_from (String.length prefix) s else s.

(** [strings.TrimSuffix(s, suffix)]. *)
Definition TrimSuffix (s suffix : string) : string :=
  if HasSuffix s suffix
  then String.substring 0 (String.length s - String.length suffix) s
  else s.

(** [strings.Repeat(s, count)] for [count >= 0]. *)
Fixpoint Repeat (s : string) (count : nat) : string :=
  match count with
  | O => ""
  | S n => s +:+ Repeat s n
  end.

(** [s[:n]] for [n <= len(s)]. *)
Definition slice_to (n : nat) (s : string) : string := String.substring 0 n s.

End GoStringMore.

(* ===================================================================== *)
(** ** internal/config: validation of the two configuration files *)
(* ===================================================================== *)

(** [regexp.Compile]: [None] when the pattern compiles, the error text
    otherwise. *)
Class GoRegexp := { regexp_Compile : string -> option string }.

Module ConfigCheck.
Import GoString GoStringMore Config.

Section WithLib.
Context `{L : GoLib} `{R : GoRegexp}.

(** [isValidDecimalType]: [decimal(precision,scale)]. *)
Definition isValidDecimalType (colType : string) : bool :=
  if negb (HasPrefix colType "decimal(") || negb (HasSuffix colType ")") then false
  else
    let params := TrimPrefix (TrimSuffix colType ")") "decimal(" in
    match strings_Split params "," with
    | [part0; part1] =>
        match strconv_Atoi (strings_TrimSpace part0),
              strconv_Atoi (strings_TrimSpace part1) with
        | inl precision, inl scale =>
            (precision >? 0) && (scale >=? 0) && (scale <=? precision)
        | _, _ => false
        end
    | _ => false
    end.

(** [isValidColumnType]. *)
Definition isValidColumnType (colType : string) : bool :=
  if String.eqb colType "string" then true
  else if String.eqb colType "int" then true
  else if String.eqb colType "float" then true
  else if HasPrefix colType "decimal(" then isValidDecimalType colType
  else if HasPrefix colType "date" then true
  else false.

(** The loop over [col.Validators] in [validateSchema]. *)
Fixpoint checkValidatorPatterns (colName : string) (rules : list ValidationRule)
  : option string :=
  match rules with
  | [] => None
  | rule :: rest =>
      if String.eqb (vRegex rule) "" then checkValidatorPatterns colName rest
      else match regexp_Compile (vRegex rule) with
           | Some e => Some ("invalid regex in validation rule for column '"
                             +:+ colName +:+ "': " +:+ e)
           | None => checkValidatorPatterns colName rest
           end
  end.

(** The loop over [schema.Columns] in [validateSchema]; [seen] is the local
    map of the names met so far. *)
Fixpoint checkColumns (seen : gset string) (cols : list ColumnSchema)
  : option string :=
  match cols with
  | [] => None
  | col :: rest =>
      if String.eqb (Name col) "" then Some "column name cannot be empty"
      else if bool_decide (Name col ∈ seen)
      then Some ("duplicate column name: " +:+ Name col)
      else if negb (isValidColumnType (Type_ col))
      then Some ("invalid column type '" +:+ Type_ col +:+ "' for column '"
                 +:+ Name col +:+ "'")
      else
        match (if String.eqb (Regex col) "" then None
               else regexp_Compile (Regex col)) with
        | Some e => Some ("invalid regex for column '" +:+ Name col +:+ "': " +:+ e)
        | None =>
            match checkValidatorPatterns (Name col) (Validators col) with
            | Some e => Some e
            | None => checkColumns ({[Name col]} ∪ seen) rest
            end
        end
  end.

(** [validateSchema]; [version] is the field [Version] of the schema file.
    [None] is the [nil] error. *)
Definition validateSchema (version : Z) (schema : Schema) : option string :=
  if negb (version =? 1)
  then Some ("unsupported schema version: " +:+ Itoa version)
  else if (Z.of_nat (List.length (SchemaColumns schema)) =? 0)
  then Some "no columns defined in schema"
  else checkColumns ∅ (SchemaColumns schema).

End WithLib.

(** [Schema.GetColumnByName]: the first column of that name. *)
Fixpoint GetColumnByName (cols : list ColumnSchema) (name : string)
  : option ColumnSchema :=
  match cols with
  | [] => None
  | col :: rest =>
      if String.eqb (Name col) name then Some col else GetColumnByName rest name
  end.

(** The status codes that [validateRequestConfig] fills in. *)
Definition defaultStatusIn : list Z :=
  [200; 201; 202; 203; 204; 205; 206; 207; 208; 226].

(** [validateRequestConfig]: the error, or the configuration as the function
    leaves it (it writes the default status codes into it). *)
Definition validateRequestConfig (config : RequestConfig) : RequestConfig + string :=
  if String.eqb (Method config) "" then inr "method is required"
  else if String.eqb (URL config) "" then inr "url is required"
  else if (Z.of_nat (List.length (StatusIn config)) =? 0)
  then inl {| Method := Method config; URL := URL config;
              Headers := Headers config; Body := Body config;
              Proxy := Proxy config; StatusIn := defaultStatusIn;
              ResponseKeys := ResponseKeys config |}
  else inl config.

End ConfigCheck.

(* ===================================================================== *)
(** ** internal/reader *)
(* ===================================================================== *)

Module Reader.
Import GoString Config.

(** The loop of [validateHeaders], from position [i]; the two slices have
    the same length when it runs. *)
Fixpoint headerMismatch (i : Z) (headers expectedHeaders : list string)
  : option string :=
  match headers, expectedHeaders with
  | header :: hs, expected :: es =>
      if negb (String.eqb header expected)
      then Some ("header mismatch at position " +:+ Itoa i +:+ ": got '"
                 +:+ header +:+ "', expected '" +:+ expected +:+ "'")
      else headerMismatch (i + 1) hs es
  | _, _ => None
  end.

(** [CSVReader.validateHeaders]; [None] is the [nil] error. *)
Definition validateHeaders (headers expectedHeaders : list string) : option string :=
  if negb (List.length headers =? List.length expectedHeaders)%nat
  then Some ("header count mismatch: got "
             +:+ Itoa (Z.of_nat (List.length headers)) +:+ ", expected "
             +:+ Itoa (Z.of_nat (List.length expectedHeaders)))
  else headerMismatch 0 headers expectedHeaders.

(** "Convert record to map": [for i, value := range record { if i <
    len(headers) { data[headers[i]] = value } }]. *)
Definition recordToMap (headers record : list string) : gmap string string :=
  foldl (fun data iv =>
           match headers !! iv.1 with
           | Some header => <[header := iv.2]> data
           | None => data
           end)
        ∅ (imap pair record).

(** The code points that [for _, c := range s] yields: UTF-8 is decoded, and
    a byte that does not start a well-formed sequence yields U+FFFD and is
    passed alone. *)
Definition RuneError : Z := 65533.

Definition byteOf (c : ascii) : Z := Z.of_nat (nat_of_ascii c).

Definition inRange (lo hi : Z) (c : ascii) : bool :=
  (lo <=? byteOf c) && (byteOf c <=? hi).

(** The range allowed for the second byte after the first byte [b0]. *)
Definition secondByteRange (b0 : Z) : Z * Z :=
  if b0 =? 224 then (160, 191)
  else if b0 =? 237 then (128, 159)
  else if b0 =? 240 then (144, 191)
  else if b0 =? 244 then (128, 143)
  else (128, 191).

Fixpoint runes (s : string) : list Z :=
  match s with
  | EmptyString => []
  | String c0 s1 =>
      let b0 := byteOf c0 in
      if b0 <? 128 then b0 :: runes s1
      else if (b0 <? 194) || (244 <? b0) then RuneError :: runes s1
      else
        let '(lo, hi) := secondByteRange b0 in
        if b0 <? 224 then
          match s1 with
          | String c1 s2 =>
              if inRange lo hi c1
              then Z.lor (Z.shiftl (Z.land b0 31) 6) (Z.land (byteOf c1) 63) :: runes s2
              else RuneError :: runes s1
          | EmptyString => RuneError :: runes s1
          end
        else if b0 <? 240 then
          match s1 with
          | String c1 (String c2 s3) =>
              if inRange lo hi c1 && inRange 128 191 c2
              then Z.lor (Z.shiftl (Z.land b0 15) 12)
                     (Z.lor (Z.shiftl (Z.land (byteOf c1) 63) 6)
                            (Z.land (byteOf c2) 63)) :: runes s3
              else RuneError :: runes s1
          | _ => RuneError :: runes s1
          end
        else
          match s1 with
          | String c1 (String c2 (String c3 s4)) =>
              if inRange lo hi c1 && inRange 128 191 c2 && inRange 128 191 c3
              then Z.lor (Z.shiftl (Z.land b0 7) 18)
                     (Z.lor (Z.shiftl (Z.land (byteOf c1) 63) 12)
                        (Z.lor (Z.shiftl (Z.land (byteOf c2) 63) 6)
                               (Z.land (byteOf c3) 63))) :: runes s4
              else RuneError :: runes s1
          | _ => RuneError :: runes s1
          end
  end.

(** [CSVReader.generateRowHash]; [int] has 64 bits and wraps around.
    [order] is the order in which [range data] visits the keys. *)
Definition generateRowHash (data : gmap string string) (order : list string) : Z :=
  let hash :=
    foldl (fun hash key =>
             foldl (fun hash c => Client.wrap64 (31 * hash + c)) hash
                   (runes (key +:+ default "" (data !! key))))
          0 order in
  if hash <? 0 then Client.wrap64 (- hash) else hash.

(** What [csvReader.Read()] returns: a record, or an error (a record with a
    wrong number of fields is one: [FieldsPerRecord] is the number of schema
    columns).  At the end of the list [Read] returns [io.EOF]. *)
Inductive CsvRead :=
| CsvRecord (fields : list string)
| CsvError (e : string).

(** The loop "Read data rows" of [ReadRows]: the tasks sent to the channel,
    and the error returned, if any.  [orders n] is the order of iteration
    inside [generateRowHash] for row [n]. *)
Fixpoint readDataRows (headers : list string) (orders : Z -> list string)
    (rowNumber : Z) (reads : list CsvRead) : list Runner.RowTask * option string :=
  match reads with
  | [] => ([], None)
  | CsvError e :: _ =>
      ([], Some ("failed to read CSV row " +:+ Itoa rowNumber +:+ ": " +:+ e))
  | CsvRecord record :: rest =>
      let data := recordToMap headers record in
      let requestID :=
        "req_" +:+ Itoa rowNumber +:+ "_"
        +:+ Itoa (generateRowHash data (orders rowNumber)) in
      let task := {| Runner.RowNumber := rowNumber; Runner.TaskData := data;
                     Runner.TaskRequestID := requestID |} in
      let '(tasks, err) := readDataRows headers orders (rowNumber + 1) rest in
      (task :: tasks, err)
  end.

(** [CSVReader.ReadRows]; [file] is [inr e] when [os.Open] fails. *)
Definition ReadRows (schema : Schema) (file : list CsvRead + string)
    (orders : Z -> list string) : list Runner.RowTask * option string :=
  match file with
  | inr e => ([], Some ("failed to open CSV file: " +:+ e))
  | inl [] => ([], Some "failed to read CSV header: EOF")
  | inl (CsvError e :: _) => ([], Some ("failed to read CSV header: " +:+ e))
  | inl (CsvRecord headers :: reads) =>
      match validateHeaders headers (GetColumnNames schema) with
      | Some e => ([], Some ("header validation failed: " +:+ e))
      | None => readDataRows headers orders 1 reads
      end
  end.

End Reader.

(* ===================================================================== *)
(** ** internal/request/template.go: the function [mask] *)
(* ===================================================================== *)

Module TemplateFuncs.
Import GoString GoStringMore.

(** [mask]. *)
Definition mask (value : string) : string :=
  if len value <=? 4 then Repeat "*" (String.length value)
  else slice_to 2 value
       +:+ Repeat "*" (String.length value - 4)
       +:+ slice_from (String.length value - 2) value.

End TemplateFuncs.

(* ===================================================================== *)
(** ** internal/logger *)
(* ===================================================================== *)

Module Logger.
Import GoString GoStringMore Config.

Record FailedRow := {
  frRowNumber : Z;
  frData : gmap string string;
  frReason : string
}.

(** What the logger has produced: the records written to [sent.csv],
    [request_errors.csv] and [validate_errors.csv] (each file has one
    writer, fed by one channel, so the order of a file is the order of the
    sends) and the list [failedRows]. *)
Record Logs := {
  sentLog : list (list string);
  errorLog : list (list string);
  validateLog : list (list string);
  failedRows : list FailedRow
}.

Definition sentHeaders : list string :=
  ["ts"; "row"; "request_id"; "status_code"; "success"; "latency_ms";
   "retries"; "error_category"; "error_detail"; "response_preview"; "request_hash"].

Definition errorHeaders : list string :=
  ["ts"; "row"; "request_id"; "error_category"; "error_detail"; "status_code"].

Definition validateHeaders : list string :=
  ["ts"; "row"; "column"; "value"; "message"].

(** [NewLogger] / [initLogFiles]: the three header lines. *)
Definition NewLogger : Logs :=
  {| sentLog := [sentHeaders]; errorLog := [errorHeaders];
     validateLog := [validateHeaders]; failedRows := [] |}.

(** [Logger.maskSensitiveData]: the first secret column whose name occurs in
    the value decides. *)
Fixpoint maskSensitiveData (cols : list ColumnSchema) (value : string) : string :=
  match cols with
  | [] => value
  | col :: rest =>
      if Secret col && Contains value (Name col) then
        if len value <=? 4 then Repeat "*" (String.length value)
        else slice_to 2 value
             +:+ Repeat "*" (String.length value - 4)
             +:+ slice_from (String.length value - 2) value
      else maskSensitiveData rest value
  end.

(** [%t]. *)
Definition fmtBool (b : bool) : string := if b then "true" else "false".

(** [LogEntry]; the timestamp is kept as [writeSentLog] prints it. *)
Record LogEntry := {
  leTimestamp : string;
  leRow : Z;
  leRequestID : string;
  leStatusCode : Z;
  leSuccess : bool;
  leLatencyMs : Z;
  leRetries : Z;
  leErrorCategory : string;
  leErrorDetail : string;
  leResponsePreview : string;
  leRequestHash : string
}.

(** [ValidationLogEntry]. *)
Record ValidationLogEntry := {
  vleTimestamp : string;
  vleRow : Z;
  vleErrors : list Validator.ValidationError
}.

(** The entry that [LogRequest] builds from a request result: the composite
    literal names ten of the eleven fields, and [RequestHash], which it does
    not name, keeps the zero value of a Go string. *)
Definition requestEntry (ts : string) (rowNum : Z) (requestResult : Client.RequestResult)
  : LogEntry :=
  {| leTimestamp := ts;
     leRow := rowNum;
     leRequestID := Client.RequestID requestResult;
     leStatusCode := Client.StatusCode requestResult;
     leSuccess := Client.Success requestResult;
     leLatencyMs := Client.LatencyMs requestResult;
     leRetries := Client.Retries requestResult;
     leErrorCategory := Client.ErrorCategory requestResult;
     leErrorDetail := Client.ErrorDetail requestResult;
     leResponsePreview := Client.ResponsePreview requestResult;
     leRequestHash := "" |}.

(** [Logger.writeSentLog]: the record written to [sent.csv]. *)
Definition writeSentLog (schema : Schema) (entry : LogEntry) : list string :=
  [leTimestamp entry;
   Itoa (leRow entry);
   leRequestID entry;
   Itoa (leStatusCode entry);
   fmtBool (leSuccess entry);
   Itoa (leLatencyMs entry);
   Itoa (leRetries entry);
   leErrorCategory entry;
   maskSensitiveData (SchemaColumns schema) (leErrorDetail entry);
   maskSensitiveData (SchemaColumns schema) (leResponsePreview entry);
   leRequestHash entry].

(** [Logger.writeErrorLog]: the record written to [request_errors.csv]. *)
Definition writeErrorLog (schema : Schema) (entry : LogEntry) : list string :=
  [leTimestamp entry;
   Itoa (leRow entry);
   leRequestID entry;
   leErrorCategory entry;
   maskSensitiveData (SchemaColumns schema) (leErrorDetail entry);
   Itoa (leStatusCode entry)].

(** [Logger.writeValidationLog]: the records written to
    [validate_errors.csv], one per error of the entry. *)
Definition writeValidationLog (schema : Schema) (entry : ValidationLogEntry)
  : list (list string) :=
  List.map (fun validationError =>
              [vleTimestamp entry;
               Itoa (vleRow entry);
               Validator.Column validationError;
               maskSensitiveData (SchemaColumns schema)
                 (Validator.Value validationError);
               Validator.Message validationError])
           (vleErrors entry).

(** [Logger.LogRequest] followed by what [runLogger] does with the entries
    it receives ([writeSentLog(entry)], and [writeErrorLog(entry)] when
    [!entry.Success]; [writeValidationLog(validateEntry)]).  [tsV] and [tsR]
    are the two readings of [time.Now()], formatted. *)
Definition LogRequest (schema : Schema) (l : Logs) (tsV tsR : string)
    (args : Runner.CallbackArgs) : Logs :=
  let '(rowNum, validationResult, requestResult) := args in
  (* Log validation errors *)
  let l :=
    if negb (Validator.Valid validationResult) then
      {| sentLog := sentLog l; errorLog := errorLog l;
         validateLog := validateLog l ++
                        writeValidationLog schema
                          {| vleTimestamp := tsV; vleRow := rowNum;
                             vleErrors := Validator.Errors validationResult |};
         (* Add to failed rows *)
         failedRows := failedRows l ++
                       [{| frRowNumber := rowNum;
                           frData := Validator.Data validationResult;
                           frReason := "validation_failed" |}] |}
    else l in
  (* Log request result *)
  match requestResult with
  | Some rr =>
      let entry := requestEntry tsR rowNum rr in
      {| sentLog := sentLog l ++ [writeSentLog schema entry];
         errorLog := if negb (leSuccess entry)
                     then errorLog l ++ [writeErrorLog schema entry]
                     else errorLog l;
         validateLog := validateLog l;
         (* Add to failed rows if request failed *)
         failedRows :=
           if negb (Client.Success rr) then
             failedRows l ++
             [{| frRowNumber := rowNum;
                 frData := Validator.Data validationResult;
                 frReason := if String.eqb (Client.ErrorCategory rr) ""
                             then "request_failed" else Client.ErrorCategory rr |}]
           else failedRows l |}
  | None => l
  end.

(** One line of the failed-row export: [record := make([]string,
    len(headers))], the loop over the schema's column names, and the reason
    in the last cell. *)
Definition exportRecord (names : list string) (fr : FailedRow) : list string :=
  let n := (List.length names + 1)%nat in
  let record :=
    foldl (fun record ic =>
             match frData fr !! ic.2 with
             | Some value => <[ic.1 := value]> record
             | None => record
             end)
          (replicate n "") (imap pair names) in
  <[(n - 1)%nat := frReason fr]> record.

(** [Logger.ExportFailedRows]: the records written to the file, [None] when
    there is no failed row and no file is made. *)
Definition ExportFailedRows (schema : Schema) (l : Logs) : option (list (list string)) :=
  if (List.length (failedRows l) =? 0)%nat then None
  else Some ((GetColumnNames schema ++ ["failure_reason"])
             :: List.map (exportRecord (GetColumnNames schema)) (failedRows l)).

End Logger.

(* ===================================================================== *)
(** ** Vocabulary for the further properties of the client and the runner *)
(* ===================================================================== *)

Module ClientWords.
Import Client.

(** An attempt that ends with an error that [shouldRetry] accepts. *)
Definition retryableFailure (t : Transport) : Prop :=
  match executeRequest t with
  | (statusCode, _, _, Some e) => shouldRetry (Some e) statusCode = true
  | (_, _, _, None) => False
  end.

(** An attempt that ends with an error. *)
Definition failedAttempt (t : Transport) : Prop :=
  match t with Responded _ _ _ => False | _ => True end.

(** The values of [categorizeError]. *)
Definition errorCategories : list string :=
  ["timeout"; "connection_refused"; "dns_error"; "canceled"; "unknown"].

End ClientWords.

Module LoggerWords.
Import Logger.

(** The callbacks of a run handed to [LogRequest] one after the other, as
    the [run] command does; each comes with its two timestamps. *)
Definition logAll (schema : Config.Schema)
    (entries : list (string * string * Runner.CallbackArgs)) : Logs :=
  foldl (fun l e => LogRequest schema l e.1.1 e.1.2 e.2) NewLogger entries.

(** The callback carries an outcome. *)
Definition hasOutcome (e : string * string * Runner.CallbackArgs) : bool :=
  match e.2.2 with Some _ => true | None => false end.

(** The callback carries an outcome that is not a success. *)
Definition hasFailure (e : string * string * Runner.CallbackArgs) : bool :=
  match e.2.2 with Some rr => negb (Client.Success rr) | None => false end.

(** The number of validation errors that the callback reports. *)
Definition reportedErrors (e : string * string * Runner.CallbackArgs) : nat :=
  if Validator.Valid e.2.1.2 then 0%nat
  else List.length (Validator.Errors e.2.1.2).

End LoggerWords.

Module RunnerWords.
Import Runner.

(** The callback reports a success. *)
Definition reportsSuccess (c : CallbackArgs) : bool :=
  match c.2 with Some rr => Client.Success rr | None => false end.

(** The callback reports a failure that is not a template error. *)
Definition reportsCountedFailure (c : CallbackArgs) : bool :=
  match c.2 with
  | Some rr => negb (Client.Success rr)
               && negb (String.eqb (Client.ErrorCategory rr) "template_error")
  | None => false
  end.

End RunnerWords.

(* ===================================================================== *)
(** ** More concrete inputs *)
(* ===================================================================== *)

Module MoreExamples.
Import GoString Config.

(** Every pattern compiles. *)
Definition stubRegexp : GoRegexp := {| regexp_Compile := fun _ => None |}.

(** [contactSchema] with the column [phone] named by two uniqueness rules. *)
Definition twiceSchema : Schema :=
  {| SchemaColumns := SchemaColumns Examples.contactSchema;
     RowRules := [];
     Uniqueness := [{| Columns := ["phone"] |}; {| Columns := ["phone"] |}];
     TreatEmptyAsNull := true |}.

(** [noteSchema] with a row rule that does not speak of [age(birth)]. *)
Definition ruleSchema : Schema :=
  {| SchemaColumns := SchemaColumns Examples.noteSchema;
     RowRules := [{| rName := "name_or_phone"; rExpr := "name != '' || phone != ''" |}];
     Uniqueness := []; TreatEmptyAsNull := true |}.

(** A request file without [success.status_in]. *)
Definition bareConfig : RequestConfig :=
  {| Method := "POST"; URL := "https://api/x"; Headers := ∅; Body := "";
     Proxy := ""; StatusIn := []; ResponseKeys := ∅ |}.

(** Two header templates, one of which renders to the empty text. *)
Definition traceConfig : RequestConfig :=
  Examples.postConfig "https://api/x"
    (<["X-Empty" := ""]> (<["X-Trace" := "abc"]> ∅)).

Definition traceOrders : Template.RangeOrders :=
  {| Template.renderHeaderOrder := ["X-Trace"; "X-Empty"];
     Template.hashHeaderOrder := ["X-Empty"; "X-Trace"];
     Template.hashKeyOrder := ["name"] |}.

(** A server that refuses every connection. *)
Definition server_down : Client.Net :=
  {| Client.transport := fun _ => Client.DoFailed "dial tcp: connection refused";
     Client.clock := fun n => 10 * Z.of_nat n;
     Client.draws := fun _ => (1 # 2, 3 # 4);
     Client.ctxDone := fun _ => false |}.

Definition contactSettings : Runner.Settings :=
  {| Runner.schema := Examples.contactSchema;
     Runner.requestConfig := Examples.postConfig "https://api/x" ∅;
     Runner.maxRetries := Client.defaultMaxRetries |}.

Definition contactTask (n : Z) (name phone : string) : Runner.RowTask :=
  {| Runner.RowNumber := n; Runner.TaskData := Examples.contactRow name phone;
     Runner.TaskRequestID := "req_" +:+ Itoa n |}.

Definition freshState : Runner.State :=
  {| Runner.seen := ∅; Runner.checkpoints := ∅;
     Runner.counters := {| Runner.TotalRows := 0; Runner.SuccessRows := 0;
                           Runner.FailedRows := 0; Runner.SkippedRows := 0 |};
     Runner.calls := [] |}.

(** The fingerprint of the row [name = Kim] under [noteSettings], stored
    with the value [false]. *)
Definition kimFingerprint : string :=
  Fingerprint.runnerRequestHash (L := Examples.stubLib)
    (Examples.postConfig "https://api/x" ∅) (<["name" := "Kim"]> ∅) ["name"].

Definition kimCheckpoint : gmap string bool := <[kimFingerprint := false]> ∅.

End MoreExamples.
(* ===================================================================== *)
(** * Properties *)
(* ===================================================================== *)

(** ** The E.164 rewrite *)

Section PhoneFacts.
Import GoString Phone.

Lemma digits_of_strip (phone : string) :
  digits_of phone = list_ascii_of_string (strip_non_digits phone).
Proof.
  unfold digits_of.
  induction phone as [|c s IH]; simpl; [reflexivity|].
  destruct (is_digit c); simpl; by rewrite IH.
Qed.

Lemma length_list_ascii (s : string) :
  List.length (list_ascii_of_string s) = String.length s.
Proof. induction s; simpl; congruence. Qed.

Lemma prefix_one (c d : ascii) (s : string) :
  String.prefix (String c EmptyString) (String d s) = Ascii.eqb d c.
Proof.
  simpl. destruct (ascii_dec c d) as [->|Hne].
  - rewrite Ascii.eqb_refl. by destruct s.
  - symmetry. apply Ascii.eqb_neq. congruence.
Qed.

Lemma prefix_two (c1 c2 d1 d2 : ascii) (s : string) :
  String.prefix (String c1 (String c2 EmptyString)) (String d1 (String d2 s))
  = Ascii.eqb d1 c1 && Ascii.eqb d2 c2.
Proof.
  change (String.prefix (String c1 (String c2 EmptyString)) (String d1 (String d2 s)))
    with (if ascii_dec c1 d1
          then String.prefix (String c2 EmptyString) (String d2 s) else false).
  rewrite prefix_one.
  destruct (ascii_dec c1 d1) as [->|Hne].
  - by rewrite Ascii.eqb_refl.
  - assert (Ascii.eqb d1 c1 = false) as -> by (apply Ascii.eqb_neq; congruence).
    reflexivity.
Qed.

(** The source text shared by both functions agrees with the wording of
    the specification on every string of digits. *)
Lemma rewrite_matches_spec (s : string) :
  (if (len s =? 10) && HasPrefix s "0" then "+82" +:+ slice_from 1 s
   else if (len s =? 11) && HasPrefix s "01" then "+82" +:+ slice_from 1 s
   else s)
  = (if is_korean_mobile (list_ascii_of_string s)
     then string_of_list_ascii
            ("+"%char :: "8"%char :: "2"%char :: List.tl (list_ascii_of_string s))
     else string_of_list_ascii (list_ascii_of_string s)).
Proof.
  rewrite string_of_list_ascii_of_string.
  destruct s as [|c0 [|c1 s]].
  - reflexivity.
  - simpl is_korean_mobile. cbv iota.
    replace (len (String c0 "") =? 10) with false by reflexivity.
    replace (len (String c0 "") =? 11) with false by reflexivity.
    reflexivity.
  - unfold is_korean_mobile, HasPrefix, len.
    change (list_ascii_of_string (String c0 (String c1 s)))
      with (c0 :: c1 :: list_ascii_of_string s).
    cbv beta iota.
    rewrite prefix_two.
    change "0" with (String "0"%char EmptyString). rewrite prefix_one.
    rewrite <- (length_list_ascii (String c0 (String c1 s))).
    change (list_ascii_of_string (String c0 (String c1 s)))
      with (c0 :: c1 :: list_ascii_of_string s).
    set (n := List.length (c0 :: c1 :: list_ascii_of_string s)).
    assert ((Z.of_nat n =? 10) = (n =? 10)%nat) as ->.
    { destruct (Nat.eqb_spec n 10) as [->|]; [reflexivity|].
      apply Z.eqb_neq. lia. }
    assert ((Z.of_nat n =? 11) = (n =? 11)%nat) as ->.
    { destruct (Nat.eqb_spec n 11) as [->|]; [reflexivity|].
      apply Z.eqb_neq. lia. }
    simpl List.tl. simpl slice_from.
    change (string_of_list_ascii
              ("+"%char :: "8"%char :: "2"%char :: c1 :: list_ascii_of_string s))
      with ("+82" +:+ String c1 (string_of_list_ascii (list_ascii_of_string s))).
    rewrite string_of_list_ascii_of_string.
    destruct (Nat.eqb_spec n 10) as [E10|N10];
      destruct (Nat.eqb_spec n 11) as [E11|N11];
      destruct (Ascii.eqb c0 "0"); destruct (Ascii.eqb c1 "1");
      try reflexivity; lia.
Qed.

(** C8.  For every input string, the validator's Korean-mobile E.164
    transform ([formatKoreanPhoneE164]) and the template function
    [toE164KR] both compute what the specification describes: the
    non-digit characters are removed; when 10 digits starting with [0] or
    11 digits starting with [01] remain, the result is [+82] followed by
    the digits without the leading [0]; otherwise it is the digits. *)
Theorem e164_transform_and_template_function_agree (phone : string) :
  formatKoreanPhoneE164 phone = e164kr_spec phone
  /\ toE164KR phone = e164kr_spec phone.
Proof.
  assert (formatKoreanPhoneE164 phone = e164kr_spec phone) as H.
  { unfold formatKoreanPhoneE164, e164kr_spec.
    rewrite digits_of_strip. cbv zeta. apply rewrite_matches_spec. }
  split; [exact H|].
  unfold toE164KR, e164kr_spec.
  rewrite digits_of_strip. cbv zeta. apply rewrite_matches_spec.
Qed.

Example e164_mobile : formatKoreanPhoneE164 "010-1234-5678" = "+821012345678".
Proof. reflexivity. Qed.

Example e164_landline : toE164KR "02-123-4567" = "021234567".
Proof. reflexivity. Qed.

End PhoneFacts.

(** ** The validator: the column loop *)

Section ColumnLoop.
Import GoString Config Validator.
Context `{L : GoLib}.

(** The three ways one column leaves the loop body. *)
Lemma validateColumn_cases (t : bool) (rowNum : Z) (data : gmap string string)
    (r : ValidationResult) (c : ColumnSchema) :
  (exists msg,
      validateColumn t rowNum data r c =
      {| Valid := false;
         Errors := Errors r ++
                   [{| Row := rowNum; Column := Name c;
                       Value := default "" (data !! Name c); Message := msg |}];
         Data := Data r |})
  \/ (exists v,
      validateColumn t rowNum data r c =
      {| Valid := Valid r; Errors := Errors r; Data := <[Name c := v]> (Data r) |}).
Proof.
  unfold validateColumn.
  repeat match goal with
         | |- context [if ?b then _ else _] => destruct b
         | |- context [match ?o with Some _ => _ | None => _ end] => destruct o
         end; eauto.
Qed.

(** Once a result is invalid it stays invalid, and [Valid] says whether an
    error was recorded. *)
Lemma validateColumn_valid_iff (t : bool) (rowNum : Z) (data : gmap string string)
    (r : ValidationResult) (c : ColumnSchema) :
  (Valid r = true <-> Errors r = []) ->
  (Valid (validateColumn t rowNum data r c) = true
   <-> Errors (validateColumn t rowNum data r c) = []).
Proof.
  intros Hr.
  destruct (validateColumn_cases t rowNum data r c) as [[msg ->]|[v ->]]; simpl.
  - split; [discriminate|]. intros E. by apply app_eq_nil in E as [_ ?].
  - exact Hr.
Qed.

Lemma foldl_validateColumn_valid_iff (t : bool) (rowNum : Z)
    (data : gmap string string) (cols : list ColumnSchema) (r : ValidationResult) :
  (Valid r = true <-> Errors r = []) ->
  (Valid (foldl (validateColumn t rowNum data) r cols) = true
   <-> Errors (foldl (validateColumn t rowNum data) r cols) = []).
Proof.
  revert r. induction cols as [|c cols IH]; intros r Hr; simpl; [exact Hr|].
  apply IH. by apply validateColumn_valid_iff.
Qed.

Lemma validateColumns_valid_iff (schema : Schema) (rowNum : Z)
    (data : gmap string string) :
  Valid (validateColumns schema rowNum data) = true
  <-> Errors (validateColumns schema rowNum data) = [].
Proof. apply foldl_validateColumn_valid_iff. simpl. tauto. Qed.

(** The keys written and the columns blamed by a stretch of the loop, for
    columns with pairwise different names. *)
Lemma foldl_validateColumn_dom (t : bool) (rowNum : Z) (data : gmap string string)
    (cols : list ColumnSchema) (r : ValidationResult) (done : gset string) :
  NoDup (List.map Name cols) ->
  (forall c, c ∈ cols -> Name c ∉ done) ->
  list_to_set (Column <$> Errors r) ⊆ done ->
  dom (Data r) = done ∖ list_to_set (Column <$> Errors r) ->
  let r' := foldl (validateColumn t rowNum data) r cols in
  dom (Data r') =
    (done ∪ list_to_set (List.map Name cols)) ∖ list_to_set (Column <$> Errors r').
Proof.
  revert r done. induction cols as [|c cols IH]; intros r done Hnd Hfresh Hsub Hdom.
  - simpl. rewrite Hdom. set_solver.
  - simpl in *. apply NoDup_cons in Hnd as [Hc Hnd'].
    assert (Name c ∉ done) as Hcd by (apply Hfresh; left).
    assert (Name c ∉ (list_to_set (List.map Name cols) : gset string)) as Hcc.
    { by rewrite elem_of_list_to_set. }
    assert (forall c', c' ∈ cols -> Name c' ∉ ({[Name c]} ∪ done : gset string)) as Hf'.
    { intros c' Hc' [Heq%elem_of_singleton|Hin]%elem_of_union.
      - apply Hc. rewrite <- Heq. apply list_elem_of_In, in_map, list_elem_of_In, Hc'.
      - apply (Hfresh c'); [by right|exact Hin]. }
    destruct (validateColumn_cases t rowNum data r c) as [[msg E]|[v E]].
    + specialize (IH (validateColumn t rowNum data r c) ({[Name c]} ∪ done) Hnd' Hf').
      rewrite E in IH |- *. simpl in IH.
      rewrite fmap_app, list_to_set_app_L in IH. simpl in IH.
      rewrite IH; [set_solver| set_solver |].
      rewrite Hdom. set_solver.
    + specialize (IH (validateColumn t rowNum data r c) ({[Name c]} ∪ done) Hnd' Hf').
      rewrite E in IH |- *. simpl in IH.
      rewrite IH; [set_solver| set_solver |].
      rewrite dom_insert_L, Hdom. set_solver.
Qed.

(** A column's entry survives the rest of the loop when no later column
    has its name. *)
Lemma foldl_validateColumn_lookup_other (t : bool) (rowNum : Z)
    (data : gmap string string) (cols : list ColumnSchema) (r : ValidationResult)
    (n : string) :
  n ∉ List.map Name cols ->
  Data (foldl (validateColumn t rowNum data) r cols) !! n = Data r !! n.
Proof.
  revert r. induction cols as [|c cols IH]; intros r Hn; simpl; [reflexivity|].
  simpl in Hn. apply not_elem_of_cons in Hn as [Hne Hn].
  rewrite IH by exact Hn.
  destruct (validateColumn_cases t rowNum data r c) as [[msg ->]|[v ->]]; simpl.
  - reflexivity.
  - by rewrite lookup_insert_ne.
Qed.

(** Errors whose column is [n] are only added by a column called [n]. *)
Lemma foldl_validateColumn_errors_other (t : bool) (rowNum : Z)
    (data : gmap string string) (cols : list ColumnSchema) (r : ValidationResult)
    (n : string) :
  n ∉ List.map Name cols ->
  filter (fun e => Column e = n) (Errors (foldl (validateColumn t rowNum data) r cols))
  = filter (fun e => Column e = n) (Errors r).
Proof.
  revert r. induction cols as [|c cols IH]; intros r Hn; simpl; [reflexivity|].
  simpl in Hn. apply not_elem_of_cons in Hn as [Hne Hn].
  rewrite IH by exact Hn.
  destruct (validateColumn_cases t rowNum data r c) as [[msg ->]|[v ->]]; simpl.
  - rewrite filter_app, filter_cons_False, filter_nil, app_nil_r; [done|].
    simpl. congruence.
  - reflexivity.
Qed.

Lemma foldl_validateColumn_invalid (t : bool) (rowNum : Z)
    (data : gmap string string) (cols : list ColumnSchema) (r : ValidationResult) :
  Valid r = false ->
  Valid (foldl (validateColumn t rowNum data) r cols) = false.
Proof.
  revert r. induction cols as [|c cols IH]; intros r Hr; simpl; [exact Hr|].
  apply IH.
  by destruct (validateColumn_cases t rowNum data r c) as [[msg ->]|[v ->]].
Qed.

End ColumnLoop.

(** ** The validator: uniqueness and row rules *)

Section AfterColumns.
Import GoString Config Validator.

Lemma checkUniqueness_flat (schema : Schema) (rowNum : Z)
    (st : Seen * ValidationResult) :
  checkUniqueness schema rowNum st
  = foldl (checkUniqueColumn rowNum) st (uniquenessColumns schema).
Proof.
  unfold checkUniqueness, uniquenessColumns.
  revert st. induction (Uniqueness schema) as [|rule rules IH]; intros st; simpl.
  - reflexivity.
  - rewrite foldl_app. apply IH.
Qed.

Lemma checkUniqueColumn_data (rowNum : Z) (st : Seen * ValidationResult)
    (col : string) :
  Data (checkUniqueColumn rowNum st col).2 = Data st.2.
Proof.
  destruct st as [seen r]. unfold checkUniqueColumn.
  destruct (String.eqb _ _); [reflexivity|].
  by destruct (bool_decide _).
Qed.

Lemma foldl_checkUniqueColumn_data (rowNum : Z) (cols : list string)
    (st : Seen * ValidationResult) :
  Data (foldl (checkUniqueColumn rowNum) st cols).2 = Data st.2.
Proof.
  revert st. induction cols as [|c cols IH]; intros st; simpl; [reflexivity|].
  rewrite IH. apply checkUniqueColumn_data.
Qed.

Lemma checkUniqueness_data (schema : Schema) (rowNum : Z)
    (st : Seen * ValidationResult) :
  Data (checkUniqueness schema rowNum st).2 = Data st.2.
Proof. rewrite checkUniqueness_flat. apply foldl_checkUniqueColumn_data. Qed.

Context `{L : GoLib}.

Lemma validateRowRules_data (schema : Schema) (rowNum : Z) (r : ValidationResult) :
  Data (validateRowRules schema rowNum r) = Data r.
Proof.
  unfold validateRowRules. revert r.
  induction (RowRules schema) as [|rule rules IH]; intros r; simpl; [reflexivity|].
  rewrite IH. by destruct (negb _).
Qed.

(** [ValidateRow] never changes the data map after the column loop. *)
Lemma ValidateRow_data (schema : Schema) (seen : Seen) (rowNum : Z)
    (data : gmap string string) :
  Data (ValidateRow schema seen rowNum data).2
  = Data (validateColumns schema rowNum data).
Proof.
  unfold ValidateRow.
  destruct (Valid (validateColumns schema rowNum data)) eqn:Hv.
  - destruct (checkUniqueness schema rowNum (seen, validateColumns schema rowNum data))
      as [seen' r'] eqn:Hu.
    assert (Data r' = Data (validateColumns schema rowNum data)) as Hd.
    { change r' with (seen', r').2. rewrite <- Hu. apply checkUniqueness_data. }
    destruct (Valid r'); simpl; [by rewrite validateRowRules_data|done].
  - simpl. by rewrite Hv.
Qed.

(** A row with an error in the column loop skips both later phases. *)
Lemma ValidateRow_column_errors (schema : Schema) (seen : Seen) (rowNum : Z)
    (data : gmap string string) :
  Valid (validateColumns schema rowNum data) = false ->
  ValidateRow schema seen rowNum data = (seen, validateColumns schema rowNum data).
Proof. intros Hv. unfold ValidateRow. by rewrite Hv, Hv. Qed.

End AfterColumns.

(** ** The validator: required columns and the keys of the data map *)

Section RequiredAndKeys.
Import GoString Config Validator.
Context `{L : GoLib}.

Lemma validateColumn_required_empty (t : bool) (rowNum : Z)
    (data : gmap string string) (r : ValidationResult) (c : ColumnSchema) :
  Required c = true ->
  data !! Name c = Some "" ->
  validateColumn t rowNum data r c =
  {| Valid := false; Errors := Errors r ++ [requiredError rowNum (Name c)];
     Data := Data r |}.
Proof.
  intros Hreq Hd. unfold validateColumn. rewrite Hreq, Hd. simpl.
  by destruct t; simpl.
Qed.

(** C10.  For every schema (with column names pairwise different, as
    [validateSchema] demands) and every column with [required = true],
    validating a row whose raw value for that column is the empty string
    yields exactly one error for that column, with the message
    "required field is missing or empty"; [treat_empty_as_null] is a field
    of the schema and may be [true] or [false]. *)
Theorem required_empty_value_one_error (schema : Schema) (seen : Seen)
    (rowNum : Z) (data : gmap string string) (c : ColumnSchema) :
  NoDup (GetColumnNames schema) ->
  c ∈ SchemaColumns schema ->
  Required c = true ->
  data !! Name c = Some "" ->
  filter (fun e => Column e = Name c)
         (Errors (ValidateRow schema seen rowNum data).2)
  = [requiredError rowNum (Name c)].
Proof.
  intros Hnd Hc Hreq Hd.
  apply list_elem_of_split in Hc as (l1 & l2 & Hsplit).
  unfold GetColumnNames in Hnd. rewrite Hsplit, map_app in Hnd. simpl in Hnd.
  apply NoDup_app in Hnd as (_ & Hl1 & Hnd2).
  apply NoDup_cons in Hnd2 as [Hl2 _].
  assert (Name c ∉ List.map Name l1) as Hl1'.
  { intros Hin. apply (Hl1 _ Hin). left. }
  assert (validateColumns schema rowNum data
          = foldl (validateColumn (TreatEmptyAsNull schema) rowNum data)
              (validateColumn (TreatEmptyAsNull schema) rowNum data
                 (foldl (validateColumn (TreatEmptyAsNull schema) rowNum data)
                        {| Valid := true; Errors := []; Data := ∅ |} l1) c) l2) as Hcols.
  { unfold validateColumns. rewrite Hsplit, foldl_app. reflexivity. }
  rewrite ValidateRow_column_errors.
  - cbn [snd]. rewrite Hcols, foldl_validateColumn_errors_other by exact Hl2.
    rewrite validateColumn_required_empty by assumption. simpl.
    rewrite filter_app, foldl_validateColumn_errors_other by exact Hl1'.
    cbn [Errors]. rewrite filter_nil, filter_cons_True by reflexivity.
    by rewrite filter_nil.
  - rewrite Hcols. apply foldl_validateColumn_invalid.
    by rewrite validateColumn_required_empty.
Qed.

(** What the loop does for a column whose raw value is not empty. *)
Lemma validateColumn_value (t : bool) (rowNum : Z) (data : gmap string string)
    (r : ValidationResult) (c : ColumnSchema) (value : string) :
  data !! Name c = Some value -> value <> "" ->
  validateColumn t rowNum data r c =
  match validateValue (processedValue rowNum c value) c with
  | Some err =>
      {| Valid := false;
         Errors := Errors r ++ [{| Row := rowNum; Column := Name c; Value := value;
                                   Message := err |}];
         Data := Data r |}
  | None =>
      {| Valid := Valid r; Errors := Errors r;
         Data := <[Name c := transform (processedValue rowNum c value) (Transform c)]>
                   (Data r) |}
  end.
Proof.
  intros Hd Hne. unfold validateColumn, processedValue. rewrite Hd.
  change (default "" (Some value)) with value.
  apply String.eqb_neq in Hne. rewrite Hne.
  rewrite bool_decide_eq_true_2 by eauto.
  rewrite andb_false_r. cbn [negb orb]. rewrite andb_false_r.
  reflexivity.
Qed.

(** The entry of one column in the data map of the column loop. *)
Lemma validateColumns_entry (schema : Schema) (rowNum : Z)
    (data : gmap string string) (c : ColumnSchema) :
  NoDup (GetColumnNames schema) ->
  c ∈ SchemaColumns schema ->
  exists r0,
    Data (validateColumns schema rowNum data) !! Name c
    = Data (validateColumn (TreatEmptyAsNull schema) rowNum data r0 c) !! Name c
    /\ Data r0 !! Name c = None.
Proof.
  intros Hnd Hc.
  apply list_elem_of_split in Hc as (l1 & l2 & Hsplit).
  unfold GetColumnNames in Hnd. rewrite Hsplit, map_app in Hnd. simpl in Hnd.
  apply NoDup_app in Hnd as (_ & Hl1 & Hnd2).
  apply NoDup_cons in Hnd2 as [Hl2 _].
  assert (Name c ∉ List.map Name l1) as Hl1'.
  { intros Hin. apply (Hl1 _ Hin). left. }
  exists (foldl (validateColumn (TreatEmptyAsNull schema) rowNum data)
                {| Valid := true; Errors := []; Data := ∅ |} l1).
  split.
  - unfold validateColumns. rewrite Hsplit, foldl_app. simpl.
    by rewrite foldl_validateColumn_lookup_other by exact Hl2.
  - rewrite foldl_validateColumn_lookup_other by exact Hl1'. apply lookup_empty.
Qed.

(** C5, as the code has it.  With pairwise different column names, the
    data map of a validated row holds exactly the schema columns that
    raised no error in the column loop: an optional column whose value is
    absent or empty is present with the empty string; a column with a value
    that passes validation is present with its transformed value (the raw
    value after preprocessing, the normalize map and the transform rules);
    a column whose value fails validation has no entry, and neither has a
    required column that is missing.  Hence the keys are all the schema's
    column names when the row is valid. *)
Theorem normalized_keys_are_columns_without_error (schema : Schema) (seen : Seen)
    (rowNum : Z) (data : gmap string string) :
  NoDup (GetColumnNames schema) ->
  let r := (ValidateRow schema seen rowNum data).2 in
  dom (Data r) =
    list_to_set (GetColumnNames schema)
    ∖ list_to_set (Column <$> Errors (validateColumns schema rowNum data))
  /\ (Valid r = true -> dom (Data r) = list_to_set (GetColumnNames schema))
  /\ (forall c, c ∈ SchemaColumns schema -> Required c = false ->
                default "" (data !! Name c) = "" ->
                Data r !! Name c = Some "")
  /\ (forall c value, c ∈ SchemaColumns schema ->
                      data !! Name c = Some value -> value <> "" ->
        match validateValue (processedValue rowNum c value) c with
        | None =>
            Data r !! Name c
            = Some (transform (processedValue rowNum c value) (Transform c))
        | Some _ => Data r !! Name c = None
        end)
  /\ (forall c, c ∈ SchemaColumns schema -> Required c = true ->
                default "" (data !! Name c) = "" ->
                Data r !! Name c = None).
Proof.
  intros Hnd r. subst r. rewrite ValidateRow_data.
  assert (dom (Data (validateColumns schema rowNum data)) =
          list_to_set (GetColumnNames schema)
          ∖ list_to_set (Column <$> Errors (validateColumns schema rowNum data)))
    as Hdom.
  { unfold validateColumns, GetColumnNames.
    rewrite (foldl_validateColumn_dom _ _ _ _ _ ∅); simpl;
      [set_solver | exact Hnd | set_solver | set_solver | set_solver]. }
  split; [exact Hdom|]. split; [|split; [|split]].
  - intros Hv. rewrite Hdom.
    assert (Valid (validateColumns schema rowNum data) = true) as Hvc.
    { destruct (Valid (validateColumns schema rowNum data)) eqn:E; [done|].
      rewrite (ValidateRow_column_errors _ _ _ _ E) in Hv. cbn [snd] in Hv.
      congruence. }
    apply validateColumns_valid_iff in Hvc. rewrite Hvc. set_solver.
  - intros c Hc Hreq Hempty.
    apply list_elem_of_split in Hc as (l1 & l2 & Hsplit).
    unfold GetColumnNames in Hnd. rewrite Hsplit, map_app in Hnd. simpl in Hnd.
    apply NoDup_app in Hnd as (_ & _ & Hnd2).
    apply NoDup_cons in Hnd2 as [Hl2 _].
    unfold validateColumns. rewrite Hsplit, foldl_app. simpl.
    rewrite foldl_validateColumn_lookup_other by exact Hl2.
    unfold validateColumn at 1. rewrite Hreq, Hempty. simpl.
    rewrite orb_true_r. cbn [Data]. apply lookup_insert_eq.
  - intros c value Hc Hd Hne.
    destruct (validateColumns_entry schema rowNum data c Hnd Hc) as (r0 & -> & Hr0).
    rewrite (validateColumn_value _ _ _ _ _ value Hd Hne).
    destruct (validateValue _ c); cbn [Data]; [exact Hr0|apply lookup_insert_eq].
  - intros c Hc Hreq Hempty.
    destruct (validateColumns_entry schema rowNum data c Hnd Hc) as (r0 & -> & Hr0).
    unfold validateColumn. rewrite Hreq, Hempty. simpl.
    rewrite orb_true_r. cbn [Data]. exact Hr0.
Qed.

End RequiredAndKeys.

(** ** The validator: uniqueness over a run *)

Section Uniqueness.
Import GoString Config Validator.

Lemma checkUniqueColumn_spec (rowNum : Z) (seen : Seen) (r : ValidationResult)
    (col : string) :
  let value := default "" (Data r !! col) in
  checkUniqueColumn rowNum (seen, r) col =
  if isDuplicate seen r col then
    (seen, {| Valid := false;
              Errors := Errors r ++ [duplicateError rowNum col value];
              Data := Data r |})
  else if String.eqb value "" then (seen, r)
  else (<[col := {[value]} ∪ seenAt seen col]> seen, r).
Proof.
  unfold checkUniqueColumn, isDuplicate, seenAt. simpl.
  destruct (String.eqb _ _); simpl; [reflexivity|].
  by destruct (bool_decide _).
Qed.

Lemma seenAt_insert (seen : Seen) (col col' : string) (s : gset string) :
  seenAt (<[col' := s]> seen) col = if decide (col' = col) then s else seenAt seen col.
Proof.
  unfold seenAt. case_decide as E.
  - subst. by rewrite lookup_insert_eq.
  - by rewrite lookup_insert_ne.
Qed.


Lemma foldl_checkUniqueColumn_invalid (rowNum : Z) (cols : list string)
    (st : Seen * ValidationResult) :
  Valid st.2 = false -> Valid (foldl (checkUniqueColumn rowNum) st cols).2 = false.
Proof.
  revert st. induction cols as [|c cols IH]; intros [seen r] Hv; cbn [foldl]; [done|].
  apply IH. rewrite checkUniqueColumn_spec.
  destruct (isDuplicate _ _ _); [done|]. by destruct (String.eqb _ _).
Qed.




End Uniqueness.

Section UniquenessOfRows.
Import GoString Config Validator.
Context `{L : GoLib}.




End UniquenessOfRows.

Section UniquenessOverRun.
Import GoString Config Validator.
Context `{L : GoLib}.


(** [NewValidator] allocates the inner map of every uniqueness column, so
    the write [v.seen[col][value] = true] never meets a nil map. *)
Lemma NewValidator_allocates (schema : Schema) (col : string) :
  col ∈ uniquenessColumns schema -> is_Some (NewValidator schema !! col).
Proof.
  unfold NewValidator, uniquenessColumns.
  enough (forall rules (seen : Seen),
             (col ∈ List.concat (List.map Columns rules) \/ is_Some (seen !! col)) ->
             is_Some (foldl (fun seen rule =>
                               foldl (fun seen col =>
                                        match seen !! col with
                                        | None => <[col := ∅]> seen
                                        | Some _ => seen
                                        end) seen (Columns rule))
                            seen rules !! col)) as H.
  { intros Hin. apply H. by left. }
  induction rules as [|rule rules IH]; intros seen Hs; cbn [foldl].
  - destruct Hs as [Hs|Hs]; [by apply elem_of_nil in Hs|exact Hs].
  - apply IH. cbn [List.map List.concat] in Hs.
    rewrite elem_of_app in Hs.
    assert (col ∈ Columns rule \/ col ∈ List.concat (List.map Columns rules)
            \/ is_Some (seen !! col)) as Hs' by tauto.
    clear Hs. revert seen Hs'. generalize (Columns rule). intros cols.
    induction cols as [|c cols IHc]; intros seen Hs; cbn [foldl].
    + destruct Hs as [Hs|Hs]; [by apply elem_of_nil in Hs|exact Hs].
    + apply IHc. rewrite elem_of_cons in Hs.
      destruct (decide (col = c)) as [->|Hne].
      * right. right. destruct (seen !! c) eqn:E; [by rewrite E|].
        by rewrite lookup_insert_eq.
      * destruct Hs as [[?|?]|[?|Hs]]; [done|by left|by right; left|].
        right. right. destruct (seen !! c); [done|]. by rewrite lookup_insert_ne.
Qed.



End UniquenessOverRun.

(** ** The fingerprint: the simple sort and the order of iteration *)

Section SimpleSort.
Import GoString Config Fingerprint.

#[local] Instance leStr_trans : Transitive leStr.
Proof.
  intros a b c Hab Hbc. unfold leStr, String.ltb in *.
  destruct (String.compare c a) eqn:Hca; try reflexivity.
  exfalso.
  apply OrderedTypeEx.String_as_OT.cmp_lt in Hca.
  destruct (String.compare b a) eqn:Hba; try discriminate.
  - apply String.compare_eq_iff in Hba as ->.
    apply OrderedTypeEx.String_as_OT.cmp_lt in Hca.
    unfold OrderedTypeEx.String_as_OT.cmp in Hca. by rewrite Hca in Hbc.
  - rewrite String.compare_antisym in Hba.
    destruct (String.compare a b) eqn:Hab'; try discriminate.
    apply OrderedTypeEx.String_as_OT.cmp_lt in Hab'.
    pose proof (OrderedTypeEx.String_as_OT.lt_trans _ _ _ Hca Hab') as Hcb.
    apply OrderedTypeEx.String_as_OT.cmp_lt in Hcb.
    unfold OrderedTypeEx.String_as_OT.cmp in Hcb. by rewrite Hcb in Hbc.
Qed.

#[local] Instance leStr_antisym : AntiSymm (=) leStr.
Proof.
  intros a b Hab Hba. unfold leStr, String.ltb in *.
  destruct (String.compare a b) eqn:E.
  - by apply String.compare_eq_iff.
  - discriminate Hba.
  - rewrite String.compare_antisym in E.
    destruct (String.compare b a); discriminate.
Qed.









Example simpleSort_example :
  simpleSort ["phone"; "name"; "birth"; "gender"] = ["birth"; "gender"; "name"; "phone"].
Proof. reflexivity. Qed.

End SimpleSort.

(** ** The client: retries and backoff *)

Section ClientFacts.
Import GoString Config Client.
Context `{L : GoLib}.

(** [shouldRetry] does call 5xx and 429 retryable. *)
Lemma shouldRetry_5xx_429 (err : option string) (statusCode : Z) :
  (500 <= statusCode < 600) \/ statusCode = 429 ->
  shouldRetry err statusCode = true.
Proof.
  intros H. unfold shouldRetry.
  destruct (statusCode =? 0) eqn:E0; [done|].
  destruct ((statusCode >=? 500) && (statusCode <? 600)) eqn:E5; [done|].
  destruct (statusCode =? 429) eqn:E4; [done|]. lia.
Qed.

(** But [Execute] only asks [shouldRetry] when [executeRequest] returned
    an error; a response that was read to the end, whatever its status,
    takes the other branch and leaves the loop. *)
Lemma response_ends_attempts (rc : RequestConfig) (maxRetries : Z) (net : Net)
    (attempt : nat) (st : ExecState) (status : Z)
    (hdr : gmap string (list string)) (body : string) :
  transport net attempt = Responded status hdr body ->
  exists st', attemptBody rc maxRetries net attempt st = (st', Break)
              /\ Retries (result st') = Z.of_nat attempt
              /\ StatusCode (result st') = status
              /\ slept st' = slept st.
Proof.
  intros Ht. unfold attemptBody. rewrite Ht. cbn [executeRequest].
  eexists. split; [reflexivity|]. done.
Qed.

(** C2, at the input of the specification's scenario: a server that answers
    500, 500, 200 and the default of three retries.  [Execute] stops at the
    first response: no retry, no backoff sleep, [success = false] (the
    claim expects two retries and [success = true]). *)
Theorem execute_500_500_200_stops_at_first_response :
  let out := ExecuteTrace (Examples.postConfig "https://api/x" ∅)
               defaultMaxRetries Examples.server_500_500_200 "req_1" in
  Retries out.1 = 0 /\ Success out.1 = false /\ StatusCode out.1 = 500
  /\ out.2 = [].
Proof. cbv zeta. repeat split; vm_compute; reflexivity. Qed.

(** The retry loop itself works when the failure is an error: with the 500
    answers broken off while their body is read, the same server is asked
    three times and the third answer succeeds. *)
Lemma execute_retries_failed_reads :
  let out := ExecuteTrace (Examples.postConfig "https://api/x" ∅)
               defaultMaxRetries Examples.server_broken_broken_200 "req_1" in
  Retries out.1 = 2 /\ Success out.1 = true /\ StatusCode out.1 = 200
  /\ out.2 = [1 * Second; 2 * Second].
Proof. cbv zeta. repeat split; vm_compute; reflexivity. Qed.

End ClientFacts.

Section BackoffFacts.
Import Client.

(** The cap of [calculateBackoff] holds for every attempt and every draw. *)
Lemma calculateBackoff_at_most_30s (attempt : nat) (r1 r2 : Q) :
  calculateBackoff attempt r1 r2 <= 30 * Second.
Proof.
  unfold calculateBackoff. cbv zeta.
  match goal with |- context [if ?c >? _ then _ else _] => set (d := c) end.
  destruct (d >? 30 * Second) eqn:E; [lia|].
  rewrite Z.gtb_ltb in E. apply Z.ltb_ge in E. lia.
Qed.

Lemma wrap64_small (z : Z) : - 2 ^ 63 <= z < 2 ^ 63 -> wrap64 z = z.
Proof. intros H. unfold wrap64. rewrite Z.mod_small; lia. Qed.

(** What the code does instead of 25%: for the attempts whose delay fits an
    [int64] and a draw [r1] in [0, 1), the delay before the cap lies between
    one half and three halves of [2^attempt] seconds. *)
Lemma calculateBackoff_within_half (attempt : nat) (r1 r2 : Q) :
  (attempt <= 32)%nat -> (0 <= r1)%Q -> (r1 < 1)%Q ->
  let base := 2 ^ Z.of_nat attempt * Second in
  Z.min (30 * Second) (base - base / 2) <= calculateBackoff attempt r1 r2
  /\ calculateBackoff attempt r1 r2 <= Z.min (30 * Second) (base + base / 2).
Proof.
  intros Ha H0 H1 base.
  assert (1 <= 2 ^ Z.of_nat attempt <= 2 ^ 32) as Hpow.
  { split; [apply Z.pow_le_mono_r with (b := 0); lia|].
    apply Z.pow_le_mono_r; lia. }
  assert (Second = 1000000000) as HS by reflexivity.
  assert (2 ^ 32 = 4294967296) as H32 by reflexivity.
  assert (2 ^ 63 = 9223372036854775808) as H63 by reflexivity.
  assert (0 < base <= 4294967296000000000) as Hbase by (unfold base; nia).
  unfold calculateBackoff. cbv zeta.
  assert (int64_of_float (inject_Z (2 ^ Z.of_nat attempt)) = 2 ^ Z.of_nat attempt) as ->.
  { unfold int64_of_float, inject_Z. cbn [Qnum Qden]. rewrite Z.quot_1_r.
    replace ((- 2 ^ 63 <=? 2 ^ Z.of_nat attempt) && (2 ^ Z.of_nat attempt <? 2 ^ 63))
      with true; [reflexivity|].
    symmetry. apply andb_true_iff. split; [apply Z.leb_le|apply Z.ltb_lt]; lia. }
  fold base. rewrite (wrap64_small base) by lia.
  set (jitter := int64_of_float (r1 * (1 # 2) * inject_Z base)).
  assert (0 <= jitter <= base / 2) as Hj.
  { subst jitter. destruct r1 as [n d]. unfold Qle, Qlt in H0, H1.
    cbn [Qnum Qden] in H0, H1.
    unfold int64_of_float, Qmult, inject_Z. cbn [Qnum Qden].
    replace (n * 1 * base) with (n * base) by lia.
    replace (Z.pos (d * 2 * 1)) with (Z.pos d * 2) by lia.
    assert (0 <= n < Z.pos d) as Hn by lia.
    rewrite Z.quot_div_nonneg by nia.
    assert (0 <= n * base / (Z.pos d * 2) <= base / 2) as Hq.
    { split; [apply Z.div_pos; nia|].
      transitivity (Z.pos d * base / (Z.pos d * 2)).
      - apply Z.div_le_mono; nia.
      - rewrite Z.div_mul_cancel_l by lia. lia. }
    assert (base / 2 <= base) as Hh by (apply Z.div_le_upper_bound; lia).
    replace ((- 2 ^ 63 <=? n * base / (Z.pos d * 2))
             && (n * base / (Z.pos d * 2) <? 2 ^ 63)) with true; [exact Hq|].
    symmetry. apply andb_true_iff. split; [apply Z.leb_le|apply Z.ltb_lt]; lia. }
  assert (base / 2 <= base) as Hh by (apply Z.div_le_upper_bound; lia).
  destruct (Qlt_le_dec r2 (1 # 2)).
  - rewrite (wrap64_small (base - jitter)) by lia.
    destruct (base - jitter >? 30 * Second) eqn:E.
    + apply Z.gtb_lt in E. lia.
    + rewrite Z.gtb_ltb in E. apply Z.ltb_ge in E. lia.
  - rewrite (wrap64_small (base + jitter)) by lia.
    destruct (base + jitter >? 30 * Second) eqn:E.
    + apply Z.gtb_lt in E. lia.
    + rewrite Z.gtb_ltb in E. apply Z.ltb_ge in E. lia.
Qed.

(** C6, at attempt 0 with the draws 0.75 and 0.5 (both products are exact
    in [float64]): the delay is 1.375 s, which is 37.5% above [2^0] s; the
    comment in the source and the claim promise at most 25%. *)
Theorem backoff_jitter_exceeds_a_quarter :
  calculateBackoff 0 (3 # 4) (1 # 2) = 1375000000
  /\ 1375000000 > 1 * Second + (1 * Second) / 4.
Proof. split; vm_compute; reflexivity. Qed.

End BackoffFacts.

(** ** The validator: the length check *)

Section LengthCheck.
Import GoString Config Validator.
Context `{L : GoLib}.

(** On a plain string column the only checks are the two length checks,
    and both compare [len(value)], the number of bytes. *)
Lemma validateValue_string_column (name value : string) (required : bool)
    (minLen maxLen : option Z) :
  validateValue value (Examples.stringColumn name required minLen maxLen) = None
  <-> (forall n, minLen = Some n -> n <= len value)
      /\ (forall n, maxLen = Some n -> len value <= n).
Proof.
  unfold validateValue, Examples.stringColumn. cbn.
  destruct minLen as [lo|], maxLen as [hi|].
  - destruct (len value <? lo) eqn:E1.
    + split; [discriminate|]. intros [H _]. specialize (H lo eq_refl).
      apply Z.ltb_lt in E1. lia.
    + destruct (len value >? hi) eqn:E2.
      * split; [discriminate|]. intros [_ H]. specialize (H hi eq_refl).
        rewrite Z.gtb_ltb in E2. apply Z.ltb_lt in E2. lia.
      * split; [|done]. intros _.
        apply Z.ltb_ge in E1. rewrite Z.gtb_ltb in E2. apply Z.ltb_ge in E2.
        split; intros n [= <-]; lia.
  - destruct (len value <? lo) eqn:E1.
    + split; [discriminate|]. intros [H _]. specialize (H lo eq_refl).
      apply Z.ltb_lt in E1. lia.
    + split; [|done]. intros _. apply Z.ltb_ge in E1.
      split; [intros n [= <-]; lia|discriminate].
  - destruct (len value >? hi) eqn:E2.
    + split; [discriminate|]. intros [_ H]. specialize (H hi eq_refl).
      rewrite Z.gtb_ltb in E2. apply Z.ltb_lt in E2. lia.
    + split; [|done]. intros _. rewrite Z.gtb_ltb in E2. apply Z.ltb_ge in E2.
      split; [discriminate|intros n [= <-]; lia].
  - split; [|done]. intros _. split; discriminate.
Qed.

(** C9, at a value of two Hangul syllables under [max_len: 2]: the value
    has two code points and six bytes, and [validateValue] rejects it as
    longer than two characters; under [min_len: 3] a value of one code
    point is long enough.  The check counts bytes. *)
Theorem length_check_counts_bytes :
  rune_count Examples.hangul = 2
  /\ len Examples.hangul = 6
  /\ validateValue Examples.hangul
       (Examples.stringColumn "name" true None (Some 2))
     = Some "value too long (max 2 characters)"
  /\ validateValue (String.substring 0 3 Examples.hangul)
       (Examples.stringColumn "name" true (Some 3) None)
     = None.
Proof. repeat split; vm_compute; reflexivity. Qed.

End LengthCheck.

(** ** Instances on concrete rows *)

Section ValidatorInstances.
Import GoString Config Validator.

Lemma contactSchema_names_NoDup : NoDup (GetColumnNames Examples.contactSchema).
Proof. apply (bool_decide_unpack _). vm_compute. reflexivity. Defined.

(** C5, the claim as worded fails: the row [name = "ab"] is shorter than
    [min_len: 3]; the column fails validation and the data map has no entry
    for it, so its keys are not the schema's column names. *)
Lemma failed_column_is_absent_from_data :
  let r := (ValidateRow (L := Examples.stubLib) Examples.contactSchema ∅ 1
              (Examples.contactRow "ab" "010-1234-5678")).2 in
  Data r !! "name" = None
  /\ dom (Data r) <> list_to_set (GetColumnNames Examples.contactSchema).
Proof.
  cbv zeta.
  assert (Data (ValidateRow (L := Examples.stubLib) Examples.contactSchema ∅ 1
                  (Examples.contactRow "ab" "010-1234-5678")).2 !! "name" = None)
    as Hnone by (vm_compute; reflexivity).
  split; [exact Hnone|].
  intros Heq.
  assert ("name" ∈ (list_to_set (GetColumnNames Examples.contactSchema) : gset string))
    as Hin by (cbn; set_solver).
  rewrite <- Heq in Hin. apply elem_of_dom in Hin as [v Hv].
  rewrite Hnone in Hv. discriminate.
Qed.

Lemma normalized_keys_are_columns_without_error_witness :
  let row := Examples.contactRow "ab" "010-1234-5678" in
  let r := (ValidateRow (L := Examples.stubLib) Examples.contactSchema ∅ 1 row).2 in
  NoDup (GetColumnNames Examples.contactSchema)
  /\ dom (Data r) =
       list_to_set (GetColumnNames Examples.contactSchema)
       ∖ list_to_set (Column <$> Errors (validateColumns (L := Examples.stubLib)
                                           Examples.contactSchema 1 row))
  /\ Data r !! "phone" = Some "+821012345678"
  /\ Data r !! "name" = None.
Proof.
  cbv zeta.
  pose proof (normalized_keys_are_columns_without_error (L := Examples.stubLib)
                Examples.contactSchema ∅ 1 (Examples.contactRow "ab" "010-1234-5678")
                contactSchema_names_NoDup) as (Hdom & _ & _ & Hvalue & _).
  split; [exact contactSchema_names_NoDup|]. split; [exact Hdom|]. split.
  - exact (Hvalue Examples.phoneColumn "010-1234-5678"
             ltac:(right; left) eq_refl ltac:(discriminate)).
  - exact (Hvalue (Examples.stringColumn "name" true (Some 3) None) "ab"
             ltac:(left) eq_refl ltac:(discriminate)).
Defined.

Lemma required_empty_value_one_error_witness :
  NoDup (GetColumnNames Examples.contactSchema)
  /\ Examples.phoneColumn ∈ SchemaColumns Examples.contactSchema
  /\ Required Examples.phoneColumn = true
  /\ Examples.contactRow "Kim" "" !! Name Examples.phoneColumn = Some ""
  /\ filter (fun e => Column e = Name Examples.phoneColumn)
            (Errors (ValidateRow (L := Examples.stubLib) Examples.contactSchema ∅ 7
                       (Examples.contactRow "Kim" "")).2)
     = [requiredError 7 "phone"].
Proof.
  assert (Examples.phoneColumn ∈ SchemaColumns Examples.contactSchema) as Hin.
  { right. left. }
  assert (Examples.contactRow "Kim" "" !! Name Examples.phoneColumn = Some "") as Hd.
  { vm_compute. reflexivity. }
  split; [exact contactSchema_names_NoDup|].
  split; [exact Hin|]. split; [reflexivity|]. split; [exact Hd|].
  exact (required_empty_value_one_error (L := Examples.stubLib)
           Examples.contactSchema ∅ 7 (Examples.contactRow "Kim" "")
           Examples.phoneColumn contactSchema_names_NoDup Hin eq_refl Hd).
Defined.



End ValidatorInstances.

(** ** The fingerprint of the Runner *)

Section FingerprintFacts.
Import GoString Config Fingerprint.















(** The renderer's own [generateRequestHash] does read the headers; its
    value is overwritten by the Runner ([requestData.Hash = requestHash]). *)
Lemma renderer_preimage_reads_headers :
  rendererPreimage (Examples.postConfig "u" ∅) ∅ [] []
  <> rendererPreimage (Examples.postConfig "u" (<["A" := "b"]> ∅)) ∅ ["A"] [].
Proof. vm_compute. discriminate. Qed.

End FingerprintFacts.

(** ** The Runner: callbacks and counters *)

Section RunnerFacts.
Import GoString Config Client Runner.
Context `{L : GoLib}.

(** C1, as the code has it.  For a row that a worker took and whose wait
    on the rate limiter was not cancelled: when the row is valid and its
    fingerprint is already in the idempotency index, [processTask] does not
    call the callback and changes nothing but the skipped counter, which
    goes up by one (the other counters and the idempotency index stay as
    they were); in every other case the callback is called exactly once,
    with the row number, the validation result and a non-nil outcome, and
    [skipped] is unchanged. *)
Theorem callback_once_unless_skipped (cfg : Settings) (st : State)
    (task : RowTask) (env : TaskEnv) :
  limiterFailed env = false ->
  let vr := (Validator.ValidateRow (schema cfg) (seen st) (RowNumber task)
               (TaskData task)).2 in
  let fingerprint :=
    Fingerprint.runnerRequestHash (requestConfig cfg) (Validator.Data vr)
      (runnerKeyOrder env) in
  let st' := processTask cfg st task env in
  if Validator.Valid vr && isAlreadyProcessed st fingerprint
  then calls st' = calls st
       /\ counters st' = addSkipped (counters st)
       /\ checkpoints st' = checkpoints st
  else (exists outcome,
           calls st' = calls st ++ [(RowNumber task, vr, Some outcome)])
       /\ SkippedRows (counters st') = SkippedRows (counters st).
Proof.
  intros Hlim. cbv zeta. unfold processTask. rewrite Hlim.
  destruct (Validator.ValidateRow (schema cfg) (seen st) (RowNumber task)
              (TaskData task)) as [seen' vr].
  cbn [snd].
  destruct (Validator.Valid vr); cbn [andb].
  - destruct (isAlreadyProcessed st _); [done|].
    destruct (Template.Render _ _ _); [|by eauto].
    destruct (Success _); by eauto.
  - by eauto.
Qed.

(** When no template fails at execution, [Render] succeeds. *)
Lemma Render_succeeds (rc : RequestConfig) (o : Template.RangeOrders)
    (data : gmap string string) :
  (forall tmpl d, exists s, template_Execute tmpl d = inl s) ->
  exists rd, Template.Render rc o data = inl rd.
Proof.
  intros Htot. unfold Template.Render.
  destruct (Htot (URL rc) data) as [url ->].
  assert (forall keys acc, exists hs,
             Template.renderHeaders rc data keys acc = inl hs) as Hh.
  { induction keys as [|k keys IH]; intros acc; cbn [Template.renderHeaders].
    - by eexists.
    - destruct (Htot (default "" (Config.Headers rc !! k)) data) as [v ->].
      apply IH. }
  destruct (Hh (Template.renderHeaderOrder o) ∅) as [hs ->].
  destruct (String.eqb (Body rc) "").
  - destruct (String.eqb (Proxy rc) ""); [by eexists|].
    destruct (Htot (Proxy rc) data) as [p ->]. by eexists.
  - destruct (Htot (Body rc) data) as [b ->].
    destruct (String.eqb (Proxy rc) ""); [by eexists|].
    destruct (Htot (Proxy rc) data) as [p ->]. by eexists.
Qed.

(** One task moves exactly one of the three counters, unless its template
    fails; the total is the feeder's. *)
Lemma processTask_accounted (cfg : Settings) (st : State) (task : RowTask)
    (env : TaskEnv) :
  limiterFailed env = false ->
  (forall tmpl d, exists s, template_Execute tmpl d = inl s) ->
  accounted (counters (processTask cfg st task env)) = accounted (counters st) + 1
  /\ TotalRows (counters (processTask cfg st task env)) = TotalRows (counters st).
Proof.
  intros Hlim Htot. unfold processTask. rewrite Hlim.
  destruct (Validator.ValidateRow _ _ _ _) as [seen' vr].
  destruct (Validator.Valid vr).
  - destruct (isAlreadyProcessed st _).
    + unfold accounted. cbn. lia.
    + destruct (Render_succeeds (requestConfig cfg) (orders env)
                  (Validator.Data vr) Htot) as [rd ->].
      destruct (Success _); unfold accounted; cbn; lia.
  - unfold accounted. cbn. lia.
Qed.

(** Without template errors and without cancellation the counters of a run
    add up. *)
Lemma Run_accounted (cfg : Settings) (seen0 : Validator.Seen)
    (checkpoints0 : gset string) (tasks : list (RowTask * TaskEnv)) :
  Forall (fun te => limiterFailed te.2 = false) tasks ->
  (forall tmpl d, exists s, template_Execute tmpl d = inl s) ->
  let r := counters (Run cfg seen0 checkpoints0 tasks 0) in
  TotalRows r = SuccessRows r + FailedRows r + SkippedRows r.
Proof.
  intros Hall Htot. cbv zeta. unfold Run. cbn [counters addTotal].
  cbn [TotalRows SuccessRows FailedRows SkippedRows].
  set (st0 := {| seen := seen0; checkpoints := checkpoints0;
                 counters := {| TotalRows := 0; SuccessRows := 0;
                                FailedRows := 0; SkippedRows := 0 |};
                 calls := [] |}).
  assert (TotalRows (counters st0) = accounted (counters st0)) as H0 by reflexivity.
  enough (TotalRows (counters (foldl (feedAndProcess cfg) st0 tasks))
          = accounted (counters (foldl (feedAndProcess cfg) st0 tasks))) as H.
  { unfold accounted in H. unfold addTotal.
    cbn [TotalRows SuccessRows FailedRows SkippedRows]. lia. }
  clearbody st0. revert st0 H0.
  induction Hall as [|[task env] tasks Hlim _ IH]; intros st0 H0; cbn [foldl].
  - exact H0.
  - apply IH. unfold feedAndProcess. cbn [fst snd] in *.
    destruct (processTask_accounted cfg
                {| seen := seen st0; checkpoints := checkpoints st0;
                   counters := addTotal 1 (counters st0); calls := calls st0 |}
                task env Hlim Htot) as [Ha Ht].
    rewrite Ha, Ht. unfold accounted, addTotal in *.
    cbn [counters TotalRows SuccessRows FailedRows SkippedRows]. lia.
Qed.

End RunnerFacts.

Section RunnerInstances.
Import GoString Config Client Runner.

(** C3, at a run of one valid row whose url template fails at execution:
    the row is counted in [total] and in none of [success], [failed],
    [skipped], although the callback reports it with the category
    [template_error]. *)
Theorem template_error_row_is_counted_nowhere :
  let st := Run (L := Examples.stubLib) (Examples.noteSettings Examples.badTemplate)
              ∅ ∅ [(Examples.noteTask 1 "Kim", Examples.noteEnv)] 0 in
  counters st = {| TotalRows := 1; SuccessRows := 0; FailedRows := 0;
                   SkippedRows := 0 |}
  /\ TotalRows (counters st)
     <> SuccessRows (counters st) + FailedRows (counters st) + SkippedRows (counters st)
  /\ List.map (fun c => ErrorCategory <$> c.2) (calls st) = [Some "template_error"].
Proof.
  cbv zeta.
  assert (counters (Run (L := Examples.stubLib)
                      (Examples.noteSettings Examples.badTemplate)
                      ∅ ∅ [(Examples.noteTask 1 "Kim", Examples.noteEnv)] 0)
          = {| TotalRows := 1; SuccessRows := 0; FailedRows := 0;
               SkippedRows := 0 |}) as -> by (vm_compute; reflexivity).
  split; [reflexivity|]. split; [cbn; lia|]. vm_compute. reflexivity.
Qed.

(** C1, the claim as worded fails: two rows with the same content are
    received; the first succeeds and marks its fingerprint, the second is
    skipped and no callback is made for it. *)
Lemma skipped_row_gets_no_callback :
  let st := Run (L := Examples.stubLib) (Examples.noteSettings "https://api/x")
              ∅ ∅ [(Examples.noteTask 1 "Kim", Examples.noteEnv);
                   (Examples.noteTask 2 "Kim", Examples.noteEnv)] 0 in
  List.map (fun c => c.1.1) (calls st) = [1]
  /\ counters st = {| TotalRows := 2; SuccessRows := 1; FailedRows := 0;
                      SkippedRows := 1 |}.
Proof. cbv zeta. split; vm_compute; reflexivity. Qed.

Lemma callback_once_unless_skipped_witness :
  let cfg := Examples.noteSettings "https://api/x" in
  let st := {| seen := ∅; checkpoints := ∅;
               counters := {| TotalRows := 1; SuccessRows := 0; FailedRows := 0;
                              SkippedRows := 0 |};
               calls := [] |} in
  let st1 := processTask (L := Examples.stubLib) cfg st
               (Examples.noteTask 1 "Kim") Examples.noteEnv in
  let st2 := processTask (L := Examples.stubLib) cfg st1
               (Examples.noteTask 2 "Kim") Examples.noteEnv in
  limiterFailed Examples.noteEnv = false
  /\ (exists outcome vr, calls st1 = calls st ++ [(1, vr, Some outcome)])
  /\ calls st2 = calls st1
  /\ counters st2 = addSkipped (counters st1)
  /\ checkpoints st2 = checkpoints st1.
Proof.
  cbv zeta. split; [reflexivity|]. split.
  - pose proof (callback_once_unless_skipped (L := Examples.stubLib)
                  (Examples.noteSettings "https://api/x")
                  {| seen := ∅; checkpoints := ∅;
                     counters := {| TotalRows := 1; SuccessRows := 0;
                                    FailedRows := 0; SkippedRows := 0 |};
                     calls := [] |}
                  (Examples.noteTask 1 "Kim") Examples.noteEnv eq_refl) as H.
    cbv zeta in H.
    destruct (Validator.Valid _ && isAlreadyProcessed _ _) eqn:E in H.
    + vm_compute in E. discriminate E.
    + destruct H as [[outcome Hc] _]. exists outcome. eexists. exact Hc.
  - pose proof (callback_once_unless_skipped (L := Examples.stubLib)
                  (Examples.noteSettings "https://api/x")
                  (processTask (L := Examples.stubLib)
                     (Examples.noteSettings "https://api/x")
                     {| seen := ∅; checkpoints := ∅;
                        counters := {| TotalRows := 1; SuccessRows := 0;
                                       FailedRows := 0; SkippedRows := 0 |};
                        calls := [] |}
                     (Examples.noteTask 1 "Kim") Examples.noteEnv)
                  (Examples.noteTask 2 "Kim") Examples.noteEnv eq_refl) as H.
    cbv zeta in H.
    destruct (Validator.Valid _ && isAlreadyProcessed _ _) eqn:E in H.
    + exact H.
    + vm_compute in E. discriminate E.
Defined.

End RunnerInstances.

(* ===================================================================== *)
(** * Further properties of the code *)
(* ===================================================================== *)

(** ** The validator: what a whole call of [ValidateRow] guarantees *)

Section ValidateRowInvariants.
Import GoString Config Validator ValidatorWords.

Lemma checkUniqueColumn_consistent (rowNum : Z) (st : Seen * ValidationResult)
    (col : string) :
  consistent st.2 -> consistent (checkUniqueColumn rowNum st col).2.
Proof.
  destruct st as [seen r]. intros Hr. rewrite checkUniqueColumn_spec.
  destruct (isDuplicate seen r col).
  - split; [discriminate|]. cbn. intros E. by apply app_eq_nil in E as [_ ?].
  - by destruct (String.eqb _ _).
Qed.

Lemma foldl_checkUniqueColumn_consistent (rowNum : Z) (cols : list string)
    (st : Seen * ValidationResult) :
  consistent st.2 -> consistent (foldl (checkUniqueColumn rowNum) st cols).2.
Proof.
  revert st. induction cols as [|c cols IH]; intros st Hst; cbn [foldl]; [done|].
  by apply IH, checkUniqueColumn_consistent.
Qed.

(** The sets of seen values only grow. *)
Lemma checkUniqueColumn_mono (rowNum : Z) (st : Seen * ValidationResult)
    (col c : string) :
  seenAt st.1 c ⊆ seenAt (checkUniqueColumn rowNum st col).1 c.
Proof.
  destruct st as [seen r]. rewrite checkUniqueColumn_spec.
  destruct (isDuplicate seen r col); [done|].
  destruct (String.eqb _ _); [done|].
  cbn [fst]. rewrite seenAt_insert. case_decide; [subst; set_solver|done].
Qed.

Lemma foldl_checkUniqueColumn_mono (rowNum : Z) (cols : list string)
    (st : Seen * ValidationResult) (c : string) :
  seenAt st.1 c ⊆ seenAt (foldl (checkUniqueColumn rowNum) st cols).1 c.
Proof.
  revert st. induction cols as [|col cols IH]; intros st; cbn [foldl]; [done|].
  etransitivity; [apply (checkUniqueColumn_mono rowNum st col c)|apply IH].
Qed.

(** Errors are only appended. *)
Lemma foldl_checkUniqueColumn_errors_kept (rowNum : Z) (cols : list string)
    (st : Seen * ValidationResult) (e : ValidationError) :
  e ∈ Errors st.2 -> e ∈ Errors (foldl (checkUniqueColumn rowNum) st cols).2.
Proof.
  revert st. induction cols as [|col cols IH]; intros [seen r] He; cbn [foldl]; [done|].
  apply IH. rewrite checkUniqueColumn_spec.
  destruct (isDuplicate seen r col).
  - cbn. apply elem_of_app. by left.
  - by destruct (String.eqb _ _).
Qed.

(** After the pass, the value of every uniqueness column is in its set,
    whether it was new or a duplicate. *)
Lemma foldl_checkUniqueColumn_records (rowNum : Z) (cols : list string)
    (seen : Seen) (r : ValidationResult) (col : string) :
  col ∈ cols ->
  default "" (Data r !! col) <> "" ->
  default "" (Data r !! col)
    ∈ seenAt (foldl (checkUniqueColumn rowNum) (seen, r) cols).1 col.
Proof.
  revert seen r. induction cols as [|c cols IH]; intros seen r Hin Hv.
  - by apply elem_of_nil in Hin.
  - cbn [foldl].
    destruct (decide (c = col)) as [->|Hne].
    + apply (foldl_checkUniqueColumn_mono rowNum cols).
      rewrite checkUniqueColumn_spec. unfold isDuplicate.
      apply String.eqb_neq in Hv. rewrite Hv. cbn [negb andb].
      case_bool_decide as Hmem; cbn [fst]; [exact Hmem|].
      rewrite seenAt_insert, decide_True by done. set_solver.
    + assert (col ∈ cols) as Hin' by (by apply elem_of_cons in Hin as [?|?]).
      pose proof (checkUniqueColumn_data rowNum (seen, r) c) as Hd.
      destruct (checkUniqueColumn rowNum (seen, r) c) as [seen1 r1].
      cbn [snd] in Hd. specialize (IH seen1 r1 Hin').
      rewrite Hd in IH. by apply IH.
Qed.

Context `{L : GoLib}.

Lemma validateRowRules_consistent (schema : Schema) (rowNum : Z)
    (r : ValidationResult) :
  consistent r -> consistent (validateRowRules schema rowNum r).
Proof.
  unfold validateRowRules. revert r.
  induction (RowRules schema) as [|rule rules IH]; intros r Hr; cbn [foldl]; [done|].
  apply IH. destruct (negb _); [|done].
  split; [discriminate|]. cbn. intros E. by apply app_eq_nil in E as [_ ?].
Qed.

(** X1.  For every schema, validator state and row, the result of
    [ValidateRow] is valid exactly when its list of errors is empty: no phase
    (columns, uniqueness, row rules) records an error without clearing
    [Valid], or clears [Valid] without recording an error. *)
Theorem ValidateRow_valid_iff_no_errors (schema : Schema) (seen : Seen)
    (rowNum : Z) (data : gmap string string) :
  Valid (ValidateRow schema seen rowNum data).2 = true
  <-> Errors (ValidateRow schema seen rowNum data).2 = [].
Proof.
  pose proof (validateColumns_valid_iff schema rowNum data) as Hc.
  unfold ValidateRow.
  destruct (Valid (validateColumns schema rowNum data)) eqn:Hv.
  - pose proof (foldl_checkUniqueColumn_consistent rowNum (uniquenessColumns schema)
                  (seen, validateColumns schema rowNum data)) as Hu.
    rewrite <- checkUniqueness_flat in Hu.
    destruct (checkUniqueness schema rowNum (seen, validateColumns schema rowNum data))
      as [seen' ru].
    cbn [snd] in *. assert (consistent ru) as Hru
      by (apply Hu; unfold consistent; by rewrite Hv).
    destruct (Valid ru) eqn:Hvu.
    + by apply validateRowRules_consistent.
    + exact Hru.
  - cbn [snd]. rewrite Hv. cbn [snd]. by rewrite Hv.
Qed.

(** The inner maps that [NewValidator] allocates are never removed, so the
    write of [checkUniqueness] always finds the one it needs. *)
Lemma ValidateRow_keeps_allocated (schema : Schema) (seen : Seen) (rowNum : Z)
    (data : gmap string string) (col : string) :
  is_Some (seen !! col) ->
  is_Some ((ValidateRow schema seen rowNum data).1 !! col).
Proof.
  intros Hs. unfold ValidateRow.
  destruct (Valid (validateColumns schema rowNum data)); [|done].
  rewrite checkUniqueness_flat.
  assert (forall cols (st : Seen * ValidationResult),
             is_Some (st.1 !! col) ->
             is_Some ((foldl (checkUniqueColumn rowNum) st cols).1 !! col)) as Hfold.
  { induction cols as [|c cols IH]; intros [seen0 r0] H0; cbn [foldl]; [done|].
    apply IH. rewrite checkUniqueColumn_spec.
    destruct (isDuplicate _ _ _); [done|].
    destruct (String.eqb _ _); [done|]. cbn [fst] in *.
    destruct (decide (c = col)) as [->|Hne].
    - by rewrite lookup_insert_eq.
    - by rewrite lookup_insert_ne. }
  specialize (Hfold (uniquenessColumns schema)
                (seen, validateColumns schema rowNum data) Hs).
  by destruct (foldl (checkUniqueColumn rowNum)
                 (seen, validateColumns schema rowNum data)
                 (uniquenessColumns schema)) as [seen' ru].
Qed.

(** X2.  The validator never forgets a value: for every column, the set of
    values seen before a call of [ValidateRow] is contained in the set seen
    after it; and a row with an error in its columns leaves the state exactly
    as it was (its values are not reserved). *)
Theorem ValidateRow_seen_grows (schema : Schema) (seen : Seen) (rowNum : Z)
    (data : gmap string string) (col : string) :
  seenAt seen col ⊆ seenAt (ValidateRow schema seen rowNum data).1 col
  /\ (Valid (validateColumns schema rowNum data) = false ->
      (ValidateRow schema seen rowNum data).1 = seen).
Proof.
  split.
  - unfold ValidateRow.
    destruct (Valid (validateColumns schema rowNum data)) eqn:Hv; [|done].
    pose proof (foldl_checkUniqueColumn_mono rowNum (uniquenessColumns schema)
                  (seen, validateColumns schema rowNum data) col) as Hm.
    rewrite <- checkUniqueness_flat in Hm.
    by destruct (checkUniqueness schema rowNum
                   (seen, validateColumns schema rowNum data)) as [seen' ru].
  - intros Hv. by rewrite ValidateRow_column_errors.
Qed.

(** X3.  A row that reaches the uniqueness check records its non-empty value
    of every uniqueness column, also when the row is then rejected (for a
    duplicate in that or another column, or by a row rule): the value counts
    as seen for all later rows. *)
Theorem ValidateRow_records_value (schema : Schema) (seen : Seen) (rowNum : Z)
    (data : gmap string string) (col : string) :
  col ∈ uniquenessColumns schema ->
  reachesUniqueness schema rowNum data = true ->
  uniqueValue schema rowNum data col <> "" ->
  uniqueValue schema rowNum data col
    ∈ seenAt (ValidateRow schema seen rowNum data).1 col.
Proof.
  intros Hin Hreach Hv. unfold reachesUniqueness in Hreach.
  pose proof (foldl_checkUniqueColumn_records rowNum (uniquenessColumns schema)
                seen (validateColumns schema rowNum data) col Hin Hv) as Hrec.
  rewrite <- checkUniqueness_flat in Hrec.
  unfold ValidateRow. rewrite Hreach.
  by destruct (checkUniqueness schema rowNum
                 (seen, validateColumns schema rowNum data)) as [seen' ru].
Qed.

(** X4.  A column that is named twice in the uniqueness constraints rejects
    every row that reaches the check with a non-empty value in it, the first
    one included: the second visit of the column finds the value that the
    first visit has just recorded. *)
Theorem column_named_twice_rejects_every_row (schema : Schema) (seen : Seen)
    (rowNum : Z) (data : gmap string string) (col : string)
    (l1 l2 : list string) :
  uniquenessColumns schema = l1 ++ col :: l2 ->
  col ∈ l2 ->
  reachesUniqueness schema rowNum data = true ->
  uniqueValue schema rowNum data col <> "" ->
  Valid (ValidateRow schema seen rowNum data).2 = false
  /\ duplicateError rowNum col (uniqueValue schema rowNum data col)
       ∈ Errors (ValidateRow schema seen rowNum data).2.
Proof.
  intros Hcols Hin2 Hreach Hv. unfold reachesUniqueness in Hreach.
  apply list_elem_of_split in Hin2 as (l2a & l2b & ->).
  set (rc := validateColumns schema rowNum data) in *.
  (* the state when the second visit starts *)
  set (st1 := foldl (checkUniqueColumn rowNum) (seen, rc) ((l1 ++ [col]) ++ l2a)).
  assert (checkUniqueness schema rowNum (seen, rc)
          = foldl (checkUniqueColumn rowNum) (checkUniqueColumn rowNum st1 col) l2b)
    as Hpass.
  { rewrite checkUniqueness_flat, Hcols. subst st1.
    replace (l1 ++ col :: l2a ++ col :: l2b)
      with (((l1 ++ [col]) ++ l2a) ++ col :: l2b)
      by (by rewrite <- !app_assoc).
    by rewrite foldl_app. }
  assert (Data st1.2 = Data rc) as Hd1 by apply foldl_checkUniqueColumn_data.
  assert (uniqueValue schema rowNum data col ∈ seenAt st1.1 col) as Hseen1.
  { subst st1. rewrite foldl_app.
    apply (foldl_checkUniqueColumn_mono rowNum l2a).
    destruct (foldl (checkUniqueColumn rowNum) (seen, rc) (l1 ++ [col]))
      as [s r] eqn:E.
    change s with (s, r).1. rewrite <- E.
    apply foldl_checkUniqueColumn_records; [|exact Hv].
    apply elem_of_app. right. left. }
  destruct st1 as [s1 r1]. cbn [fst snd] in *.
  assert (checkUniqueColumn rowNum (s1, r1) col
          = (s1, {| Valid := false;
                    Errors := Errors r1 ++
                      [duplicateError rowNum col (uniqueValue schema rowNum data col)];
                    Data := Data r1 |})) as Hstep.
  { assert (default "" (Data r1 !! col) = uniqueValue schema rowNum data col) as Hval
      by (by rewrite Hd1).
    rewrite checkUniqueColumn_spec. unfold isDuplicate. cbv zeta. rewrite Hval.
    apply String.eqb_neq in Hv. rewrite Hv. cbn [negb andb].
    by rewrite bool_decide_eq_true_2. }
  rewrite Hstep in Hpass.
  unfold ValidateRow. fold rc. rewrite Hreach, Hpass.
  set (st2 := (s1, {| Valid := false;
                      Errors := Errors r1 ++
                        [duplicateError rowNum col (uniqueValue schema rowNum data col)];
                      Data := Data r1 |})).
  pose proof (foldl_checkUniqueColumn_invalid rowNum l2b st2 eq_refl) as Hinv.
  pose proof (foldl_checkUniqueColumn_errors_kept rowNum l2b st2
                (duplicateError rowNum col (uniqueValue schema rowNum data col)))
    as Hkept.
  destruct (foldl (checkUniqueColumn rowNum) st2 l2b) as [s3 r3].
  cbn [snd] in *. rewrite Hinv. cbn [snd]. split; [exact Hinv|].
  apply Hkept. subst st2. cbn. apply elem_of_app. right. left.
Qed.

(** X5.  Row rules whose expression does not contain the text [age(birth)]
    are never evaluated: they leave every result as it is, whatever the
    expression says. *)
Theorem row_rules_without_age_never_fail (schema : Schema) (rowNum : Z)
    (r : ValidationResult) :
  Forall (fun rule => Contains (rExpr rule) "age(birth)" = false) (RowRules schema) ->
  validateRowRules schema rowNum r = r.
Proof.
  unfold validateRowRules. intros Hall. revert r.
  induction Hall as [|rule rules Hrule _ IH]; intros r; cbn [foldl]; [done|].
  unfold evaluateRowRule at 2. rewrite Hrule. cbn [negb]. apply IH.
Qed.

End ValidateRowInvariants.

(** ** The E.164 rewrite applied twice *)

Section PhoneTwice.
Import GoString Phone.

Lemma strip_non_digits_idem (s : string) :
  strip_non_digits (strip_non_digits s) = strip_non_digits s.
Proof.
  induction s as [|c s IH]; [reflexivity|]. cbn [strip_non_digits].
  destruct (is_digit c) eqn:E; [|exact IH].
  cbn [strip_non_digits]. by rewrite E, IH.
Qed.

Lemma strip_non_digits_tail (s : string) :
  strip_non_digits s = s -> strip_non_digits (slice_from 1 s) = slice_from 1 s.
Proof.
  destruct s as [|c s]; [done|]. cbn [strip_non_digits slice_from].
  destruct (is_digit c).
  - by intros [= ->].
  - intros H. exfalso.
    assert (forall t, (String.length (strip_non_digits t) <= String.length t)%nat) as Hle.
    { induction t as [|a t IHt]; cbn; [lia|]. destruct (is_digit a); cbn; lia. }
    specialize (Hle s). rewrite H in Hle. cbn in Hle. lia.
Qed.

Lemma len_strip_le (s : string) : len (strip_non_digits s) <= len s.
Proof.
  unfold len. apply inj_le.
  induction s as [|a t IHt]; cbn; [lia|]. destruct (is_digit a); cbn; lia.
Qed.

(** The two outcomes of the rewrite, on the digits [c] of the input. *)
Lemma formatKoreanPhoneE164_cases (phone : string) :
  let c := strip_non_digits phone in
  (formatKoreanPhoneE164 phone = c
   /\ ((len c =? 10) && HasPrefix c "0" = false)
   /\ ((len c =? 11) && HasPrefix c "01" = false))
  \/ (formatKoreanPhoneE164 phone = "+82" +:+ slice_from 1 c
      /\ (len c = 10 \/ len c = 11)).
Proof.
  cbv zeta. unfold formatKoreanPhoneE164.
  destruct ((len (strip_non_digits phone) =? 10)
            && HasPrefix (strip_non_digits phone) "0") eqn:E1.
  - right. split; [done|]. apply andb_true_iff in E1 as [E _].
    apply Z.eqb_eq in E. by left.
  - destruct ((len (strip_non_digits phone) =? 11)
              && HasPrefix (strip_non_digits phone) "01") eqn:E2.
    + right. split; [done|]. apply andb_true_iff in E2 as [E _].
      apply Z.eqb_eq in E. by right.
    + left. done.
Qed.

Lemma slice_from_1_length (s : string) :
  s <> "" -> String.length s = S (String.length (slice_from 1 s)).
Proof. destruct s; [done|]. reflexivity. Qed.

(** X6.  The rewrite is not idempotent.  Applied to its own output (two
    transform rules on a column, or [toE164KR] in a template on a column that
    the schema already transformed) it returns the digits of that output:
    a number that was rewritten to [+82...] loses its plus sign, and only a
    value that the first application left as bare digits is unchanged. *)
Theorem e164_rewrite_twice_drops_the_plus (phone : string) :
  toE164KR (formatKoreanPhoneE164 phone)
    = strip_non_digits (formatKoreanPhoneE164 phone)
  /\ (toE164KR (formatKoreanPhoneE164 phone) = formatKoreanPhoneE164 phone
      <-> formatKoreanPhoneE164 phone = strip_non_digits phone).
Proof.
  pose proof (strip_non_digits_idem phone) as Hid.
  destruct (formatKoreanPhoneE164_cases phone) as [(Hf & H10 & H11)|(Hf & Hlen)];
    cbv zeta in *; set (c := strip_non_digits phone) in *.
  - (* bare digits: the second application meets the same tests *)
    rewrite Hf. unfold toE164KR. fold c. rewrite Hid. fold c.
    rewrite H10, H11. done.
  - (* rewritten: twelve or thirteen bytes, eleven or twelve of them digits
       that start with 8 *)
    assert (c <> "") as Hne.
    { intros E. rewrite E in Hlen. unfold len in Hlen. cbn in Hlen. lia. }
    assert (strip_non_digits (formatKoreanPhoneE164 phone)
            = "82" +:+ slice_from 1 c) as Hs.
    { rewrite Hf.
      change (strip_non_digits ("+82" +:+ slice_from 1 c))
        with (String "8" (String "2" (strip_non_digits (slice_from 1 c)))).
      by rewrite strip_non_digits_tail. }
    assert (toE164KR (formatKoreanPhoneE164 phone) = "82" +:+ slice_from 1 c) as Ht.
    { unfold toE164KR. rewrite Hs.
      assert (len ("82" +:+ slice_from 1 c) = len c + 1) as Hl.
      { unfold len.
        change (String.length ("82" +:+ slice_from 1 c))
          with (S (S (String.length (slice_from 1 c)))).
        rewrite (slice_from_1_length c Hne). lia. }
      rewrite Hl.
      replace (HasPrefix ("82" +:+ slice_from 1 c) "0") with false by reflexivity.
      replace (HasPrefix ("82" +:+ slice_from 1 c) "01") with false by reflexivity.
      rewrite !andb_false_r. reflexivity. }
    split; [by rewrite Ht, Hs|].
    rewrite Ht, Hf. split; [discriminate|].
    intros E. exfalso.
    assert (strip_non_digits ("+82" +:+ slice_from 1 c) = "+82" +:+ slice_from 1 c)
      as Hbad by (by rewrite E; unfold c; rewrite strip_non_digits_idem).
    change (strip_non_digits ("+82" +:+ slice_from 1 c))
      with (strip_non_digits ("82" +:+ slice_from 1 c)) in Hbad.
    pose proof (len_strip_le ("82" +:+ slice_from 1 c)) as Hle.
    rewrite Hbad in Hle. unfold len in Hle.
    change (String.length ("+82" +:+ slice_from 1 c))
      with (S (String.length ("82" +:+ slice_from 1 c))) in Hle.
    lia.
Qed.

(** X7.  The rewrite never leaves a character other than a digit in its
    result, except one leading plus sign, and the result is at most two bytes
    longer than the input. *)
Theorem e164_rewrite_output_shape (phone : string) :
  (strip_non_digits (formatKoreanPhoneE164 phone) = formatKoreanPhoneE164 phone
   \/ exists digits, formatKoreanPhoneE164 phone = "+" +:+ digits
                     /\ strip_non_digits digits = digits)
  /\ len (formatKoreanPhoneE164 phone) <= len phone + 2.
Proof.
  pose proof (len_strip_le phone) as Hle.
  destruct (formatKoreanPhoneE164_cases phone) as [(Hf & _)|(Hf & Hlen)];
    cbv zeta in *.
  - rewrite Hf. split; [left; apply strip_non_digits_idem|lia].
  - assert (strip_non_digits phone <> "") as Hne.
    { intros E. rewrite E in Hlen. unfold len in Hlen. cbn in Hlen. lia. }
    rewrite Hf. split.
    + right. exists ("82" +:+ slice_from 1 (strip_non_digits phone)).
      split; [reflexivity|].
      change (strip_non_digits ("82" +:+ slice_from 1 (strip_non_digits phone)))
        with (String "8" (String "2"
                (strip_non_digits (slice_from 1 (strip_non_digits phone))))).
      by rewrite strip_non_digits_tail by apply strip_non_digits_idem.
    + unfold len in *.
      change (String.length ("+82" +:+ slice_from 1 (strip_non_digits phone)))
        with (S (S (S (String.length (slice_from 1 (strip_non_digits phone)))))).
      rewrite (slice_from_1_length _ Hne) in Hle. lia.
Qed.

End PhoneTwice.

(** ** internal/config: what an accepted configuration satisfies *)

Section ConfigFacts.
Import GoString GoStringMore Config ConfigCheck.
Context `{L : GoLib} `{R : GoRegexp}.

Lemma checkColumns_accepts (seen : gset string) (cols : list ColumnSchema) :
  checkColumns seen cols = None ->
  NoDup (List.map Name cols)
  /\ (forall c, c ∈ cols -> Name c ∉ seen)
  /\ Forall (fun c => Name c <> "" /\ isValidColumnType (Type_ c) = true) cols.
Proof.
  revert seen. induction cols as [|col cols IH]; intros seen H.
  - repeat split; [constructor|intros c Hc; by apply elem_of_nil in Hc|constructor].
  - cbn [checkColumns] in H.
    destruct (String.eqb_spec (Name col) "") as [|Hname]; [discriminate|].
    case_bool_decide as Hseen; [discriminate|].
    destruct (isValidColumnType (Type_ col)) eqn:Htype; [|discriminate].
    cbn [negb] in H.
    destruct (if String.eqb (Regex col) "" then None else regexp_Compile (Regex col));
      [discriminate|].
    destruct (checkValidatorPatterns (Name col) (Validators col)); [discriminate|].
    destruct (IH _ H) as (Hnd & Hfresh & Hall).
    repeat split.
    + cbn [List.map]. apply NoDup_cons. split; [|exact Hnd].
      intros Hin. apply list_elem_of_In, in_map_iff in Hin as (c & Heq & Hc).
      apply list_elem_of_In in Hc. apply (Hfresh c Hc). rewrite Heq. set_solver.
    + intros c [->|Hc]%elem_of_cons; [exact Hseen|].
      intros Hin. apply (Hfresh c Hc). set_solver.
    + constructor; [done|exact Hall].
Qed.

(** X8.  A schema that [validateSchema] accepts has version 1, at least one
    column, column names that are not empty and pairwise different, and only
    column types that [isValidColumnType] accepts. *)
Theorem validateSchema_accepts (version : Z) (schema : Schema) :
  validateSchema version schema = None ->
  version = 1
  /\ SchemaColumns schema <> []
  /\ NoDup (GetColumnNames schema)
  /\ Forall (fun c => Name c <> "" /\ isValidColumnType (Type_ c) = true)
            (SchemaColumns schema).
Proof.
  unfold validateSchema. intros H.
  destruct (Z.eqb_spec version 1) as [->|]; [|discriminate]. cbn [negb] in H.
  destruct (SchemaColumns schema) as [|c cols] eqn:Hcols; [discriminate|].
  rewrite <- Hcols in H.
  replace (Z.of_nat (List.length (SchemaColumns schema)) =? 0) with false in H
    by (rewrite Hcols; reflexivity).
  destruct (checkColumns_accepts ∅ _ H) as (Hnd & _ & Hall).
  unfold GetColumnNames. rewrite <- Hcols.
  repeat split; [by rewrite Hcols|exact Hnd|exact Hall].
Qed.

(** X9.  A column type that [isValidColumnType] accepts is one that
    [validateType] knows: the validator never answers "unsupported column
    type" for it, whatever the value. *)
Theorem accepted_type_is_supported (colType value format : string) :
  isValidColumnType colType = true ->
  Validator.validateType value colType format
  <> Some ("unsupported column type: " +:+ colType).
Proof.
  unfold isValidColumnType, Validator.validateType.
  destruct (String.eqb colType "string"); [discriminate|].
  destruct (String.eqb colType "int").
  { intros _. destruct (strconv_Atoi value); discriminate. }
  destruct (String.eqb colType "float").
  { intros _. destruct (strconv_ParseFloat value); discriminate. }
  destruct (HasPrefix colType "decimal(").
  { intros _. destruct (decimal_NewFromString value); discriminate. }
  destruct (HasPrefix colType "date"); [|discriminate].
  intros _. unfold Validator.validateDate.
  destruct (time_Parse _ value); [|discriminate].
  destruct (String.eqb _ "20060102"); [|discriminate].
  destruct ((Validator.age_of t <? 0) || (Validator.age_of t >? 120)); discriminate.
Qed.

End ConfigFacts.

Section ConfigLookups.
Import GoString Config ConfigCheck.

(** X10.  [GetColumnByName] answers the first column of the schema that has
    the name, and [nil] exactly when no column has it; with pairwise
    different names, looking up the name of a column gives that column
    back. *)
Theorem GetColumnByName_spec (cols : list ColumnSchema) (name : string) :
  (forall c, GetColumnByName cols name = Some c -> c ∈ cols /\ Name c = name)
  /\ (GetColumnByName cols name = None <-> name ∉ List.map Name cols)
  /\ (NoDup (List.map Name cols) ->
      forall c, c ∈ cols -> GetColumnByName cols (Name c) = Some c).
Proof.
  split; [|split].
  - induction cols as [|col cols IH]; intros c; cbn [GetColumnByName]; [discriminate|].
    destruct (String.eqb_spec (Name col) name) as [E|E].
    + intros [= <-]. split; [left|exact E].
    + intros H. destruct (IH c H) as [Hin Hn]. split; [by right|exact Hn].
  - induction cols as [|col cols IH]; cbn [GetColumnByName List.map].
    + split; [intros _ H; by apply elem_of_nil in H|done].
    + destruct (String.eqb_spec (Name col) name) as [E|E].
      * split; [discriminate|]. intros H. exfalso. apply H. rewrite E. left.
      * rewrite IH. rewrite not_elem_of_cons. split; [by split|by intros [_ ?]].
  - induction cols as [|col cols IH]; intros Hnd c Hc.
    + by apply elem_of_nil in Hc.
    + cbn [List.map] in Hnd. apply NoDup_cons in Hnd as [Hnotin Hnd].
      cbn [GetColumnByName].
      apply elem_of_cons in Hc as [->|Hc].
      * by rewrite String.eqb_refl.
      * destruct (String.eqb_spec (Name col) (Name c)) as [E|E].
        -- exfalso. apply Hnotin. rewrite E.
           apply list_elem_of_In, in_map, list_elem_of_In, Hc.
        -- by apply IH.
Qed.

(** X11.  A request configuration that [validateRequestConfig] accepts has a
    method and a url, and a list of success codes that is not empty: the
    configured list when there is one, and otherwise the ten codes 200 to 208
    and 226.  With that default a status is a success exactly when it is one
    of these ten (so 209 or 299 is not). *)
Theorem validateRequestConfig_accepts (config rc : RequestConfig) :
  validateRequestConfig config = inl rc ->
  Method rc <> "" /\ URL rc <> "" /\ StatusIn rc <> []
  /\ (StatusIn config <> [] -> rc = config)
  /\ (StatusIn config = [] ->
      forall s, IsSuccessStatus rc s = true <-> (200 <= s <= 208 \/ s = 226)).
Proof.
  unfold validateRequestConfig.
  destruct (String.eqb_spec (Method config) "") as [|Hm]; [discriminate|].
  destruct (String.eqb_spec (URL config) "") as [|Hu]; [discriminate|].
  destruct (StatusIn config) as [|s0 rest] eqn:Hs.
  - cbn. intros [= <-]. cbn.
    split; [done|]. split; [done|]. split; [done|]. split; [done|].
    intros _ s. unfold IsSuccessStatus. cbn.
    rewrite !orb_true_iff, !Z.eqb_eq. split.
    + intros Hs'. decompose [or] Hs'; lia || discriminate.
    + lia.
  - cbn. intros [= <-]. rewrite Hs.
    split; [done|]. split; [done|]. split; [done|]. split; [done|].
    discriminate.
Qed.

End ConfigLookups.

(** ** internal/reader *)

Section ReaderFacts.
Import GoString Config Reader.

Lemma headerMismatch_None (i : Z) (headers expected : list string) :
  List.length headers = List.length expected ->
  (headerMismatch i headers expected = None <-> headers = expected).
Proof.
  revert i expected. induction headers as [|h hs IH]; intros i [|e es] Hlen;
    try discriminate; cbn [headerMismatch].
  - done.
  - injection Hlen as Hlen.
    destruct (String.eqb_spec h e) as [->|Hne]; cbn [negb].
    + rewrite (IH (i + 1) es Hlen). split; [by intros ->|by intros [= ->]].
    + split; [discriminate|]. intros [= ? ?]. done.
Qed.

Lemma validateHeaders_None (headers expected : list string) :
  validateHeaders headers expected = None <-> headers = expected.
Proof.
  unfold validateHeaders.
  destruct (Nat.eqb_spec (List.length headers) (List.length expected)) as [E|E];
    cbn [negb].
  - by apply headerMismatch_None.
  - split; [discriminate|]. intros ->. done.
Qed.

(** X12.  [validateHeaders] accepts a header line exactly when it is equal
    to the list of the schema's column names: the same number of names, the
    same names at the same positions, compared byte by byte; a different
    number of names is reported before any name is compared. *)
Theorem validateHeaders_accepts_iff_equal (headers expected : list string) :
  (validateHeaders headers expected = None <-> headers = expected)
  /\ (List.length headers <> List.length expected ->
      validateHeaders headers expected
      = Some ("header count mismatch: got "
              +:+ Itoa (Z.of_nat (List.length headers)) +:+ ", expected "
              +:+ Itoa (Z.of_nat (List.length expected)))).
Proof.
  split; [apply validateHeaders_None|].
  intros Hne. unfold validateHeaders.
  by destruct (Nat.eqb_spec (List.length headers) (List.length expected)).
Qed.

(** The loop of "Convert record to map" from index [k]. *)
Lemma recordToMap_loop (headers : list string) :
  NoDup headers ->
  forall (record : list string) (k : nat) (acc : gmap string string),
    let result :=
      foldl (fun data (iv : nat * string) =>
               match headers !! iv.1 with
               | Some header => <[header := iv.2]> data
               | None => data
               end)
            acc (imap (fun i v => ((k + i)%nat, v)) record) in
    (forall j h, headers !! j = Some h -> (k <= j < k + List.length record)%nat ->
                 result !! h = record !! (j - k)%nat)
    /\ (forall h, (forall j, (k <= j < k + List.length record)%nat ->
                             headers !! j <> Some h) ->
                  result !! h = acc !! h).
Proof.
  intros Hnd. induction record as [|v rest IH]; intros k acc.
  - cbn. split; [intros; lia|done].
  - cbv zeta. rewrite imap_cons. cbn [foldl fst snd].
    rewrite (imap_ext _ (fun i v => ((S k + i)%nat, v)))
      by (intros; cbn; f_equal; lia).
    rewrite Nat.add_0_r.
    set (acc' := match headers !! k with
                 | Some header => <[header := v]> acc
                 | None => acc
                 end).
    destruct (IH (S k) acc') as [IH1 IH2]. cbv zeta in IH1, IH2.
    cbn [List.length]. split.
    + intros j h Hj Hrange.
      destruct (decide (j = k)) as [->|Hne].
      * rewrite IH2.
        -- subst acc'. rewrite Hj, Nat.sub_diag. cbn. apply lookup_insert_eq.
        -- intros j' Hj' Hh. pose proof (NoDup_lookup _ _ _ _ Hnd Hj Hh). lia.
      * rewrite (IH1 j h Hj) by lia.
        replace (j - k)%nat with (S (j - S k)) by lia. reflexivity.
    + intros h Hnone. rewrite IH2 by (intros j Hj; apply Hnone; lia).
      subst acc'. destruct (headers !! k) as [hk|] eqn:Hk; [|done].
      rewrite lookup_insert_ne; [done|].
      intros ->. apply (Hnone k); [lia|exact Hk].
Qed.

(** X13.  When the header names are pairwise different and a record has as
    many fields as there are headers (the CSV reader refuses any other
    record), the map built for the record has exactly the header names as
    keys, and the value under the [i]-th name is the [i]-th field. *)
Theorem recordToMap_by_position (headers record : list string) :
  NoDup headers ->
  List.length record = List.length headers ->
  dom (recordToMap headers record) = list_to_set headers
  /\ forall i h, headers !! i = Some h ->
                 recordToMap headers record !! h = record !! i.
Proof.
  intros Hnd Hlen.
  destruct (recordToMap_loop headers Hnd record 0 ∅) as [H1 H2].
  cbv zeta in H1, H2.
  assert (imap (fun i v => ((0 + i)%nat, v)) record = imap pair record) as Him
    by (by apply imap_ext).
  rewrite Him in H1, H2. fold (recordToMap headers record) in H1, H2.
  assert (forall i h, headers !! i = Some h ->
                      recordToMap headers record !! h = record !! i) as Hpos.
  { intros i h Hi. rewrite (H1 i h Hi).
    - by rewrite Nat.sub_0_r.
    - apply lookup_lt_Some in Hi. lia. }
  split; [|exact Hpos].
  apply set_eq. intros h. rewrite elem_of_dom, elem_of_list_to_set. split.
  - intros [v Hv].
    destruct (decide (h ∈ headers)) as [|Hnotin]; [done|].
    rewrite H2 in Hv; [by rewrite lookup_empty in Hv|].
    intros j _ Hj. apply Hnotin. by eapply list_elem_of_lookup_2.
  - intros Hin. apply list_elem_of_lookup in Hin as [i Hi].
    rewrite (Hpos i h Hi). apply lookup_lt_is_Some.
    apply lookup_lt_Some in Hi. lia.
Qed.

Lemma readDataRows_spec (headers : list string) (orders : Z -> list string)
    (reads : list CsvRead) :
  forall (rowNumber : Z),
    let out := readDataRows headers orders rowNumber reads in
    (forall i t, out.1 !! i = Some t ->
                 Runner.RowNumber t = rowNumber + Z.of_nat i
                 /\ exists record, reads !! i = Some (CsvRecord record)
                                   /\ Runner.TaskData t = recordToMap headers record)
    /\ (out.2 = None -> List.length out.1 = List.length reads).
Proof.
  induction reads as [|[record|e] rest IH]; intros rowNumber; cbn [readDataRows].
  - cbn. split; [intros i t H; by rewrite lookup_nil in H|done].
  - specialize (IH (rowNumber + 1)). cbv zeta in IH.
    destruct (readDataRows headers orders (rowNumber + 1) rest) as [tasks err].
    cbn [fst snd] in *. destruct IH as [IH1 IH2]. split.
    + intros [|i] t Ht; cbn in Ht.
      * injection Ht as <-. cbn. split; [lia|]. by exists record.
      * destruct (IH1 i t Ht) as [Hn Hrec]. split; [lia|exact Hrec].
    + intros Herr. cbn [List.length]. by rewrite IH2.
  - cbn. split; [intros i t H; by rewrite lookup_nil in H|discriminate].
Qed.

(** X14.  [ReadRows] sends a task only for a file whose header line is equal
    to the schema's column names; the [i]-th task (from 0) comes from the
    [i]-th record after the header, carries the row number [i + 1] and the
    map built from that record; and when no error is returned every record
    of the file has become a task. *)
Theorem ReadRows_tasks (schema : Schema) (file : list CsvRead + string)
    (orders : Z -> list string) :
  let out := ReadRows schema file orders in
  (forall i t, out.1 !! i = Some t ->
     exists reads record,
       file = inl (CsvRecord (GetColumnNames schema) :: reads)
       /\ reads !! i = Some (CsvRecord record)
       /\ Runner.RowNumber t = 1 + Z.of_nat i
       /\ Runner.TaskData t = recordToMap (GetColumnNames schema) record)
  /\ (out.2 = None ->
      exists reads, file = inl (CsvRecord (GetColumnNames schema) :: reads)
                    /\ List.length out.1 = List.length reads).
Proof.
  cbv zeta. unfold ReadRows.
  destruct file as [[|[headers|e] reads]|e]; cbn [fst snd];
    try (split; [intros i t H; by rewrite lookup_nil in H|discriminate]).
  destruct (validateHeaders headers (GetColumnNames schema)) as [e|] eqn:Hh;
    cbn [fst snd];
    try (split; [intros i t H; by rewrite lookup_nil in H|discriminate]).
  apply validateHeaders_None in Hh. subst headers.
  destruct (readDataRows_spec (GetColumnNames schema) orders reads 1) as [H1 H2].
  cbv zeta in H1, H2. split.
  - intros i t Ht. destruct (H1 i t Ht) as (Hn & record & Hrec & Hd).
    exists reads, record. done.
  - intros Herr. exists reads. split; [done|by apply H2].
Qed.

Lemma wrap64_range (z : Z) : - 2 ^ 63 <= Client.wrap64 z < 2 ^ 63.
Proof.
  unfold Client.wrap64.
  pose proof (Z.mod_pos_bound (z + 2 ^ 63) (2 ^ 64) ltac:(lia)). lia.
Qed.

Lemma foldl_hash_range (data : gmap string string) (order : list string) (acc : Z) :
  - 2 ^ 63 <= acc < 2 ^ 63 ->
  - 2 ^ 63 <=
    foldl (fun hash key =>
             foldl (fun hash c => Client.wrap64 (31 * hash + c)) hash
                   (runes (key +:+ default "" (data !! key))))
          acc order < 2 ^ 63.
Proof.
  revert acc. induction order as [|key order IH]; intros acc Hacc; cbn [foldl].
  - exact Hacc.
  - apply IH. generalize (runes (key +:+ default "" (data !! key))). intros rs.
    revert acc Hacc. induction rs as [|c rs IHr]; intros acc Hacc; cbn [foldl].
    + exact Hacc.
    + apply IHr, wrap64_range.
Qed.

(** X15.  The number that [generateRowHash] puts into the request id is
    never negative, with one exception: when the sum wraps to the least
    [int], its negation wraps again and the result is [-2^63]. *)
Theorem generateRowHash_range (data : gmap string string) (order : list string) :
  0 <= generateRowHash data order < 2 ^ 63
  \/ generateRowHash data order = - 2 ^ 63.
Proof.
  unfold generateRowHash.
  match goal with |- context [foldl ?f 0 order] => set (hash := foldl f 0 order) end.
  assert (- 2 ^ 63 <= hash < 2 ^ 63) as Hrange.
  { subst hash. apply foldl_hash_range. lia. }
  destruct (hash <? 0) eqn:E.
  - apply Z.ltb_lt in E.
    destruct (decide (hash = - 2 ^ 63)) as [->|Hne].
    + right. reflexivity.
    + left. rewrite wrap64_small by lia. lia.
  - apply Z.ltb_ge in E. left. lia.
Qed.

End ReaderFacts.

(** ** Masking *)

Section MaskFacts.
Import GoString GoStringMore Config TemplateFuncs Logger.

Lemma length_Repeat_star (n : nat) : String.length (Repeat "*" n) = n.
Proof.
  induction n as [|n IH]; [reflexivity|].
  change (String.length (Repeat "*" (S n))) with (S (String.length (Repeat "*" n))).
  by rewrite IH.
Qed.

Lemma length_string_app (s t : string) :
  String.length (s +:+ t) = (String.length s + String.length t)%nat.
Proof. induction s as [|c s IH]; simpl; [reflexivity|by rewrite IH]. Qed.

Lemma length_slice_from (n : nat) (s : string) :
  String.length (slice_from n s) = (String.length s - n)%nat.
Proof.
  revert s. induction n as [|n IH]; intros s; simpl; [lia|].
  destruct s as [|c s]; simpl; [done|]. apply IH.
Qed.

Lemma length_slice_to (n : nat) (s : string) :
  (n <= String.length s)%nat -> String.length (slice_to n s) = n.
Proof.
  unfold slice_to. revert s. induction n as [|n IH]; intros s Hn.
  - destruct s; reflexivity.
  - destruct s as [|c s]; simpl in *; [lia|]. rewrite IH; [done|lia].
Qed.

(** The masking formula shared by [mask] and [maskSensitiveData]. *)
Lemma length_masked (value : string) :
  String.length
    (if len value <=? 4 then Repeat "*" (String.length value)
     else slice_to 2 value
          +:+ Repeat "*" (String.length value - 4)
          +:+ slice_from (String.length value - 2) value)
  = String.length value.
Proof.
  unfold len. destruct (Z.of_nat (String.length value) <=? 4) eqn:E.
  - apply length_Repeat_star.
  - apply Z.leb_gt in E.
    rewrite !length_string_app, length_Repeat_star, length_slice_from.
    rewrite length_slice_to by lia. lia.
Qed.

(** X16.  Masking never changes the length of a value: [mask] and
    [maskSensitiveData] return as many bytes as they get.  The logger masks
    a value when the name of a secret column occurs in it, and returns every
    other value as it is. *)
Theorem masking_keeps_length (cols : list ColumnSchema) (value : string) :
  len (mask value) = len value
  /\ len (maskSensitiveData cols value) = len value
  /\ (maskSensitiveData cols value = mask value
      \/ maskSensitiveData cols value = value)
  /\ (Forall (fun col => Secret col = false \/ Contains value (Name col) = false) cols ->
      maskSensitiveData cols value = value).
Proof.
  assert (len (mask value) = len value) as Hm.
  { unfold len at 1 2, mask. by rewrite length_masked. }
  assert (forall cs, maskSensitiveData cs value = mask value
                     \/ maskSensitiveData cs value = value) as Hor.
  { induction cs as [|col cs IH]; cbn [maskSensitiveData]; [by right|].
    destruct (Secret col && Contains value (Name col)); [by left|exact IH]. }
  split; [exact Hm|]. split; [by destruct (Hor cols) as [->| ->]|].
  split; [apply Hor|].
  intros Hall. induction Hall as [|col cs Hcol _ IH]; cbn [maskSensitiveData]; [done|].
  assert (Secret col && Contains value (Name col) = false) as ->.
  { destruct Hcol as [-> | ->]; [done|apply andb_false_r]. }
  exact IH.
Qed.

End MaskFacts.

(** ** The logger *)

Section LoggerFacts.
Import GoString GoStringMore Config Logger.

(** The loop of [ExportFailedRows] over the column names, from cell
    [len(pre)]. *)
Lemma exportRecord_loop (data : gmap string string) (names : list string) :
  forall (pre post : list string),
    foldl (fun record (ic : nat * string) =>
             match data !! ic.2 with
             | Some value => <[ic.1 := value]> record
             | None => record
             end)
          (pre ++ replicate (List.length names) "" ++ post)
          (imap (fun i c => ((List.length pre + i)%nat, c)) names)
    = pre ++ List.map (fun c => default "" (data !! c)) names ++ post.
Proof.
  induction names as [|c names IH]; intros pre post.
  - reflexivity.
  - rewrite imap_cons. cbn [foldl fst snd List.length replicate List.map].
    rewrite (imap_ext _ (fun i c' => ((List.length (pre ++ [default "" (data !! c)]) + i)%nat, c')))
      by (intros; cbn; rewrite length_app; cbn; f_equal; lia).
    rewrite Nat.add_0_r.
    assert (match data !! c with
            | Some value =>
                <[List.length pre := value]>
                  (pre ++ ("" :: replicate (List.length names) "") ++ post)
            | None => pre ++ ("" :: replicate (List.length names) "") ++ post
            end
            = (pre ++ [default "" (data !! c)])
              ++ replicate (List.length names) "" ++ post) as ->.
    { destruct (data !! c) as [v|]; cbn [default].
      - rewrite insert_app_r_alt, Nat.sub_diag by lia. cbn.
        by rewrite <- app_assoc.
      - by rewrite <- app_assoc. }
    rewrite IH. by rewrite <- app_assoc.
Qed.

(** X17.  A line of the failed-row export holds, in the order of the
    schema's columns, the value that the row's data has for each column, the
    empty string for a column without entry, and the failure reason in a
    last cell. *)
Theorem exportRecord_cells (names : list string) (fr : FailedRow) :
  exportRecord names fr
  = List.map (fun c => default "" (frData fr !! c)) names ++ [frReason fr].
Proof.
  unfold exportRecord. cbv zeta.
  pose proof (exportRecord_loop (frData fr) names [] [""]) as H.
  cbn [app List.length] in H.
  rewrite (imap_ext _ pair) in H by done.
  replace (replicate (List.length names + 1) "")
    with (replicate (List.length names) "" ++ [""]).
  2:{ by rewrite replicate_add. }
  rewrite H.
  replace (List.length names + 1 - 1)%nat
    with (List.length (List.map (fun c => default "" (frData fr !! c)) names))
    by (rewrite length_map; lia).
  rewrite insert_app_r_alt, Nat.sub_diag by lia. reflexivity.
Qed.

End LoggerFacts.

Section LogFiles.
Import GoString GoStringMore Config Logger LoggerWords.

Lemma LogRequest_lengths (schema : Schema) (l : Logs)
    (e : string * string * Runner.CallbackArgs) :
  let l' := LogRequest schema l e.1.1 e.1.2 e.2 in
  List.length (sentLog l')
    = (List.length (sentLog l) + if hasOutcome e then 1 else 0)%nat
  /\ List.length (errorLog l')
     = (List.length (errorLog l) + if hasFailure e then 1 else 0)%nat
  /\ List.length (validateLog l')
     = (List.length (validateLog l) + reportedErrors e)%nat.
Proof.
  destruct e as [[tsV tsR] [[rowNum vr] rr]].
  unfold LogRequest, hasOutcome, hasFailure, reportedErrors. cbn [fst snd].
  destruct (Validator.Valid vr); cbn [negb]; destruct rr as [rr|]; cbn;
    try destruct (Client.Success rr); cbn;
    unfold writeValidationLog; rewrite ?length_app, ?length_map; cbn; lia.
Qed.

(** X18.  After any sequence of callbacks, [sent.csv] holds its header and
    one line for each callback that carried an outcome, [request_errors.csv]
    its header and one line for each outcome that is not a success, and
    [validate_errors.csv] its header and one line for each single validation
    error of the invalid rows. *)
Theorem log_line_counts (schema : Schema)
    (entries : list (string * string * Runner.CallbackArgs)) :
  let l := logAll schema entries in
  List.length (sentLog l) = S (List.length (List.filter hasOutcome entries))
  /\ List.length (errorLog l) = S (List.length (List.filter hasFailure entries))
  /\ List.length (validateLog l)
     = S (list_sum (List.map reportedErrors entries)).
Proof.
  cbv zeta. unfold logAll.
  enough (forall l0,
             let l := foldl (fun l e => LogRequest schema l e.1.1 e.1.2 e.2) l0 entries in
             List.length (sentLog l)
               = (List.length (sentLog l0)
                  + List.length (List.filter hasOutcome entries))%nat
             /\ List.length (errorLog l)
                = (List.length (errorLog l0)
                   + List.length (List.filter hasFailure entries))%nat
             /\ List.length (validateLog l)
                = (List.length (validateLog l0)
                   + list_sum (List.map reportedErrors entries))%nat) as H.
  { destruct (H NewLogger) as (H1 & H2 & H3). cbn in H1, H2, H3. done. }
  induction entries as [|e entries IH]; intros l0; cbn [foldl].
  - cbn. lia.
  - destruct (IH (LogRequest schema l0 e.1.1 e.1.2 e.2)) as (H1 & H2 & H3).
    destruct (LogRequest_lengths schema l0 e) as (E1 & E2 & E3).
    cbv zeta in *. rewrite H1, H2, H3, E1, E2, E3.
    unfold list_sum. cbn [List.filter List.map fold_right].
    destruct (hasOutcome e), (hasFailure e); cbn [List.length]; lia.
Qed.

(** X19.  Every line that the logger writes to [sent.csv] has the eleven
    cells of the header, and the last one, [request_hash], is empty:
    [writeSentLog] prints the field [RequestHash] of the entry, and the
    entry that [LogRequest] builds never receives a fingerprint. *)
Theorem sent_log_has_no_request_hash (schema : Schema)
    (entries : list (string * string * Runner.CallbackArgs)) :
  Forall (fun record => List.length record = 11%nat) (sentLog (logAll schema entries))
  /\ Forall (fun record => record !! 10%nat = Some "")
            (List.tl (sentLog (logAll schema entries))).
Proof.
  unfold logAll.
  enough (forall l0,
             Forall (fun record => List.length record = 11%nat) (sentLog l0) ->
             sentLog l0 <> [] ->
             Forall (fun record => record !! 10%nat = Some "") (List.tl (sentLog l0)) ->
             let l := foldl (fun l e => LogRequest schema l e.1.1 e.1.2 e.2) l0 entries in
             Forall (fun record => List.length record = 11%nat) (sentLog l)
             /\ Forall (fun record => record !! 10%nat = Some "") (List.tl (sentLog l)))
    as H.
  { apply H; cbn; [by repeat constructor|done|constructor]. }
  induction entries as [|e entries IH]; intros l0 Hw Hne Hh; cbn [foldl].
  - done.
  - destruct e as [[tsV tsR] [[rowNum vr] rr]]. cbn [fst snd].
    assert (sentLog (LogRequest schema l0 tsV tsR (rowNum, vr, rr))
            = sentLog l0 ++ match rr with
                            | Some rr => [writeSentLog schema (requestEntry tsR rowNum rr)]
                            | None => []
                            end) as Hs.
    { unfold LogRequest. destruct (negb (Validator.Valid vr)), rr; cbn;
        by rewrite ?app_nil_r. }
    apply IH; rewrite Hs.
    + apply Forall_app. split; [exact Hw|]. destruct rr; by repeat constructor.
    + destruct (sentLog l0); [done|discriminate].
    + destruct (sentLog l0) as [|h t]; [done|]. cbn [List.tl app] in *.
      apply Forall_app. split; [exact Hh|]. destruct rr; by repeat constructor.
Qed.

End LogFiles.

Section RunnerAndLogger.
Import GoString Config Client Runner Logger.
Context `{L : GoLib}.

(** X20.  A row that fails validation enters the logger's list of failed
    rows twice: the Runner passes the callback both the invalid validation
    result and a [validation_error] outcome, and [LogRequest] adds the row
    once for each, with the reasons [validation_failed] and
    [validation_error]. *)
Theorem invalid_row_is_listed_twice (cfg : Settings) (st : State)
    (task : RowTask) (env : TaskEnv) (l : Logs) (tsV tsR : string) :
  limiterFailed env = false ->
  let vr := (Validator.ValidateRow (schema cfg) (seen st) (RowNumber task)
               (TaskData task)).2 in
  Validator.Valid vr = false ->
  exists args,
    calls (processTask cfg st task env) = calls st ++ [args]
    /\ failedRows (LogRequest (schema cfg) l tsV tsR args)
       = failedRows l ++
         [{| frRowNumber := RowNumber task; frData := Validator.Data vr;
             frReason := "validation_failed" |};
          {| frRowNumber := RowNumber task; frData := Validator.Data vr;
             frReason := "validation_error" |}].
Proof.
  intros Hlim vr Hv. subst vr. unfold processTask. rewrite Hlim.
  destruct (Validator.ValidateRow (schema cfg) (seen st) (RowNumber task)
              (TaskData task)) as [seen' vr].
  cbn [snd] in *. rewrite Hv. eexists. split; [reflexivity|].
  unfold LogRequest. rewrite Hv. cbn. by rewrite <- app_assoc.
Qed.

End RunnerAndLogger.

(** ** The client: what every call of [Execute] guarantees *)

Section ExecuteInvariants.
Import GoString Config Client ClientWords.
Context `{L : GoLib}.

Lemma categorizeError_values (e : string) : categorizeError e ∈ errorCategories.
Proof.
  unfold categorizeError, errorCategories.
  repeat match goal with
         | |- context [if ?b then _ else _] => destruct b
         end; set_solver.
Qed.

(** One turn of the attempt loop, by the way it ends. *)
Lemma attemptBody_turn (rc : RequestConfig) (m : Z) (net : Net) (attempt : nat)
    (st : ExecState) :
  let out := attemptBody rc m net attempt st in
  Retries (result out.1) = Z.of_nat attempt
  /\ match transport net attempt with
     | Responded status hdr body =>
         out.2 = Break
         /\ slept out.1 = slept st
         /\ StatusCode (result out.1) = status
         /\ (Success (result out.1) = true -> IsSuccessStatus rc status = true)
         /\ ErrorCategory (result out.1) = ErrorCategory (result st)
     | t =>
         Success (result out.1) = Success (result st)
         /\ ErrorCategory (result out.1) ∈ errorCategories
         /\ (out.2 = Continue /\ Z.of_nat attempt < m ->
             exists d, slept out.1 = slept st ++ [d] /\ d <= 30 * Second)
         /\ (~ (out.2 = Continue /\ Z.of_nat attempt < m) -> slept out.1 = slept st)
         /\ (retryableFailure t -> ctxDone net attempt = false -> out.2 = Continue)
     end.
Proof.
  cbv zeta. unfold attemptBody, retryableFailure.
  destruct (transport net attempt) as [e|e|status hdr e|status hdr body];
    cbn [executeRequest].
  4:{ cbn. split; [done|]. repeat split; try done.
      destruct (IsSuccessStatus rc status); [done|]. cbn. discriminate. }
  all: match goal with
       | |- context [shouldRetry ?e ?s] => destruct (shouldRetry e s) eqn:Hretry
       end; cbn [negb];
    [destruct (Z.of_nat attempt <? m) eqn:Hlt;
       [destruct (ctxDone net attempt) eqn:Hdone|]|];
    cbn [fst snd result slept Retries Success ErrorCategory];
    (split; [reflexivity|]); (split; [reflexivity|]);
    (split; [apply categorizeError_values|]);
    repeat split; try done;
    try (intros [? ?]; discriminate);
    try (intros [_ ?]; apply Z.ltb_ge in Hlt; lia);
    try (intros _; eexists; split; [reflexivity|apply calculateBackoff_at_most_30s]);
    try (intros H; exfalso; apply H; split; [reflexivity|by apply Z.ltb_lt]).
Qed.


(** A category that was set is never cleared by later turns. *)
Lemma attemptLoop_keeps_category (rc : RequestConfig) (m : Z) (net : Net)
    (fuel attempt : nat) (st : ExecState) :
  ErrorCategory (result st) <> "" ->
  ErrorCategory (result (attemptLoop rc m net fuel attempt st).1) <> "".
Proof.
  revert attempt st. induction fuel as [|fuel IH]; intros attempt st Hne; [done|].
  cbn [attemptLoop].
  pose proof (attemptBody_turn rc m net attempt st) as Hturn. cbv zeta in Hturn.
  destruct (attemptBody rc m net attempt st) as [st1 flow].
  cbn [fst snd] in Hturn. destruct Hturn as [_ Hturn].
  assert (ErrorCategory (result st1) <> "") as Hne1.
  { destruct (transport net attempt).
    4:{ destruct Hturn as (_ & _ & _ & _ & ->). exact Hne. }
    all: destruct Hturn as (_ & Hc & _); intros E; rewrite E in Hc;
      unfold errorCategories in Hc; set_solver. }
  destruct flow; cbn [fst]; [by apply IH|done|done].
Qed.

(** The whole loop, from a turn that is still allowed. *)
Lemma attemptLoop_invariants (rc : RequestConfig) (m : Z) (net : Net) :
  forall (fuel attempt : nat) (st : ExecState),
    (0 < fuel)%nat ->
    Z.of_nat attempt + Z.of_nat fuel = m + 1 ->
    List.length (slept st) = attempt ->
    Forall (fun d => d <= 30 * Second) (slept st) ->
    Success (result st) = false ->
    (ErrorCategory (result st) = "" \/ ErrorCategory (result st) ∈ errorCategories) ->
    let out := attemptLoop rc m net fuel attempt st in
    (Z.of_nat attempt <= Retries (result out.1) <= m)
    /\ List.length (slept out.1) = Z.to_nat (Retries (result out.1))
    /\ Forall (fun d => d <= 30 * Second) (slept out.1)
    /\ (Success (result out.1) = true ->
        IsSuccessStatus rc (StatusCode (result out.1)) = true)
    /\ (ErrorCategory (result out.1) = ""
        \/ ErrorCategory (result out.1) ∈ errorCategories)
    /\ (failedAttempt (transport net attempt) ->
        ErrorCategory (result out.1) ∈ errorCategories)
    /\ ((forall n, retryableFailure (transport net n)) ->
        (forall n, ctxDone net n = false) ->
        Retries (result out.1) = m /\ Success (result out.1) = false).
Proof.
  induction fuel as [|fuel IH]; intros attempt st Hfuel Hsum Hlen Hcap Hsucc Hcat;
    [lia|].
  cbv zeta. cbn [attemptLoop].
  pose proof (attemptBody_turn rc m net attempt st) as Hturn. cbv zeta in Hturn.
  destruct (attemptBody rc m net attempt st) as [st1 flow].
  cbn [fst snd] in Hturn. destruct Hturn as [Hretries Hturn].
  assert (failedAttempt (transport net attempt) ->
          Success (result st1) = false
          /\ ErrorCategory (result st1) ∈ errorCategories
          /\ (flow = Continue /\ Z.of_nat attempt < m ->
              exists d, slept st1 = slept st ++ [d] /\ d <= 30 * Second)
          /\ (~ (flow = Continue /\ Z.of_nat attempt < m) -> slept st1 = slept st)
          /\ (retryableFailure (transport net attempt) ->
              ctxDone net attempt = false -> flow = Continue)) as Hfail.
  { intros Hf. destruct (transport net attempt); [| |  |done];
      destruct Hturn as (Hs1 & Hc1 & Hsleep & Hnosleep & Hgo);
      (split_and!; [by rewrite Hs1|done|done|done|done]). }
  destruct (transport net attempt) as [e|e|status hdr e|status hdr body] eqn:Ht.
  4:{ (* a response: the loop ends here *)
      clear Hfail.
      destruct Hturn as (-> & Hsl & Hstatus & Hok & Hc). cbn [fst snd].
      rewrite Hretries, Hsl, Hc, Hstatus, Nat2Z.id.
      split_and!; try done; try lia.
      intros Hall. exfalso. specialize (Hall attempt).
      unfold retryableFailure in Hall. by rewrite Ht in Hall. }
  all: clear Hturn; destruct (Hfail I) as (Hsucc1 & Hc1 & Hsleep & Hnosleep & Hgo);
    clear Hfail.
  all: destruct flow;
    [ destruct fuel as [|fuel'];
      [ (* Continue on the last turn *)
        cbn [attemptLoop fst snd];
        rewrite Hnosleep by (intros [_ ?]; lia);
        rewrite Hretries, Hsucc1, Nat2Z.id;
        split_and!; try done; try lia; by right
      | (* Continue, after a sleep *)
        destruct Hsleep as (d & Hd & Hdcap); [split; [done|lia]|];
        assert (List.length (slept st1) = S attempt) as Hlen1
          by (rewrite Hd, length_app; cbn; lia);
        assert (Forall (fun d => d <= 30 * Second) (slept st1)) as Hcap1
          by (rewrite Hd; apply Forall_app; split; [exact Hcap|by constructor]);
        pose proof (IH (S attempt) st1 ltac:(lia) ltac:(lia) Hlen1 Hcap1 Hsucc1
                       (or_intror Hc1)) as IH1;
        cbv zeta in IH1;
        destruct IH1 as (I1 & I2 & I3 & I4 & I5 & _ & I7);
        split_and!; try done; try lia;
        (* the category of this failed attempt is never cleared *)
        intros _; destruct I5 as [I5|I5]; [|exact I5];
        exfalso; revert I5; apply attemptLoop_keeps_category;
        intros E; rewrite E in Hc1; unfold errorCategories in Hc1; set_solver ]
    | (* Break *)
      cbn [fst snd];
      rewrite Hnosleep by (intros [? _]; discriminate);
      rewrite Hretries, Hsucc1, Nat2Z.id;
      split_and!; try done; try lia; try (by right);
      intros Hall Hdone; pose proof (Hall attempt) as Ha; rewrite Ht in Ha;
      specialize (Hgo Ha (Hdone attempt)); discriminate
    | (* Return *)
      cbn [fst snd];
      rewrite Hnosleep by (intros [? _]; discriminate);
      rewrite Hretries, Hsucc1, Nat2Z.id;
      split_and!; try done; try lia; try (by right);
      intros Hall Hdone; pose proof (Hall attempt) as Ha; rewrite Ht in Ha;
      specialize (Hgo Ha (Hdone attempt)); discriminate ].
Qed.

(** [Execute] is the loop from attempt 0 on, plus a last look at the error. *)
Lemma ExecuteTrace_loop (rc : RequestConfig) (m : Z) (net : Net) (id : string) :
  exists st,
  (0 <= m ->
   (0 <= Retries (result st) <= m)
   /\ List.length (slept st) = Z.to_nat (Retries (result st))
   /\ Forall (fun d => d <= 30 * Second) (slept st)
   /\ (failedAttempt (transport net 0) ->
       ErrorCategory (result st) ∈ errorCategories)
   /\ ((forall n, retryableFailure (transport net n)) ->
       (forall n, ctxDone net n = false) ->
       Retries (result st) = m /\ Success (result st) = false))
  /\ (Success (result st) = true ->
      IsSuccessStatus rc (StatusCode (result st)) = true)
  /\ (ExecuteTrace rc m net id).2 = slept st
  /\ Retries (ExecuteTrace rc m net id).1 = Retries (result st)
  /\ Success (ExecuteTrace rc m net id).1 = Success (result st)
  /\ StatusCode (ExecuteTrace rc m net id).1 = StatusCode (result st)
  /\ (ErrorCategory (ExecuteTrace rc m net id).1 = ErrorCategory (result st)
      \/ ErrorCategory (ExecuteTrace rc m net id).1 ∈ errorCategories).
Proof.
  unfold ExecuteTrace.
  match goal with
  | |- context [attemptLoop rc m net ?f 0 ?i] =>
      set (init := i);
      pose proof (attemptLoop_invariants rc m net f 0 init) as Hinv
  end.
  cbv zeta in Hinv.
  assert (m < 0 -> attemptLoop rc m net (Z.to_nat (m + 1)) 0 init = (init, false))
    as Hneg.
  { intros Hlt. by replace (Z.to_nat (m + 1)) with O by lia. }
  destruct (attemptLoop rc m net (Z.to_nat (m + 1)) 0 init) as [st returned].
  cbn [fst snd] in Hinv. exists st.
  split.
  { intros Hm.
    destruct Hinv as (I1 & I2 & I3 & _ & _ & I6 & I7);
      [lia|lia|done|by constructor|done|by left|].
    split_and!; try done; lia. }
  split.
  { destruct (Z_lt_le_dec m 0) as [Hlt|Hm].
    - specialize (Hneg Hlt). injection Hneg as -> _. done.
    - destruct Hinv as (_ & _ & _ & I4 & _);
        [lia|lia|done|by constructor|done|by left|done]. }
  clear Hinv Hneg.
  destruct returned; [by split_and!; try done; left|].
  destruct (lastErr st) as [e|]; [|by split_and!; try done; left].
  destruct (String.eqb (ErrorCategory (result st)) "");
    [|by split_and!; try done; left].
  cbn [fst snd Retries Success StatusCode ErrorCategory].
  split_and!; try done. right. apply categorizeError_values.
Qed.

(** The category of a result is empty or one of [categorizeError]'s. *)
Lemma Execute_category_values (rc : RequestConfig) (m : Z) (net : Net)
    (id : string) :
  ErrorCategory (Execute rc m net id) = ""
  \/ ErrorCategory (Execute rc m net id) ∈ errorCategories.
Proof.
  unfold Execute, ExecuteTrace.
  match goal with
  | |- context [attemptLoop rc m net ?f 0 ?i] =>
      set (init := i);
      pose proof (attemptLoop_invariants rc m net f 0 init) as Hinv
  end.
  cbv zeta in Hinv.
  assert (m < 0 -> attemptLoop rc m net (Z.to_nat (m + 1)) 0 init = (init, false))
    as Hneg.
  { intros Hlt. by replace (Z.to_nat (m + 1)) with O by lia. }
  destruct (attemptLoop rc m net (Z.to_nat (m + 1)) 0 init) as [st returned].
  cbn [fst snd] in Hinv.
  assert (ErrorCategory (result st) = ""
          \/ ErrorCategory (result st) ∈ errorCategories) as Hst.
  { destruct (Z_lt_le_dec m 0) as [Hlt|Hm].
    - specialize (Hneg Hlt). injection Hneg as -> _. by left.
    - destruct Hinv as (_ & _ & _ & _ & I5 & _);
        [lia|lia|done|by constructor|done|by left|done]. }
  destruct returned; [done|].
  destruct (lastErr st) as [e|]; [|done].
  destruct (String.eqb (ErrorCategory (result st)) ""); [|done].
  right. apply categorizeError_values.
Qed.

(** X21 ([Client.Execute]): with a retry limit that is not negative, the
    number of retries reported lies between 0 and the limit, the client
    slept exactly once per retry, and no sleep was longer than 30 seconds. *)
Theorem Execute_retries_and_sleeps (rc : RequestConfig) (m : Z) (net : Net)
    (id : string) :
  0 <= m ->
  let out := ExecuteTrace rc m net id in
  0 <= Retries out.1 <= m
  /\ List.length out.2 = Z.to_nat (Retries out.1)
  /\ Forall (fun d => d <= 30 * Second) out.2.
Proof.
  intros Hm. cbv zeta.
  destruct (ExecuteTrace_loop rc m net id) as (st & Hinv & _ & -> & -> & _).
  destruct (Hinv Hm) as (I1 & I2 & I3 & _). done.
Qed.

(** X22 ([Client.Execute]): a result marked successful carries a status code
    of the configured success list. *)
Theorem Execute_success_has_listed_status (rc : RequestConfig) (m : Z)
    (net : Net) (id : string) :
  Success (Execute rc m net id) = true ->
  IsSuccessStatus rc (StatusCode (Execute rc m net id)) = true.
Proof.
  unfold Execute.
  destruct (ExecuteTrace_loop rc m net id) as (st & _ & I4 & _ & _ & -> & -> & _).
  exact I4.
Qed.

(** X23 ([Client.Execute], [shouldRetry]): when every attempt fails in a way
    that [shouldRetry] accepts and the context is never cancelled, the client
    uses all its retries: the result reports the retry limit, is not a
    success, names an error category, and the client slept once per retry. *)
Theorem Execute_gives_up_after_max_retries (rc : RequestConfig) (m : Z)
    (net : Net) (id : string) :
  0 <= m ->
  (forall n, retryableFailure (transport net n)) ->
  (forall n, ctxDone net n = false) ->
  let out := ExecuteTrace rc m net id in
  Retries out.1 = m
  /\ Success out.1 = false
  /\ ErrorCategory out.1 ∈ errorCategories
  /\ List.length out.2 = Z.to_nat m.
Proof.
  intros Hm Hall Hdone. cbv zeta.
  destruct (ExecuteTrace_loop rc m net id)
    as (st & Hinv & _ & -> & -> & -> & _ & Hc).
  destruct (Hinv Hm) as (_ & I2 & _ & I6 & I7).
  destruct (I7 Hall Hdone) as [I7r I7s].
  assert (failedAttempt (transport net 0)) as Hf.
  { specialize (Hall O). unfold retryableFailure, failedAttempt in *.
    by destruct (transport net 0). }
  split_and!; [done|done| |by rewrite I2, I7r].
  destruct Hc as [Hc|Hc]; [rewrite Hc; by apply I6|done].
Qed.

(** X24 ([Client.Execute]): the error category of a failed attempt is never
    cleared.  When the first attempt fails, the result names an error
    category, also when a later attempt is answered and counted as a
    success. *)
Theorem Execute_keeps_error_category (rc : RequestConfig) (m : Z)
    (net : Net) (id : string) :
  0 <= m ->
  failedAttempt (transport net 0) ->
  ErrorCategory (Execute rc m net id) ∈ errorCategories.
Proof.
  intros Hm Hf. unfold Execute.
  destruct (ExecuteTrace_loop rc m net id) as (st & Hinv & _ & _ & _ & _ & _ & Hc).
  destruct (Hinv Hm) as (_ & _ & _ & I6 & _).
  destruct Hc as [Hc|Hc]; [rewrite Hc; by apply I6|done].
Qed.

End ExecuteInvariants.

(* ===================================================================== *)

Section RunnerInvariants.
Import GoString Config Client ClientWords Runner RunnerWords.
Context `{L : GoLib}.

(** X25 ([Runner.LoadCheckpoints], [isAlreadyProcessed], [processTask]):
    every key of a loaded checkpoint map counts as processed, whatever
    value is stored under it.  A valid row whose fingerprint is such a key
    is skipped: no callback, the skipped counter goes up by one, and the
    checkpoints stay as loaded. *)
Theorem loaded_checkpoint_skips_row (cfg : Settings) (st : State)
    (loaded : gmap string bool) (task : RowTask) (env : TaskEnv) :
  limiterFailed env = false ->
  let vr := (Validator.ValidateRow (schema cfg) (seen st) (RowNumber task)
               (TaskData task)).2 in
  Validator.Valid vr = true ->
  is_Some (loaded !! Fingerprint.runnerRequestHash (requestConfig cfg)
                       (Validator.Data vr) (runnerKeyOrder env)) ->
  let st' := processTask cfg (LoadCheckpoints st loaded) task env in
  calls st' = calls st
  /\ counters st' = addSkipped (counters st)
  /\ checkpoints st' = dom loaded ∪ checkpoints st.
Proof.
  intros Hlim vr Hvalid Hkey. subst vr. cbv zeta.
  unfold processTask. rewrite Hlim. cbn [seen LoadCheckpoints RowNumber] in *.
  destruct (Validator.ValidateRow _ _ _ _) as [seen' vr]. cbn [snd] in *.
  rewrite Hvalid.
  unfold isAlreadyProcessed. cbn [checkpoints].
  rewrite bool_decide_eq_true_2; [done|].
  apply elem_of_union_l, elem_of_dom, Hkey.
Qed.

(** X26 ([Runner.processTask], [markAsProcessed]): one call of
    [processTask] never removes a checkpoint, and it adds one exactly when
    its callback reports a success.  Either the checkpoints stay as they
    were and no success is reported (no callback at all, or a callback whose
    outcome is not a success); or the callback reports a success, and the
    one new checkpoint is the fingerprint of the row's normalized data,
    which was not a checkpoint before. *)
Theorem processTask_checkpoint_iff_success (cfg : Settings) (st : State)
    (task : RowTask) (env : TaskEnv) :
  let vr := (Validator.ValidateRow (schema cfg) (seen st) (RowNumber task)
               (TaskData task)).2 in
  let fingerprint :=
    Fingerprint.runnerRequestHash (requestConfig cfg) (Validator.Data vr)
      (runnerKeyOrder env) in
  let st' := processTask cfg st task env in
  (checkpoints st' = checkpoints st
   /\ (calls st' = calls st
       \/ exists rr, calls st' = calls st ++ [(RowNumber task, vr, Some rr)]
                     /\ Success rr = false))
  \/ (exists rr, calls st' = calls st ++ [(RowNumber task, vr, Some rr)]
                 /\ Success rr = true
                 /\ Validator.Valid vr = true
                 /\ (fingerprint ∉ checkpoints st)
                 /\ checkpoints st' = {[fingerprint]} ∪ checkpoints st).
Proof.
  cbv zeta. unfold processTask.
  destruct (limiterFailed env); [left; split; [done|by left]|].
  destruct (Validator.ValidateRow _ _ _ _) as [seen' vr]. cbn [snd].
  destruct (Validator.Valid vr) eqn:Hv.
  2:{ left. cbn. split; [done|]. right. eexists. split; [reflexivity|done]. }
  unfold isAlreadyProcessed.
  destruct (bool_decide _) eqn:Hin; [left; split; [done|by left]|].
  apply bool_decide_eq_false in Hin.
  destruct (Template.Render _ _ _).
  2:{ left. cbn. split; [done|]. right. eexists. split; [reflexivity|done]. }
  destruct (Success _) eqn:Hs.
  - right. cbn. eexists. split; [reflexivity|]. by split_and!.
  - left. cbn. split; [done|]. right. eexists. split; [reflexivity|done].
Qed.

(** X28 ([Runner.processTask], [Client.Execute]): the counters follow the
    callback.  One call of [processTask] never touches the total; when it
    makes no callback it leaves the success and the failed counter alone;
    and when it makes its callback, the success counter goes up by one
    exactly when the outcome is a success, and the failed counter goes up by
    one exactly when the outcome is a failure other than a template error
    ([Execute] never reports that category itself). *)
Theorem processTask_counters_follow_callback (cfg : Settings) (st : State)
    (task : RowTask) (env : TaskEnv) :
  let st' := processTask cfg st task env in
  TotalRows (counters st') = TotalRows (counters st)
  /\ ((calls st' = calls st
       /\ SuccessRows (counters st') = SuccessRows (counters st)
       /\ FailedRows (counters st') = FailedRows (counters st))
      \/ (exists c, calls st' = calls st ++ [c]
           /\ SuccessRows (counters st')
              = SuccessRows (counters st) + (if reportsSuccess c then 1 else 0)
           /\ FailedRows (counters st')
              = FailedRows (counters st)
                + (if reportsCountedFailure c then 1 else 0))).
Proof.
  cbv zeta. unfold processTask.
  destruct (limiterFailed env); [split; [done|left; by split_and!]|].
  destruct (Validator.ValidateRow _ _ _ _) as [seen' vr].
  destruct (Validator.Valid vr).
  2:{ cbn. split; [done|]. right. eexists. split; [reflexivity|].
      unfold reportsSuccess, reportsCountedFailure. cbn. unfold addFailed.
      cbn [SuccessRows FailedRows]. split; lia. }
  destruct (isAlreadyProcessed st _); [cbn; split; [done|left; by split_and!]|].
  destruct (Template.Render _ _ _).
  2:{ cbn. split; [done|]. right. eexists. split; [reflexivity|].
      unfold reportsSuccess, reportsCountedFailure. cbn. split; lia. }
  pose proof (Execute_category_values (requestConfig cfg) (maxRetries cfg)
                (net env) (TaskRequestID task)) as Hcat.
  assert (String.eqb (ErrorCategory (Execute (requestConfig cfg) (maxRetries cfg)
                                       (net env) (TaskRequestID task)))
                     "template_error" = false) as Hne.
  { apply String.eqb_neq. intros E. rewrite E in Hcat.
    destruct Hcat as [Hcat|Hcat]; [discriminate|].
    unfold errorCategories in Hcat. set_solver. }
  destruct (Success _) eqn:Hs; cbn; (split; [done|]); right;
    (eexists; split; [reflexivity|]);
    unfold reportsSuccess, reportsCountedFailure; cbn [snd];
    rewrite Hs, ?Hne; cbn; split; lia.
Qed.

End RunnerInvariants.

(* ===================================================================== *)

Section RenderFacts.
Import GoString Config Client Template.
Context `{L : GoLib}.

(** The header loop: what it adds to the headers found so far. *)
Lemma renderHeaders_spec (rc : RequestConfig) (data : gmap string string)
    (keys : list string) :
  forall (acc hs : gmap string string),
    NoDup keys ->
    (forall k, k ∈ keys -> acc !! k = None) ->
    renderHeaders rc data keys acc = inl hs ->
    forall k v,
      hs !! k = Some v <->
      (k ∈ keys
       /\ template_Execute (default "" (Config.Headers rc !! k)) data = inl v
       /\ v <> "")
      \/ acc !! k = Some v.
Proof.
  induction keys as [|key rest IH]; intros acc hs Hnd Hfresh Hr k v;
    cbn [renderHeaders] in Hr.
  - injection Hr as <-. split; [by right|].
    intros [[Hk _]|H]; [set_solver|done].
  - apply NoDup_cons in Hnd as [Hnotin Hnd].
    destruct (template_Execute (default "" (Config.Headers rc !! key)) data)
      as [headerValue|e] eqn:Hex; [|discriminate].
    assert (forall k0, k0 ∈ rest ->
              (if String.eqb headerValue "" then acc
               else <[key := headerValue]> acc) !! k0 = None) as Hfresh'.
    { intros k0 Hk0. destruct (String.eqb headerValue "").
      - apply Hfresh. set_solver.
      - rewrite lookup_insert_ne by (intros ->; done). apply Hfresh. set_solver. }
    rewrite (IH _ _ Hnd Hfresh' Hr k v). clear IH Hr Hfresh'.
    pose proof (Hfresh key ltac:(set_solver)) as Hkey.
    destruct (decide (k = key)) as [->|Hne].
    + split.
      * intros [[Hin _]|Hacc]; [done|].
        destruct (String.eqb headerValue "") eqn:He; [congruence|].
        rewrite lookup_insert_eq in Hacc. injection Hacc as <-.
        apply String.eqb_neq in He. left. split_and!; [set_solver|done|done].
      * intros [(_ & Hv & Hne)|Hacc]; [|congruence].
        right. rewrite Hex in Hv. injection Hv as <-.
        apply String.eqb_neq in Hne. rewrite Hne. by rewrite lookup_insert_eq.
    + assert ((if String.eqb headerValue "" then acc
               else <[key := headerValue]> acc) !! k = acc !! k) as ->.
      { destruct (String.eqb headerValue ""); [done|].
        by rewrite lookup_insert_ne. }
      split.
      * intros [(Hin & Hv)|Hacc]; [left; split; [set_solver|done]|by right].
      * intros [(Hin & Hv)|Hacc]; [left; split; [set_solver|done]|by right].
Qed.

(** X29 ([TemplateRenderer.Render]): the headers of a rendered request do
    not depend on the order in which the header templates are visited.  A
    header is present exactly when it is configured and its template
    renders to a text that is not empty, and it carries that text; the
    method is the configured one. *)
Theorem Render_headers (rc : RequestConfig) (o : RangeOrders)
    (data : gmap string string) (rd : RequestData) :
  NoDup (renderHeaderOrder o) ->
  (forall k, k ∈ renderHeaderOrder o <-> is_Some (Config.Headers rc !! k)) ->
  Render rc o data = inl rd ->
  rdMethod rd = Method rc
  /\ forall k v,
       rdHeaders rd !! k = Some v <->
       exists tmpl, Config.Headers rc !! k = Some tmpl
                    /\ template_Execute tmpl data = inl v /\ v <> "".
Proof.
  intros Hnd Hkeys Hr. unfold Render in Hr.
  destruct (template_Execute (URL rc) data) as [url|]; [|discriminate].
  destruct (renderHeaders rc data (renderHeaderOrder o) ∅) as [headers|] eqn:Hh;
    [|discriminate].
  destruct (if String.eqb (Body rc) "" then _ else _) as [body|]; [|discriminate].
  destruct (if String.eqb (Proxy rc) "" then _ else _) as [proxy|]; [|discriminate].
  injection Hr as <-. cbn [rdMethod rdHeaders]. split; [done|].
  intros k v.
  rewrite (renderHeaders_spec rc data _ ∅ headers Hnd
             ltac:(intros; apply lookup_empty) Hh k v).
  rewrite lookup_empty, Hkeys. split.
  - intros [(Hsome & Hv & Hne)|?]; [|done].
    destruct Hsome as [tmpl Htmpl]. exists tmpl. rewrite Htmpl in Hv. done.
  - intros (tmpl & Htmpl & Hv & Hne). left. rewrite Htmpl. cbn. eauto.
Qed.

End RenderFacts.

(* ===================================================================== *)
(** ** The further properties at concrete inputs *)
(* ===================================================================== *)

Lemma ValidateRow_records_value_witness :
  let row := Examples.contactRow "Kim" "010-1234-5678" in
  "phone" ∈ Validator.uniquenessColumns Examples.contactSchema
  /\ Validator.reachesUniqueness (L := Examples.stubLib) Examples.contactSchema 1 row
     = true
  /\ Validator.uniqueValue (L := Examples.stubLib) Examples.contactSchema 1 row "phone"
     <> ""
  /\ Validator.uniqueValue (L := Examples.stubLib) Examples.contactSchema 1 row "phone"
       ∈ Validator.seenAt
           (Validator.ValidateRow (L := Examples.stubLib) Examples.contactSchema
              (Validator.NewValidator Examples.contactSchema) 1 row).1 "phone".
Proof.
  cbv zeta.
  assert ("phone" ∈ Validator.uniquenessColumns Examples.contactSchema) as H1 by left.
  assert (Validator.reachesUniqueness (L := Examples.stubLib) Examples.contactSchema 1
            (Examples.contactRow "Kim" "010-1234-5678") = true) as H2
    by (vm_compute; reflexivity).
  assert (Validator.uniqueValue (L := Examples.stubLib) Examples.contactSchema 1
            (Examples.contactRow "Kim" "010-1234-5678") "phone" <> "") as H3
    by (vm_compute; discriminate).
  split; [exact H1|]. split; [exact H2|]. split; [exact H3|].
  exact (ValidateRow_records_value (L := Examples.stubLib) Examples.contactSchema
           (Validator.NewValidator Examples.contactSchema) 1
           (Examples.contactRow "Kim" "010-1234-5678") "phone" H1 H2 H3).
Defined.

Lemma column_named_twice_rejects_every_row_witness :
  let row := Examples.contactRow "Kim" "010-1234-5678" in
  Validator.uniquenessColumns MoreExamples.twiceSchema = [] ++ "phone" :: ["phone"]
  /\ "phone" ∈ ["phone"]
  /\ Validator.reachesUniqueness (L := Examples.stubLib) MoreExamples.twiceSchema 1 row
     = true
  /\ Validator.uniqueValue (L := Examples.stubLib) MoreExamples.twiceSchema 1 row "phone"
     <> ""
  /\ Validator.Valid (Validator.ValidateRow (L := Examples.stubLib)
                        MoreExamples.twiceSchema
                        (Validator.NewValidator MoreExamples.twiceSchema) 1 row).2
     = false.
Proof.
  cbv zeta.
  assert ("phone" ∈ ["phone"]) as H2 by left.
  assert (Validator.reachesUniqueness (L := Examples.stubLib) MoreExamples.twiceSchema 1
            (Examples.contactRow "Kim" "010-1234-5678") = true) as H3
    by (vm_compute; reflexivity).
  assert (Validator.uniqueValue (L := Examples.stubLib) MoreExamples.twiceSchema 1
            (Examples.contactRow "Kim" "010-1234-5678") "phone" <> "") as H4
    by (vm_compute; discriminate).
  split; [reflexivity|]. split; [exact H2|]. split; [exact H3|]. split; [exact H4|].
  exact (proj1 (column_named_twice_rejects_every_row (L := Examples.stubLib)
                  MoreExamples.twiceSchema
                  (Validator.NewValidator MoreExamples.twiceSchema) 1
                  (Examples.contactRow "Kim" "010-1234-5678") "phone" [] ["phone"]
                  eq_refl H2 H3 H4)).
Defined.

Lemma row_rules_without_age_never_fail_witness :
  let r := {| Validator.Valid := true; Validator.Errors := [];
              Validator.Data := <["name" := "Kim"]> ∅ |} in
  Forall (fun rule => GoString.Contains (Config.rExpr rule) "age(birth)" = false)
         (Config.RowRules MoreExamples.ruleSchema)
  /\ Validator.validateRowRules (L := Examples.stubLib) MoreExamples.ruleSchema 1 r = r.
Proof.
  cbv zeta.
  assert (Forall (fun rule => GoString.Contains (Config.rExpr rule) "age(birth)" = false)
                 (Config.RowRules MoreExamples.ruleSchema)) as H1.
  { apply Forall_cons. split; [vm_compute; reflexivity|apply Forall_nil_2]. }
  split; [exact H1|].
  exact (row_rules_without_age_never_fail (L := Examples.stubLib)
           MoreExamples.ruleSchema 1 _ H1).
Defined.

Lemma validateSchema_accepts_witness :
  ConfigCheck.validateSchema (L := Examples.stubLib) (R := MoreExamples.stubRegexp)
    1 Examples.contactSchema = None
  /\ NoDup (Config.GetColumnNames Examples.contactSchema).
Proof.
  assert (ConfigCheck.validateSchema (L := Examples.stubLib)
            (R := MoreExamples.stubRegexp) 1 Examples.contactSchema = None) as H1
    by (vm_compute; reflexivity).
  split; [exact H1|].
  exact (proj1 (proj2 (proj2 (validateSchema_accepts (L := Examples.stubLib)
                                (R := MoreExamples.stubRegexp)
                                1 Examples.contactSchema H1)))).
Defined.

Lemma accepted_type_is_supported_witness :
  ConfigCheck.isValidColumnType (L := Examples.stubLib) "int" = true
  /\ Validator.validateType (L := Examples.stubLib) "12a" "int" ""
     <> Some ("unsupported column type: " +:+ "int").
Proof.
  assert (ConfigCheck.isValidColumnType (L := Examples.stubLib) "int" = true) as H1
    by reflexivity.
  split; [exact H1|].
  exact (accepted_type_is_supported (L := Examples.stubLib) "int" "12a" "" H1).
Defined.

Lemma validateRequestConfig_accepts_witness :
  let rc := {| Config.Method := "POST"; Config.URL := "https://api/x";
               Config.Headers := ∅; Config.Body := ""; Config.Proxy := "";
               Config.StatusIn := ConfigCheck.defaultStatusIn;
               Config.ResponseKeys := ∅ |} in
  ConfigCheck.validateRequestConfig MoreExamples.bareConfig = inl rc
  /\ Config.Method rc <> "" /\ Config.URL rc <> "" /\ Config.StatusIn rc <> [].
Proof.
  cbv zeta.
  pose proof (validateRequestConfig_accepts MoreExamples.bareConfig _ eq_refl)
    as (H1 & H2 & H3 & _).
  split; [reflexivity|]. split; [exact H1|]. split; [exact H2|exact H3].
Defined.

Lemma recordToMap_by_position_witness :
  NoDup ["name"; "phone"]
  /\ List.length ["Kim"; "010"] = List.length ["name"; "phone"]
  /\ dom (Reader.recordToMap ["name"; "phone"] ["Kim"; "010"])
     = list_to_set ["name"; "phone"].
Proof.
  assert (NoDup ["name"; "phone"]) as H1.
  { apply (bool_decide_unpack _). vm_compute. reflexivity. }
  split; [exact H1|]. split; [reflexivity|].
  exact (proj1 (recordToMap_by_position ["name"; "phone"] ["Kim"; "010"] H1 eq_refl)).
Defined.

Lemma invalid_row_is_listed_twice_witness :
  let task := MoreExamples.contactTask 4 "ab" "010-1234-5678" in
  Runner.limiterFailed Examples.noteEnv = false
  /\ Validator.Valid
       (Validator.ValidateRow (L := Examples.stubLib) Examples.contactSchema ∅ 4
          (Examples.contactRow "ab" "010-1234-5678")).2 = false
  /\ exists args,
       Runner.calls (Runner.processTask (L := Examples.stubLib)
                       MoreExamples.contactSettings MoreExamples.freshState task
                       Examples.noteEnv) = [args]
       /\ List.map Logger.frReason
            (Logger.failedRows
               (Logger.LogRequest Examples.contactSchema Logger.NewLogger
                  "t1" "t2" args))
          = ["validation_failed"; "validation_error"].
Proof.
  cbv zeta.
  assert (Validator.Valid
            (Validator.ValidateRow (L := Examples.stubLib) Examples.contactSchema ∅ 4
               (Examples.contactRow "ab" "010-1234-5678")).2 = false) as H2
    by (vm_compute; reflexivity).
  split; [reflexivity|]. split; [exact H2|].
  destruct (invalid_row_is_listed_twice (L := Examples.stubLib)
              MoreExamples.contactSettings MoreExamples.freshState
              (MoreExamples.contactTask 4 "ab" "010-1234-5678") Examples.noteEnv
              Logger.NewLogger "t1" "t2" eq_refl H2) as (args & Hcalls & Hrows).
  exists args. split; [exact Hcalls|].
  change (Runner.schema MoreExamples.contactSettings)
    with Examples.contactSchema in Hrows.
  rewrite Hrows. reflexivity.
Defined.

Lemma Execute_retries_and_sleeps_witness :
  let out := Client.ExecuteTrace (L := Examples.stubLib)
               (Examples.postConfig "https://api/x" ∅) 3
               Examples.server_broken_broken_200 "req_1" in
  0 <= 3
  /\ 0 <= Client.Retries out.1 <= 3
  /\ List.length out.2 = Z.to_nat (Client.Retries out.1).
Proof.
  cbv zeta.
  pose proof (Execute_retries_and_sleeps (L := Examples.stubLib)
                (Examples.postConfig "https://api/x" ∅) 3
                Examples.server_broken_broken_200 "req_1" ltac:(lia))
    as (H1 & H2 & _).
  split; [lia|]. split; [exact H1|exact H2].
Defined.

Lemma Execute_success_has_listed_status_witness :
  Client.Success (Client.Execute (L := Examples.stubLib)
                    (Examples.postConfig "https://api/x" ∅) 3
                    Examples.server_200 "req_1") = true
  /\ Config.IsSuccessStatus (Examples.postConfig "https://api/x" ∅)
       (Client.StatusCode (Client.Execute (L := Examples.stubLib)
                             (Examples.postConfig "https://api/x" ∅) 3
                             Examples.server_200 "req_1")) = true.
Proof.
  assert (Client.Success (Client.Execute (L := Examples.stubLib)
                            (Examples.postConfig "https://api/x" ∅) 3
                            Examples.server_200 "req_1") = true) as H1
    by (vm_compute; reflexivity).
  split; [exact H1|].
  exact (Execute_success_has_listed_status (L := Examples.stubLib) _ _ _ _ H1).
Defined.

Lemma Execute_gives_up_after_max_retries_witness :
  let out := Client.ExecuteTrace (L := Examples.stubLib)
               (Examples.postConfig "https://api/x" ∅) 3
               MoreExamples.server_down "req_1" in
  (forall n, ClientWords.retryableFailure
               (Client.transport MoreExamples.server_down n))
  /\ (forall n, Client.ctxDone MoreExamples.server_down n = false)
  /\ Client.Retries out.1 = 3
  /\ Client.Success out.1 = false
  /\ List.length out.2 = 3%nat.
Proof.
  cbv zeta.
  assert (forall n, ClientWords.retryableFailure
                      (Client.transport MoreExamples.server_down n)) as H1
    by (intros n; reflexivity).
  assert (forall n, Client.ctxDone MoreExamples.server_down n = false) as H2
    by (intros n; reflexivity).
  pose proof (Execute_gives_up_after_max_retries (L := Examples.stubLib)
                (Examples.postConfig "https://api/x" ∅) 3
                MoreExamples.server_down "req_1" ltac:(lia) H1 H2)
    as (R1 & R2 & _ & R4).
  split; [exact H1|]. split; [exact H2|]. split; [exact R1|].
  split; [exact R2|exact R4].
Defined.

Lemma Execute_keeps_error_category_witness :
  let r := Client.Execute (L := Examples.stubLib)
             (Examples.postConfig "https://api/x" ∅) 3
             Examples.server_broken_broken_200 "req_1" in
  ClientWords.failedAttempt (Client.transport Examples.server_broken_broken_200 0)
  /\ Client.Success r = true
  /\ Client.ErrorCategory r ∈ ClientWords.errorCategories.
Proof.
  cbv zeta.
  split; [exact I|]. split; [vm_compute; reflexivity|].
  exact (Execute_keeps_error_category (L := Examples.stubLib)
           (Examples.postConfig "https://api/x" ∅) 3
           Examples.server_broken_broken_200 "req_1" ltac:(lia) I).
Defined.

Lemma loaded_checkpoint_skips_row_witness :
  let cfg := Examples.noteSettings "https://api/x" in
  let task := Examples.noteTask 1 "Kim" in
  let st' := Runner.processTask (L := Examples.stubLib) cfg
               (Runner.LoadCheckpoints MoreExamples.freshState
                  MoreExamples.kimCheckpoint)
               task Examples.noteEnv in
  MoreExamples.kimCheckpoint !! MoreExamples.kimFingerprint = Some false
  /\ Runner.calls st' = []
  /\ Runner.SkippedRows (Runner.counters st') = 1.
Proof.
  cbv zeta.
  assert (Validator.Valid
            (Validator.ValidateRow (L := Examples.stubLib)
               (Runner.schema (Examples.noteSettings "https://api/x"))
               (Runner.seen MoreExamples.freshState)
               (Runner.RowNumber (Examples.noteTask 1 "Kim"))
               (Runner.TaskData (Examples.noteTask 1 "Kim"))).2 = true) as H2
    by (vm_compute; reflexivity).
  assert (is_Some
            (MoreExamples.kimCheckpoint
               !! Fingerprint.runnerRequestHash (L := Examples.stubLib)
                    (Runner.requestConfig (Examples.noteSettings "https://api/x"))
                    (Validator.Data
                       (Validator.ValidateRow (L := Examples.stubLib)
                          (Runner.schema (Examples.noteSettings "https://api/x"))
                          (Runner.seen MoreExamples.freshState)
                          (Runner.RowNumber (Examples.noteTask 1 "Kim"))
                          (Runner.TaskData (Examples.noteTask 1 "Kim"))).2)
                    (Runner.runnerKeyOrder Examples.noteEnv))) as H3.
  { exists false. vm_compute. reflexivity. }
  pose proof (loaded_checkpoint_skips_row (L := Examples.stubLib)
                (Examples.noteSettings "https://api/x") MoreExamples.freshState
                MoreExamples.kimCheckpoint (Examples.noteTask 1 "Kim")
                Examples.noteEnv eq_refl H2 H3) as (R1 & R2 & _).
  split; [vm_compute; reflexivity|]. split; [exact R1|].
  rewrite R2. reflexivity.
Defined.

Lemma Render_headers_witness :
  exists rd,
    NoDup (Template.renderHeaderOrder MoreExamples.traceOrders)
    /\ (forall k, k ∈ Template.renderHeaderOrder MoreExamples.traceOrders
                  <-> is_Some (Config.Headers MoreExamples.traceConfig !! k))
    /\ Template.Render (L := Examples.stubLib) MoreExamples.traceConfig
         MoreExamples.traceOrders (<["name" := "Kim"]> ∅) = inl rd
    /\ Client.rdMethod rd = "POST"
    /\ Client.rdHeaders rd !! "X-Trace" = Some "abc"
    /\ Client.rdHeaders rd !! "X-Empty" = None.
Proof.
  destruct (Template.Render (L := Examples.stubLib) MoreExamples.traceConfig
              MoreExamples.traceOrders (<["name" := "Kim"]> ∅)) as [rd|e] eqn:Hr;
    [|vm_compute in Hr; discriminate Hr].
  exists rd.
  assert (NoDup (Template.renderHeaderOrder MoreExamples.traceOrders)) as H1.
  { apply (bool_decide_unpack _). vm_compute. reflexivity. }
  assert (forall k, k ∈ Template.renderHeaderOrder MoreExamples.traceOrders
                    <-> is_Some (Config.Headers MoreExamples.traceConfig !! k)) as H2.
  { intros k. rewrite <- elem_of_dom.
    change (Config.Headers MoreExamples.traceConfig)
      with (<["X-Empty" := ""]> (<["X-Trace" := "abc"]> ∅) : gmap string string).
    rewrite !dom_insert_L, dom_empty_L.
    change (Template.renderHeaderOrder MoreExamples.traceOrders)
      with ["X-Trace"; "X-Empty"].
    set_solver. }
  pose proof (Render_headers (L := Examples.stubLib) MoreExamples.traceConfig
                MoreExamples.traceOrders (<["name" := "Kim"]> ∅) rd H1 H2 Hr)
    as (R1 & R2).
  split; [exact H1|]. split; [exact H2|]. split; [reflexivity|].
  split; [exact R1|]. split.
  - apply R2. exists "abc". split; [vm_compute; reflexivity|].
    split; [reflexivity|discriminate].
  - destruct (Client.rdHeaders rd !! "X-Empty") as [v|] eqn:Hv; [|reflexivity].
    apply R2 in Hv. destruct Hv as (tmpl & Ht & Hex & Hne).
    assert (tmpl = "") as -> by (vm_compute in Ht; congruence).
    vm_compute in Hex. congruence.
Defined.
